(** * Workflow-graph core of the focus companion: a shallow embedding

    The development follows the Python sources of [cyntra.agents]:

    - [cyntra/commons]            error codes, surfaces, identifiers, the clock,
                                  ISO 8601 text
    - [agents/schemas]            missions, blocks, episodes, profiles, requests
    - [agents/memory/in_memory]   the dictionary-backed repositories
    - [agents/tools]              mission, timeline, memory and UI tool sets
    - [agents/graphs/base]        the shared workflow state and its map form
    - [agents/graphs/*_graph]     planner, coach and archivist pipelines
    - [agents/graphs/router]      the dispatcher

    Conventions of the embedding.

    - Python [int] is [Z]; [T | None] is [option T]; [list[T]] is
      [list T].  The [float] that is multiplied and truncated (the hours
      of a plan) is a binary64 [float]; the ratios and averages, which are
      only compared and shown, are the rationals [Q] they stand for.
    - A [str] is the [string] of its UTF-8 bytes; its characters, which
      slicing, stripping and splitting work on, are the groups of bytes
      [chars] makes.
    - A [date] is its proleptic Gregorian ordinal ([date.toordinal()]), so
      that [date + timedelta(days=i)] and [date.weekday()] are the
      arithmetic CPython performs.  A schema [datetime] is a date, the
      microsecond of that day and whether it carries an offset.
      Ordering a naive datetime against an offset-aware one raises
      [TypeError] in Python: the functions that order stored timestamps
      against the naive [datetime.min] or [datetime.max] raise with it;
      the timestamps held in one repository column ([created_at],
      [updated_at]) are taken to be mutually comparable.
    - A repository dictionary keyed by the record's own [id] is the list
      of its values in insertion order.
    - Code that raises is a computation in a state-and-exception monad over
      the [World]: the repositories, the supply of fresh identifiers and
      the clock readings.
    - Schema records stand for validated pydantic instances; constructing
      one from raw text strips surrounding white space, as
      [str_strip_whitespace=True] does.
    - A LangGraph run of a linear graph is the composition of its nodes in
      edge order; the string-keyed [outputs] channel of each graph is a
      record with one optional field per key. *)

From Stdlib Require Import ZArith List String Ascii QArith Qminmax Lia Bool DecimalString
  Permutation SpecFloat.
From stdpp Require Import gmap strings.
Import ListNotations.

#[local] Set Warnings "-register-all".
#[local] Open Scope string_scope.
#[local] Open Scope Z_scope.

(* ===================================================================== *)
(** ** Python values, truthiness and exceptions *)
(* ===================================================================== *)

(** A Python [float]: an IEEE 754 binary64 number. *)
Definition float : Type := spec_float.

(** [60.0]. *)
Definition float_60 : float := S754_finite false (60 * 2 ^ 47) (-47).

Module ErrorCode.
(** [cyntra/commons/schema/errors.py], [class ErrorCode]. *)
Inductive t :=
| VALIDATION_ERROR | UNAUTHENTICATED | PERMISSION_DENIED | NOT_FOUND
| CONFLICT | RATE_LIMITED | INTERNAL_ERROR | DEPENDENCY_FAILURE.
End ErrorCode.

(** The exceptions the modelled code can raise.  [ServiceError] is the
    repository's own ([errors.py]); the others are Python's.  [Untypable]
    is not a Python exception: it marks a plain map that holds, for a
    declared field, a value of another type than the field declares.
    Python stores such a value unchecked; the typed record cannot. *)
Inductive exn :=
| ValueError (msg : string)
| TypeError (msg : string)
| AttributeError (msg : string)
| KeyError (key : string)
| OverflowError (msg : string)
| ValidationError (msg : string)
| ServiceError (code : ErrorCode.t) (message : string) (details : list (string * string))
| Untypable (field : string).

Inductive result (A : Type) :=
| Ok (a : A)
| Raise (e : exn).
Arguments Ok {A} a.
Arguments Raise {A} e.

Definition is_ok {A} (r : result A) : bool :=
  match r with Ok _ => true | Raise _ => false end.

(** [bool(s)] for a string, and for an optional string. *)
Definition truthy_str (s : string) : bool :=
  match s with EmptyString => false | _ => true end.

Definition truthy_opt_str (o : option string) : bool :=
  match o with Some s => truthy_str s | None => false end.

(** [bool(n)] for an optional integer: [None] and [0] are falsy. *)
Definition truthy_opt_int (o : option Z) : bool :=
  match o with Some n => negb (n =? 0) | None => false end.

(** [x or d] for an optional integer [x]. *)
Definition or_int (o : option Z) (d : Z) : Z :=
  match o with Some n => if n =? 0 then d else n | None => d end.

(** [str(n)] for an integer. *)
Definition str_int (n : Z) : string := NilZero.string_of_int (Z.to_int n).

(** [str(x)] of an optional integer inside an f-string. *)
Definition str_opt_int (o : option Z) : string :=
  match o with Some n => str_int n | None => "None" end.

(** [sep.join(parts)]. *)
Fixpoint join (sep : string) (parts : list string) : string :=
  match parts with
  | [] => ""
  | [p] => p
  | p :: rest => p ++ sep ++ join sep rest
  end.

(** *** Text

    A Python [str] is kept as the [string] of its UTF-8 bytes.  Its
    characters are the groups [chars] makes: a byte that is not a
    continuation byte ([10xxxxxx]) together with the continuation bytes
    that follow it. *)
Definition is_continuation_byte (c : ascii) : bool :=
  let n := nat_of_ascii c in ((128 <=? n) && (n <=? 191))%nat.

Fixpoint chars (s : string) : list string :=
  match s with
  | EmptyString => []
  | String c s' =>
      match chars s' with
      | (String c' _ as ch) :: rest =>
          if is_continuation_byte c' then String c ch :: rest
          else String c "" :: ch :: rest
      | l => String c "" :: l
      end
  end.

(** [len(s)]. *)
Definition str_len (s : string) : Z := Z.of_nat (List.length (chars s)).

Definition bytes_of (ch : string) : list nat :=
  map nat_of_ascii (list_ascii_of_string ch).

(** The characters with the Unicode property [White_Space], which
    [str_strip_whitespace] of pydantic strips: U+0009 to U+000D, U+0020,
    U+0085, U+00A0, U+1680, U+2000 to U+200A, U+2028, U+2029, U+202F,
    U+205F and U+3000, by their UTF-8 bytes. *)
Definition is_white_space (ch : string) : bool :=
  match bytes_of ch with
  | [n] => (((9 <=? n) && (n <=? 13)) || (n =? 32))%nat
  | [a; n] => ((a =? 194) && ((n =? 133) || (n =? 160)))%nat
  | [a; b; n] =>
      (((a =? 225) && (b =? 154) && (n =? 128))
       || ((a =? 226) && (b =? 128)
           && (((128 <=? n) && (n <=? 138)) || (n =? 168) || (n =? 169) || (n =? 175)))
       || ((a =? 226) && (b =? 129) && (n =? 159))
       || ((a =? 227) && (b =? 128) && (n =? 128)))%nat
  | _ => false
  end.

(** The characters [str.isspace] accepts, which [str.strip()] and
    [str.split()] take for white space: those above and U+001C to
    U+001F. *)
Definition is_py_space (ch : string) : bool :=
  is_white_space ch
  || match bytes_of ch with
     | [n] => ((28 <=? n) && (n <=? 31))%nat
     | _ => false
     end.

Fixpoint drop_while {A} (p : A -> bool) (l : list A) : list A :=
  match l with
  | x :: l' => if p x then drop_while p l' else l
  | [] => []
  end.

(** The text without the white space at its two ends. *)
Definition strip_with (space : string -> bool) (s : string) : string :=
  String.concat "" (rev (drop_while space (rev (drop_while space (chars s))))).

(** What [str_strip_whitespace=True] makes of a string field. *)
Definition strip (s : string) : string := strip_with is_white_space s.

(** [s.strip()]. *)
Definition py_strip (s : string) : string := strip_with is_py_space s.

(** [repr] of a [str]: between single quotes, or double quotes when the
    text has a single quote and no double quote; the quote in use and the
    backslash are escaped, and so are the characters Python holds
    unprintable.  Those are told here up to U+00FF; a character beyond
    is written as it is. *)
Definition hex_digit (n : nat) : ascii :=
  nth n ["0"; "1"; "2"; "3"; "4"; "5"; "6"; "7"; "8"; "9";
         "a"; "b"; "c"; "d"; "e"; "f"]%char "0"%char.

Definition backslash : ascii := ascii_of_nat 92.
Definition single_quote : ascii := ascii_of_nat 39.
Definition double_quote : ascii := ascii_of_nat 34.

Definition escape_hex (n : nat) : string :=
  String backslash
    (String "x" (String (hex_digit (n / 16)) (String (hex_digit (n mod 16)) ""))).

Definition repr_char (quote : ascii) (ch : string) : string :=
  match bytes_of ch with
  | [n] =>
      if ((n =? nat_of_ascii quote) || (n =? 92))%nat then String backslash ch
      else if (n =? 9)%nat then String backslash "t"
      else if (n =? 10)%nat then String backslash "n"
      else if (n =? 13)%nat then String backslash "r"
      else if ((n <? 32) || (n =? 127))%nat then escape_hex n
      else ch
  | [a; n] =>
      if ((a =? 194) && ((n <=? 160) || (n =? 173)))%nat then escape_hex n else ch
  | _ => ch
  end.

Definition repr_str (s : string) : string :=
  let cs := chars s in
  let has c := existsb (String.eqb (String c "")) cs in
  let quote :=
    if has single_quote && negb (has double_quote) then double_quote
    else single_quote in
  String quote (String.concat "" (map (repr_char quote) cs) ++ String quote "").

Definition strip_opt (o : option string) : option string := option_map strip o.

(** [s[:n]]: the first [n] characters. *)
Definition prefix_slice (n : nat) (s : string) : string :=
  String.concat "" (firstn n (chars s)).

(* ===================================================================== *)
(** ** graphs/base.py: the shared workflow state *)
(* ===================================================================== *)

Module Base.

(** What a [dict[str, Any]] can hold. *)
Inductive PyVal : Type :=
| PNone
| PBool (b : bool)
| PInt (z : Z)
| PStr (s : string)
| PList (l : list PyVal)
| PDict (d : gmap string PyVal).

Inductive GlyphMode := PLANNER | COACH | ARCHIVIST | CHAT.

Definition mode_value (m : GlyphMode) : string :=
  match m with
  | PLANNER => "planner" | COACH => "coach"
  | ARCHIVIST => "archivist" | CHAT => "chat"
  end.

(** [GlyphMode(v)]: the member whose value is [v]. *)
Definition GlyphMode_of (v : PyVal) : result GlyphMode :=
  match v with
  | PStr s =>
      if String.eqb s "planner" then Ok PLANNER
      else if String.eqb s "coach" then Ok COACH
      else if String.eqb s "archivist" then Ok ARCHIVIST
      else if String.eqb s "chat" then Ok CHAT
      else Raise (ValueError (repr_str s ++ " is not a valid GlyphMode"))
  | _ => Raise (ValueError "not a valid GlyphMode")
  end.

(** *** [datetime] with its calendar fields, for [isoformat] *)

(** A [datetime.datetime]: the civil fields and, for an aware value, the
    UTC offset in microseconds. *)
Record datetime := {
  year : Z; month : Z; day : Z;
  hour : Z; minute : Z; second : Z; microsecond : Z;
  utcoffset : option Z
}.

Definition is_leap (y : Z) : bool :=
  (y mod 4 =? 0) && (negb (y mod 100 =? 0) || (y mod 400 =? 0)).

(** The table of the days of the months, with the unused entry 0 in
    front; an index outside the table reads as 0 (C reads there only
    for a month below 1, which the constructor refuses whatever was
    read). *)
Definition _days_in_month (month : Z) : Z :=
  nth (Z.to_nat month) [0; 31; 28; 31; 30; 31; 30; 31; 31; 30; 31; 30; 31] 0.

Definition days_in_month (year month : Z) : Z :=
  if (month =? 2) && is_leap year then 29 else _days_in_month month.

Definition in_range (lo hi x : Z) : bool := (lo <=? x) && (x <=? hi).

Definition day_us : Z := 86400 * 1000000.

(** The checks of the [datetime] and [timezone] constructors. *)
Definition valid_datetime (d : datetime) : bool :=
  in_range 1 9999 (year d) && in_range 1 12 (month d)
  && in_range 1 (days_in_month (year d) (month d)) (day d)
  && in_range 0 23 (hour d) && in_range 0 59 (minute d)
  && in_range 0 59 (second d) && in_range 0 999999 (microsecond d)
  && match utcoffset d with
     | None => true
     | Some off => (- day_us <? off) && (off <? day_us)
     end.

Definition digit_char (d : Z) : ascii := ascii_of_nat (48 + Z.to_nat d).

Definition digit_val (c : ascii) : option Z :=
  let n := nat_of_ascii c in
  if ((48 <=? n) && (n <=? 57))%nat then Some (Z.of_nat n - 48) else None.

(** ["%0nd" % z] for [0 <= z < 10^n]: the [n] low decimal digits. *)
Fixpoint fmt_digits (n : nat) (z : Z) : string :=
  match n with
  | O => ""
  | S n' => String (digit_char ((z / 10 ^ Z.of_nat n') mod 10)) (fmt_digits n' z)
  end.

(** Reads exactly [n] decimal digits. *)
Fixpoint parse_digits (n : nat) (acc : Z) (s : string) : option (Z * string) :=
  match n with
  | O => Some (acc, s)
  | S n' =>
      match s with
      | String c s' =>
          match digit_val c with
          | Some d => parse_digits n' (10 * acc + d) s'
          | None => None
          end
      | EmptyString => None
      end
  end.

Definition hour_us : Z := 3600 * 1000000.
Definition minute_us : Z := 60 * 1000000.

(** [_format_offset]: [+HH:MM], then [:SS] and [.ffffff] when present. *)
Definition format_offset (o : option Z) : string :=
  match o with
  | None => ""
  | Some off =>
      let sign := if off <? 0 then "-" else "+" in
      let a := Z.abs off in
      let hh := a / hour_us in
      let r := a mod hour_us in
      let mm := r / minute_us in
      let ss := r mod minute_us in
      sign ++ fmt_digits 2 hh ++ ":" ++ fmt_digits 2 mm ++
      (if ss =? 0 then ""
       else ":" ++ fmt_digits 2 (ss / 1000000) ++
            (if ss mod 1000000 =? 0 then ""
             else "." ++ fmt_digits 6 (ss mod 1000000)))
  end.

(** [datetime.isoformat()] with the default separator and [timespec]. *)
Definition isoformat (d : datetime) : string :=
  fmt_digits 4 (year d) ++ "-" ++ fmt_digits 2 (month d) ++ "-" ++
  fmt_digits 2 (day d) ++ "T" ++
  fmt_digits 2 (hour d) ++ ":" ++ fmt_digits 2 (minute d) ++ ":" ++
  fmt_digits 2 (second d) ++
  (if microsecond d =? 0 then "" else "." ++ fmt_digits 6 (microsecond d)) ++
  format_offset (utcoffset d).

(** *** Reading ISO 8601 text: [datetime.fromisoformat] of CPython 3.11

    The functions below follow [Modules/_datetimemodule.c].  A C pointer
    into the text is the rest of the text from that place on; [peek] is
    [*p], which is the terminating zero byte at the end, and [next] is
    [p + 1]. *)

Definition peek (p : string) : ascii :=
  match p with String c _ => c | EmptyString => "000"%char end.

Definition next (p : string) : string :=
  match p with String _ p' => p' | EmptyString => EmptyString end.

Fixpoint drop_bytes (n : nat) (p : string) : string :=
  match n with
  | O => p
  | S n' => drop_bytes n' (next p)
  end.

Definition is_digit (c : ascii) : bool :=
  match digit_val c with Some _ => true | None => false end.

(** The number of digits the text starts with. *)
Fixpoint digit_run (p : string) : nat :=
  match p with
  | String c p' => if is_digit c then S (digit_run p') else O
  | EmptyString => O
  end.

(** [_find_isoformat_datetime_separator]: where the date ends, from the
    bytes 4 and 5 ([YYYY-MM-DD], [YYYYMMDD], [YYYY-Www], [YYYY-Www-d],
    [YYYYWww] or [YYYYWwwd]); [-1] when no date can end there. *)
Definition find_isoformat_datetime_separator (dtstr : string) : Z :=
  let len := String.length dtstr in
  let at_ i := peek (drop_bytes i dtstr) in
  if (len =? 7)%nat then 7
  else if Ascii.eqb (at_ 4%nat) "-" then
    if Ascii.eqb (at_ 5%nat) "W" then
      if (len <? 8)%nat then -1
      else if (8 <? len)%nat && Ascii.eqb (at_ 8%nat) "-" then
        if (len =? 9)%nat then -1
        else if (10 <? len)%nat && is_digit (at_ 10%nat) then 8
        else 10
      else 8
    else 10
  else if Ascii.eqb (at_ 4%nat) "W" then
    let idx := (7 + digit_run (drop_bytes 7 dtstr))%nat in
    if (idx <? 9)%nat then Z.of_nat idx
    else if Nat.even idx then 7
    else 8
  else 8.

(** The days before each month of a common year, read like
    [_days_in_month]. *)
Definition _days_before_month (month : Z) : Z :=
  nth (Z.to_nat month) [0; 0; 31; 59; 90; 120; 151; 181; 212; 243; 273; 304; 334] 0.

Definition days_before_month (year month : Z) : Z :=
  _days_before_month month + (if (2 <? month) && is_leap year then 1 else 0).

(** C division and remainder truncate towards zero. *)
Definition days_before_year (year : Z) : Z :=
  let y := year - 1 in
  y * 365 + Z.quot y 4 - Z.quot y 100 + Z.quot y 400.

Definition ymd_to_ord (year month day : Z) : Z :=
  days_before_year year + days_before_month year month + day.

Definition weekday (year month day : Z) : Z :=
  Z.rem (ymd_to_ord year month day + 6) 7.

Definition iso_week1_monday (year : Z) : Z :=
  let first_day := ymd_to_ord year 1 1 in
  let first_weekday := Z.rem (first_day + 6) 7 in
  let week1_monday := first_day - first_weekday in
  if 3 <? first_weekday then week1_monday + 7 else week1_monday.

Definition DI4Y : Z := 1461.
Definition DI100Y : Z := 36524.
Definition DI400Y : Z := 146097.

Definition ord_to_ymd (ordinal : Z) : Z * Z * Z :=
  let ordinal := ordinal - 1 in
  let n400 := Z.quot ordinal DI400Y in
  let n := Z.rem ordinal DI400Y in
  let n100 := Z.quot n DI100Y in
  let n := Z.rem n DI100Y in
  let n4 := Z.quot n DI4Y in
  let n := Z.rem n DI4Y in
  let n1 := Z.quot n 365 in
  let n := Z.rem n 365 in
  let year := n400 * 400 + 1 + n100 * 100 + n4 * 4 + n1 in
  if (n1 =? 4) || (n100 =? 4) then (year - 1, 12, 31)
  else
    let leapyear := (n1 =? 3) && (negb (n4 =? 24) || (n100 =? 3)) in
    let month := Z.shiftr (n + 50) 5 in
    let preceding :=
      _days_before_month month + (if (2 <? month) && leapyear then 1 else 0) in
    if n <? preceding then
      let month := month - 1 in
      let preceding := preceding - days_in_month year month in
      (year, month, n - preceding + 1)
    else (year, month, n - preceding + 1).

(** [iso_to_ymd]: the date of a day of an ISO week. *)
Definition iso_to_ymd (iso_year iso_week iso_day : Z) : option (Z * Z * Z) :=
  let out_of_range :=
    if (iso_week <=? 0) || (53 <=? iso_week) then
      if iso_week =? 53 then
        let first_weekday := weekday iso_year 1 1 in
        negb ((first_weekday =? 3) || ((first_weekday =? 2) && is_leap iso_year))
      else true
    else false in
  if out_of_range then None
  else if (iso_day <=? 0) || (8 <=? iso_day) then None
  else
    let day_1 := iso_week1_monday iso_year in
    let day_offset := (iso_week - 1) * 7 + iso_day - 1 in
    Some (ord_to_ymd (day_1 + day_offset)).

(** [parse_isoformat_date]; [len] is the separator's place, which C
    takes as an unsigned number, so that [-1] is beyond every place. *)
Definition parse_isoformat_date (dtstr : string) (len : Z) : option (Z * Z * Z) :=
  match parse_digits 4 0 dtstr with
  | None => None
  | Some (year, p) =>
      let uses_separator := Ascii.eqb (peek p) "-" in
      let p := if uses_separator then next p else p in
      if Ascii.eqb (peek p) "W" then
        match parse_digits 2 0 (next p) with
        | None => None
        | Some (iso_week, p) =>
            let consumed := Z.of_nat (String.length dtstr - String.length p) in
            if (len <? 0) || (consumed <? len) then
              if uses_separator && negb (Ascii.eqb (peek p) "-") then None
              else
                match parse_digits 1 0 (if uses_separator then next p else p) with
                | None => None
                | Some (iso_day, _) => iso_to_ymd year iso_week iso_day
                end
            else iso_to_ymd year iso_week 1
        end
      else
        match parse_digits 2 0 p with
        | None => None
        | Some (month, p) =>
            if uses_separator && negb (Ascii.eqb (peek p) "-") then None
            else
              match parse_digits 2 0 (if uses_separator then next p else p) with
              | None => None
              | Some (day, _) => Some (year, month, day)
              end
        end
  end.

(** Skips the digits that are cut off. *)
Fixpoint skip_digits (p : string) : string :=
  match p with
  | String c p' => if is_digit c then skip_digits p' else p
  | EmptyString => EmptyString
  end.

(** The fraction of a second of [parse_hh_mm_ss_ff]: up to six digits
    are read and scaled to microseconds, further digits are skipped;
    [to_end] is the number of bytes from the end of the part to the end
    of the text.  The boolean tells that the text goes on. *)
Definition parse_ff (p : string) (to_end : nat) : option (Z * bool) :=
  let len_remains := (String.length p - to_end)%nat in
  let to_parse := Nat.min len_remains 6 in
  match parse_digits to_parse 0 p with
  | None => None
  | Some (microsecond, p) =>
      Some (microsecond * 10 ^ Z.of_nat (6 - to_parse),
            negb (Ascii.eqb (peek (skip_digits p)) "000"))
  end.

(** What the loop of [parse_hh_mm_ss_ff] ends with: a return, or the
    place of the fraction. *)
Inductive hms_end :=
| Return (more : bool)
| Fraction (p : string).

(** The loop over hour, minute and second; [i] counts the fields still
    to read, [has_separator] is decided after the first. *)
Fixpoint parse_hh_mm_ss (i : nat) (has_separator : bool) (p : string)
         (to_end : nat) : option (list Z * hms_end) :=
  match i with
  | O => Some ([], Fraction p)
  | S i' =>
      match parse_digits 2 0 p with
      | None => None
      | Some (v, q) =>
          let c := peek q in
          let has_separator :=
            if (i =? 3)%nat then Ascii.eqb c ":" else has_separator in
          let more (r : option (list Z * hms_end)) :=
            match r with
            | Some (vs, e) => Some (v :: vs, e)
            | None => None
            end in
          if (String.length (next q) <=? to_end)%nat then
            Some ([v], Return (negb (Ascii.eqb c "000")))
          else if has_separator && Ascii.eqb c ":" then
            more (parse_hh_mm_ss i' has_separator (next q) to_end)
          else if Ascii.eqb c "." || Ascii.eqb c "," then
            Some ([v], Fraction (next q))
          else if negb has_separator then
            more (parse_hh_mm_ss i' has_separator q to_end)
          else None
      end
  end.

(** [parse_hh_mm_ss_ff] on the part of the text that ends [to_end] bytes
    before the end: [HH[:MM[:SS]]] or [HH[MM[SS]]] and a fraction after a
    dot or a comma.  The boolean is the return code 1: the text goes on
    after what was read. *)
Definition parse_hh_mm_ss_ff (tstr : string) (to_end : nat)
  : option (Z * Z * Z * Z * bool) :=
  match parse_hh_mm_ss 3 true tstr to_end with
  | None => None
  | Some (vs, e) =>
      let hour := nth 0 vs 0 in
      let minute := nth 1 vs 0 in
      let second := nth 2 vs 0 in
      match e with
      | Return more => Some (hour, minute, second, 0, more)
      | Fraction p =>
          match parse_ff p to_end with
          | Some (microsecond, more) => Some (hour, minute, second, microsecond, more)
          | None => None
          end
      end
  end.

Definition is_tz_start (c : ascii) : bool :=
  Ascii.eqb c "Z" || Ascii.eqb c "+" || Ascii.eqb c "-".

(** The text from the first [Z], [+] or [-] on. *)
Fixpoint find_tzinfo (p : string) : string :=
  match p with
  | String c p' => if is_tz_start c then p else find_tzinfo p'
  | EmptyString => EmptyString
  end.

(** [parse_isoformat_time]: the time and, when the text has one, the
    offset in seconds and microseconds.  What [parse_hh_mm_ss_ff] leaves
    unread before an offset is not looked at. *)
Definition parse_isoformat_time (dtstr : string)
  : option (Z * Z * Z * Z * option (Z * Z)) :=
  match dtstr with
  | EmptyString => None
  | _ =>
      let tzinfo_pos := find_tzinfo dtstr in
      match parse_hh_mm_ss_ff dtstr (String.length tzinfo_pos) with
      | None => None
      | Some (hour, minute, second, microsecond, more) =>
          match tzinfo_pos with
          | EmptyString =>
              if more then None else Some (hour, minute, second, microsecond, None)
          | String c tz =>
              if Ascii.eqb c "Z" then
                if Ascii.eqb (peek tz) "000"
                then Some (hour, minute, second, microsecond, Some (0, 0))
                else None
              else
                let tzsign := if Ascii.eqb c "-" then -1 else 1 in
                match parse_hh_mm_ss_ff tz 0 with
                | Some (tzhour, tzminute, tzsecond, tzmicrosecond, false) =>
                    Some (hour, minute, second, microsecond,
                          Some (tzsign * (tzhour * 3600 + tzminute * 60 + tzsecond),
                                tzsign * tzmicrosecond))
                | _ => None
                end
          end
      end
  end.

(** [repr] of a [timedelta] of so many microseconds. *)
Definition repr_timedelta (us : Z) : string :=
  let days := us / day_us in
  let seconds := (us mod day_us) / 1000000 in
  let microseconds := us mod 1000000 in
  let part (name : string) (v : Z) : list string :=
    if v =? 0 then [] else [name ++ "=" ++ str_int v] in
  let parts :=
    (part "days" days ++ part "seconds" seconds
     ++ part "microseconds" microseconds)%list in
  "datetime.timedelta("
  ++ match parts with [] => "0" | _ => String.concat ", " parts end ++ ")".

(** [tzinfo_from_isoformat_results]: no offset, UTC for an offset of no
    whole second, else the [timezone] of the offset, which has to be
    less than a day. *)
Definition tzinfo_from_isoformat_results (tz : option (Z * Z)) : result (option Z) :=
  match tz with
  | None => Ok None
  | Some (tzoffset, tz_useconds) =>
      if tzoffset =? 0 then Ok (Some 0)
      else
        let offset := tzoffset * 1000000 + tz_useconds in
        if (- day_us <? offset) && (offset <? day_us) then Ok (Some offset)
        else Raise (ValueError
               ("offset must be a timedelta strictly between -timedelta(hours=24)"
                ++ " and timedelta(hours=24), not " ++ repr_timedelta offset ++ "."))
  end.

(** [new_datetime_ex]: the checks of [check_date_args] and
    [check_time_args], in their order. *)
Definition new_datetime (dt : datetime) : result datetime :=
  if negb (in_range 1 9999 (year dt)) then
    Raise (ValueError ("year " ++ str_int (year dt) ++ " is out of range"))
  else if negb (in_range 1 12 (month dt)) then
    Raise (ValueError "month must be in 1..12")
  else if negb (in_range 1 (days_in_month (year dt) (month dt)) (day dt)) then
    Raise (ValueError "day is out of range for month")
  else if negb (in_range 0 23 (hour dt)) then
    Raise (ValueError "hour must be in 0..23")
  else if negb (in_range 0 59 (minute dt)) then
    Raise (ValueError "minute must be in 0..59")
  else if negb (in_range 0 59 (second dt)) then
    Raise (ValueError "second must be in 0..59")
  else if negb (in_range 0 999999 (microsecond dt)) then
    Raise (ValueError "microsecond must be in 0..999999")
  else Ok dt.

Definition invalid_iso (s : string) : exn :=
  ValueError ("Invalid isoformat string: " ++ repr_str s).

(** The place after the character that separates date and time: the
    first byte of a UTF-8 character tells how many bytes it has. *)
Definition after_separator (p : string) : string :=
  let n := nat_of_ascii (peek p) in
  if (n <? 128)%nat then drop_bytes 1 p
  else if (n / 16 =? 14)%nat then drop_bytes 3 p
  else if (n / 16 =? 15)%nat then drop_bytes 4 p
  else drop_bytes 2 p.

(** [datetime.fromisoformat]: a text of fewer than seven characters is
    refused; the date runs up to the separator, one character is the
    separator, and the time follows. *)
Definition fromisoformat (dtstr : string) : result datetime :=
  let bad := Raise (invalid_iso dtstr) in
  if str_len dtstr <? 7 then bad
  else
    let len := Z.of_nat (String.length dtstr) in
    let separator_location := find_isoformat_datetime_separator dtstr in
    match parse_isoformat_date dtstr separator_location with
    | None => bad
    | Some (y, m, d) =>
        let time :=
          if separator_location <? len then
            parse_isoformat_time
              (after_separator (drop_bytes (Z.to_nat separator_location) dtstr))
          else Some (0, 0, 0, 0, None) in
        match time with
        | None => bad
        | Some (hh, mm, ss, ff, tz) =>
            match tzinfo_from_isoformat_results tz with
            | Raise e => Raise e
            | Ok tzinfo =>
                new_datetime {| year := y; month := m; day := d; hour := hh;
                                minute := mm; second := ss; microsecond := ff;
                                utcoffset := tzinfo |}
            end
        end
    end.

(** *** The state records *)

Record GlyphContext := {
  user_id : string;
  session_id : option string;
  mission_id : option string;
  block_id : option string;
  surface : string;
  user_name : option string;
  timezone : string;
  graph_id : option string;
  focus_node_ids : list string
}.

Record GlyphState := {
  context : GlyphContext;
  mode : GlyphMode;
  messages : list (gmap string PyVal);
  scratchpad : string;
  outputs : gmap string PyVal;
  errors : list string;
  started_at : datetime;
  updated_at : datetime
}.

(** How typed fields sit in a map. *)
Definition of_opt_str (o : option string) : PyVal :=
  match o with Some s => PStr s | None => PNone end.

(** [state_to_dict]. *)
Definition state_to_dict (state : GlyphState) : gmap string PyVal :=
  let c := context state in
  list_to_map [
    ("context", PDict (list_to_map [
       ("user_id", PStr (user_id c));
       ("session_id", of_opt_str (session_id c));
       ("mission_id", of_opt_str (mission_id c));
       ("block_id", of_opt_str (block_id c));
       ("surface", PStr (surface c));
       ("user_name", of_opt_str (user_name c));
       ("timezone", PStr (timezone c));
       ("graph_id", of_opt_str (graph_id c));
       ("focus_node_ids", PList (map PStr (focus_node_ids c)))]));
    ("mode", PStr (mode_value (mode state)));
    ("messages", PList (map PDict (messages state)));
    ("scratchpad", PStr (scratchpad state));
    ("outputs", PDict (outputs state));
    ("errors", PList (map PStr (errors state)));
    ("started_at", PStr (isoformat (started_at state)));
    ("updated_at", PStr (isoformat (updated_at state)))].

(** [d.get(k, default)]. *)
Definition get (d : gmap string PyVal) (k : string) (default : PyVal) : PyVal :=
  match d !! k with Some v => v | None => default end.

(** Reading a value at the type a field declares. *)
Definition as_str (f : string) (v : PyVal) : result string :=
  match v with PStr s => Ok s | _ => Raise (Untypable f) end.

Definition as_opt_str (f : string) (v : PyVal) : result (option string) :=
  match v with
  | PNone => Ok None
  | PStr s => Ok (Some s)
  | _ => Raise (Untypable f)
  end.

Fixpoint all_ok {A} (l : list (result A)) : result (list A) :=
  match l with
  | [] => Ok []
  | Ok a :: l' =>
      match all_ok l' with Ok r => Ok (a :: r) | Raise e => Raise e end
  | Raise e :: _ => Raise e
  end.

Definition as_str_list (f : string) (v : PyVal) : result (list string) :=
  match v with
  | PList l => all_ok (map (as_str f) l)
  | _ => Raise (Untypable f)
  end.

Definition as_dict (f : string) (v : PyVal) : result (gmap string PyVal) :=
  match v with PDict d => Ok d | _ => Raise (Untypable f) end.

Definition as_dict_list (f : string) (v : PyVal)
  : result (list (gmap string PyVal)) :=
  match v with
  | PList l => all_ok (map (as_dict f) l)
  | _ => Raise (Untypable f)
  end.

Definition rbind {A B} (r : result A) (k : A -> result B) : result B :=
  match r with Ok a => k a | Raise e => Raise e end.

Notation "'let*' x ':=' m 'in' k" := (rbind m (fun x => k))
  (at level 10, x name, m at level 200, k at level 200).

(** [datetime.fromisoformat(v)] for whatever the map holds. *)
Definition fromisoformat_val (v : PyVal) : result datetime :=
  match v with
  | PStr s => fromisoformat s
  | _ => Raise (TypeError "fromisoformat: argument must be str")
  end.

(** [dict_to_state].  [now i] is the [i]-th reading of [datetime.now()]
    during the call; the fields are computed in the order of the source. *)
Definition dict_to_state (now : nat -> datetime) (data : gmap string PyVal)
  : result GlyphState :=
  let* ctx_data := match get data "context" (PDict ∅) with
               | PDict d => Ok d
               | _ => Raise (AttributeError "object has no attribute 'get'")
               end in
  let* c_user_id := as_str "user_id" (get ctx_data "user_id" (PStr "")) in
  let* c_session_id := as_opt_str "session_id" (get ctx_data "session_id" PNone) in
  let* c_mission_id := as_opt_str "mission_id" (get ctx_data "mission_id" PNone) in
  let* c_block_id := as_opt_str "block_id" (get ctx_data "block_id" PNone) in
  let* c_surface := as_str "surface" (get ctx_data "surface" (PStr "api")) in
  let* c_user_name := as_opt_str "user_name" (get ctx_data "user_name" PNone) in
  let* c_timezone := as_str "timezone" (get ctx_data "timezone" (PStr "UTC")) in
  let* c_graph_id := as_opt_str "graph_id" (get ctx_data "graph_id" PNone) in
  let* c_focus := as_str_list "focus_node_ids"
                    (get ctx_data "focus_node_ids" (PList [])) in
  let* s_mode := GlyphMode_of (get data "mode" (PStr "chat")) in
  let* s_messages := as_dict_list "messages" (get data "messages" (PList [])) in
  let* s_scratchpad := as_str "scratchpad" (get data "scratchpad" (PStr "")) in
  let* s_outputs := as_dict "outputs" (get data "outputs" (PDict ∅)) in
  let* s_errors := as_str_list "errors" (get data "errors" (PList [])) in
  let* s_started := match data !! "started_at" with
                | Some v => fromisoformat_val v
                | None => Ok (now 0%nat)
                end in
  let* s_updated := match data !! "updated_at" with
                | Some v => fromisoformat_val v
                | None =>
                    Ok (now (match data !! "started_at" with
                             | Some _ => 0%nat | None => 1%nat end))
                end in
  Ok {| context := {| user_id := c_user_id; session_id := c_session_id;
                      mission_id := c_mission_id; block_id := c_block_id;
                      surface := c_surface; user_name := c_user_name;
                      timezone := c_timezone; graph_id := c_graph_id;
                      focus_node_ids := c_focus |};
        mode := s_mode; messages := s_messages; scratchpad := s_scratchpad;
        outputs := s_outputs; errors := s_errors;
        started_at := s_started; updated_at := s_updated |}.

(** The keys [dict_to_state] reads at the top level, and inside the
    context map. *)
Definition known_keys : list string :=
  ["context"; "mode"; "messages"; "scratchpad"; "outputs"; "errors";
   "started_at"; "updated_at"].

Definition context_keys : list string :=
  ["user_id"; "session_id"; "mission_id"; "block_id"; "surface";
   "user_name"; "timezone"; "graph_id"; "focus_node_ids"].

(** [GlyphState.add_output], [add_error] and [append_scratchpad]; [now] is
    the reading of [datetime.now()]. *)
Definition add_output (key : string) (value : PyVal) (now : datetime)
           (s : GlyphState) : GlyphState :=
  {| context := context s; mode := mode s; messages := messages s;
     scratchpad := scratchpad s; outputs := <[key := value]> (outputs s);
     errors := errors s; started_at := started_at s; updated_at := now |}.

Definition add_error (error : string) (now : datetime) (s : GlyphState)
  : GlyphState :=
  {| context := context s; mode := mode s; messages := messages s;
     scratchpad := scratchpad s; outputs := outputs s;
     errors := app (errors s) [error];
     started_at := started_at s; updated_at := now |}.

Definition append_scratchpad (text : string) (now : datetime) (s : GlyphState)
  : GlyphState :=
  {| context := context s; mode := mode s; messages := messages s;
     scratchpad :=
       py_strip (scratchpad s ++ String (ascii_of_nat 10) EmptyString ++ text);
     outputs := outputs s; errors := errors s;
     started_at := started_at s; updated_at := now |}.

(** [create_initial_state]; the two timestamps are the two readings of
    [datetime.now()] the dataclass defaults take. *)
Definition create_initial_state (user_id : string) (mode : GlyphMode)
           (session_id mission_id block_id : option string)
           (surface : string) (user_name initial_message : option string)
           (now : nat -> datetime) : GlyphState :=
  {| context := {| user_id := user_id; session_id := session_id;
                   mission_id := mission_id; block_id := block_id;
                   surface := surface; user_name := user_name;
                   timezone := "UTC"; graph_id := None;
                   focus_node_ids := [] |};
     mode := mode;
     messages :=
       match initial_message with
       | Some text =>
           if truthy_str text
           then [list_to_map [("role", PStr "user"); ("content", PStr text)]]
           else []
       | None => []
       end;
     scratchpad := ""; outputs := ∅; errors := [];
     started_at := now 0%nat; updated_at := now 1%nat |}.

(** The Python types [get_state_schema] names. *)
Inductive PyType := TDict | TStr | TList | TOther.

Definition type_of (v : PyVal) : PyType :=
  match v with
  | PDict _ => TDict
  | PStr _ => TStr
  | PList _ => TList
  | _ => TOther
  end.

Definition get_state_schema : list (string * PyType) :=
  [("context", TDict); ("mode", TStr); ("messages", TList);
   ("scratchpad", TStr); ("outputs", TDict); ("errors", TList);
   ("started_at", TStr); ("updated_at", TStr)].
End Base.

(* ===================================================================== *)
(** ** commons/time/utils.py: ISO 8601 text *)
(* ===================================================================== *)

Module TimeUtils.
Import Base.

(** [value.endswith("Z")]. *)
Fixpoint ends_with_Z (s : string) : bool :=
  match s with
  | EmptyString => false
  | String c EmptyString => Ascii.eqb c "Z"
  | String _ s' => ends_with_Z s'
  end.

(** [value[:-1]] for a text that ends with the letter [Z], one byte. *)
Fixpoint drop_last (s : string) : string :=
  match s with
  | EmptyString => EmptyString
  | String _ EmptyString => EmptyString
  | String c s' => String c (drop_last s')
  end.

Definition parse_iso8601 (value : string) : result datetime :=
  fromisoformat (if ends_with_Z value then drop_last value ++ "+00:00" else value).

(** [dt.strftime("%Y-%m-%dT%H:%M:%S")]; the year is written with four
    digits, which is what every platform does from the year 1000 on. *)
Definition strftime_seconds (d : datetime) : string :=
  fmt_digits 4 (year d) ++ "-" ++ fmt_digits 2 (month d) ++ "-" ++
  fmt_digits 2 (day d) ++ "T" ++
  fmt_digits 2 (hour d) ++ ":" ++ fmt_digits 2 (minute d) ++ ":" ++
  fmt_digits 2 (second d).

Definition format_iso8601 (dt : datetime) : string :=
  match utcoffset dt with
  | Some off => if off =? 0 then strftime_seconds dt ++ "Z" else isoformat dt
  | None => isoformat dt
  end.

(** [dt.replace(microsecond=0)]. *)
Definition without_microsecond (d : datetime) : datetime :=
  {| year := year d; month := month d; day := day d;
     hour := hour d; minute := minute d; second := second d;
     microsecond := 0; utcoffset := utcoffset d |}.

End TimeUtils.

(* ===================================================================== *)
(** ** commons: surfaces, dates and datetimes *)
(* ===================================================================== *)

Module SurfaceType.
(** [cyntra/commons/core/types.py]. *)
Inductive t := FOCUS_DOCK | OUTORA_LIBRARY | SIDEGLYPH | MOBILE | OTHER.

Definition value (s : t) : string :=
  match s with
  | FOCUS_DOCK => "focus_dock" | OUTORA_LIBRARY => "outora_library"
  | SIDEGLYPH => "sideglyph" | MOBILE => "mobile" | OTHER => "other"
  end.
End SurfaceType.

(** A [datetime.date], by its ordinal: day 1 is 0001-01-01. *)
Record date := mkdate { toordinal : Z }.

(** [date.max.toordinal()]. *)
Definition MAXORDINAL : Z := 3652059.

Definition date_eqb (a b : date) : bool := toordinal a =? toordinal b.
Definition date_leb (a b : date) : bool := toordinal a <=? toordinal b.

(** [d + timedelta(days=n)]; out of [date.min .. date.max] it raises. *)
Definition date_add_days (d : date) (n : Z) : result date :=
  let o := toordinal d + n in
  if (1 <=? o) && (o <=? MAXORDINAL) then Ok (mkdate o)
  else Raise (OverflowError "date value out of range").

(** [d.weekday()]: Monday is 0. *)
Definition weekday (d : date) : Z := (toordinal d + 6) mod 7.

(** A schema [datetime]: its date, the microsecond of that day, and
    whether it carries a time zone ([tzinfo is not None]).  An aware
    value is a time in UTC, as [now_utc()] returns them. *)
Record datetime := mkdatetime { dt_date : date; dt_us : Z; dt_aware : bool }.

(** The reading [t] of the clock as [datetime.now(UTC)] returns it, and
    as [datetime.now()] returns it. *)
Definition utc (t : datetime) : datetime := mkdatetime (dt_date t) (dt_us t) true.
Definition naive (t : datetime) : datetime := mkdatetime (dt_date t) (dt_us t) false.

(** [datetime.combine(d, datetime.min.time().replace(hour=h))]: naive. *)
Definition combine_hour (d : date) (h : Z) : datetime :=
  mkdatetime d (h * 3600 * 1000000) false.

(** [datetime.min] and [datetime.max]: naive. *)
Definition datetime_min : datetime := mkdatetime (mkdate 1) 0 false.
Definition datetime_max : datetime :=
  mkdatetime (mkdate MAXORDINAL) (86400 * 1000000 - 1) false.

(** [a < b] for two datetimes that can be compared: both naive, or both
    aware. *)
Definition datetime_ltb (a b : datetime) : bool :=
  (toordinal (dt_date a) <? toordinal (dt_date b))
  || ((toordinal (dt_date a) =? toordinal (dt_date b)) && (dt_us a <? dt_us b)).

(** Whether [a < b] is defined.  Between a naive and an aware datetime
    the ordering comparisons raise [naive_with_aware]; [==] answers
    [False] there and does not raise. *)
Definition comparable (a b : datetime) : bool := Bool.eqb (dt_aware a) (dt_aware b).

Definition naive_with_aware : exn :=
  TypeError "can't compare offset-naive and offset-aware datetimes".

(** [x or default] for an optional datetime. *)
Definition or_datetime (o : option datetime) (d : datetime) : datetime :=
  match o with Some x => x | None => d end.

(* ===================================================================== *)
(** ** agents/schemas/core.py *)
(* ===================================================================== *)

Module MissionKind.
Inductive t := EXAM | PROJECT | HABIT | LIFE_ADMIN | OTHER.
Definition value (k : t) : string :=
  match k with
  | EXAM => "exam" | PROJECT => "project" | HABIT => "habit"
  | LIFE_ADMIN => "life_admin" | OTHER => "other"
  end.
End MissionKind.

Module MissionStatus.
Inductive t := DRAFT | ACTIVE | PAUSED | COMPLETED | ABANDONED.
Definition value (s : t) : string :=
  match s with
  | DRAFT => "draft" | ACTIVE => "active" | PAUSED => "paused"
  | COMPLETED => "completed" | ABANDONED => "abandoned"
  end.
Definition eqb (a b : t) : bool := String.eqb (value a) (value b).
End MissionStatus.

Module MissionPriority.
Inductive t := LOW | MEDIUM | HIGH | CRITICAL.
End MissionPriority.

Module GraphNodeRef.
Record t := { graph_id : string; node_id : string; weight : Q }.
End GraphNodeRef.

Module MissionConstraints.
Record t := {
  max_daily_minutes : option Z;
  no_nights_after : option Z;
  days_off : list Z
}.
(** [MissionConstraints()]. *)
Definition default : t :=
  {| max_daily_minutes := None; no_nights_after := None; days_off := [] |}.
End MissionConstraints.

Module MissionPreferences.
Record t := {
  preferred_block_lengths : option (list Z);
  intensity : option string;
  notes_for_glyph : option string
}.
(** [MissionPreferences()]. *)
Definition default : t :=
  {| preferred_block_lengths := None; intensity := None;
     notes_for_glyph := None |}.
End MissionPreferences.

Module Mission.
Record t := {
  id : string;
  user_id : string;
  title : string;
  description : option string;
  kind : MissionKind.t;
  status : MissionStatus.t;
  priority : MissionPriority.t;
  created_at : datetime;
  updated_at : datetime;
  planned_start_date : option date;
  deadline_date : option date;
  estimated_total_minutes : option Z;
  tags : list string;
  graph_links : list GraphNodeRef.t;
  constraints : MissionConstraints.t;
  preferences : MissionPreferences.t;
  archived : bool
}.

(** [m if v is None else v]: what [model_copy(update=...)] leaves in a
    field whose key is added only for an argument that is not [None]. *)
Definition pick {A} (new : option A) (old : A) : A :=
  match new with Some v => v | None => old end.

(** [mission.model_copy(update=updates)] for the updates of
    [update_mission]; [updated_at] is always among them. *)
Definition copy_updated (m : t) (now : datetime)
           (new_title : option string) (new_description : option string)
           (new_status : option MissionStatus.t)
           (new_priority : option MissionPriority.t)
           (new_deadline : option date) (new_minutes : option Z)
           (new_constraints : option MissionConstraints.t)
           (new_preferences : option MissionPreferences.t)
           (new_tags : option (list string)) : t :=
  {| id := id m; user_id := user_id m;
     title := pick new_title (title m);
     description :=
       match new_description with Some d => Some d | None => description m end;
     kind := kind m;
     status := pick new_status (status m);
     priority := pick new_priority (priority m);
     created_at := created_at m; updated_at := now;
     planned_start_date := planned_start_date m;
     deadline_date :=
       match new_deadline with Some d => Some d | None => deadline_date m end;
     estimated_total_minutes :=
       match new_minutes with Some n => Some n | None => estimated_total_minutes m end;
     tags := pick new_tags (tags m);
     graph_links := graph_links m;
     constraints := pick new_constraints (constraints m);
     preferences := pick new_preferences (preferences m);
     archived := archived m |}.
End Mission.

Module BlockStatus.
Inductive t := PLANNED | IN_PROGRESS | COMPLETED | CANCELLED | SKIPPED.
Definition value (s : t) : string :=
  match s with
  | PLANNED => "planned" | IN_PROGRESS => "in_progress"
  | COMPLETED => "completed" | CANCELLED => "cancelled"
  | SKIPPED => "skipped"
  end.
Definition eqb (a b : t) : bool := String.eqb (value a) (value b).
End BlockStatus.

Module Block.
Record t := {
  id : string;
  user_id : string;
  mission_id : string;
  sequence_index : option Z;
  scheduled_start : option datetime;
  scheduled_end : option datetime;
  planned_duration_minutes : option Z;
  actual_start : option datetime;
  actual_end : option datetime;
  status : BlockStatus.t;
  title : option string;
  plan_note : option string;
  outcome_note : option string;
  completion_ratio : option Q;
  location_hint : option string;
  device_hint : option string
}.

(** [block.model_copy(update={"status": s, "actual_start": t})]. *)
Definition copy_started (b : t) (s : BlockStatus.t) (start : datetime) : t :=
  {| id := id b; user_id := user_id b; mission_id := mission_id b;
     sequence_index := sequence_index b;
     scheduled_start := scheduled_start b; scheduled_end := scheduled_end b;
     planned_duration_minutes := planned_duration_minutes b;
     actual_start := Some start; actual_end := actual_end b;
     status := s; title := title b; plan_note := plan_note b;
     outcome_note := outcome_note b; completion_ratio := completion_ratio b;
     location_hint := location_hint b; device_hint := device_hint b |}.

(** [block.model_copy(update={"status": s})]. *)
Definition copy_status (b : t) (s : BlockStatus.t) : t :=
  {| id := id b; user_id := user_id b; mission_id := mission_id b;
     sequence_index := sequence_index b;
     scheduled_start := scheduled_start b; scheduled_end := scheduled_end b;
     planned_duration_minutes := planned_duration_minutes b;
     actual_start := actual_start b; actual_end := actual_end b;
     status := s; title := title b; plan_note := plan_note b;
     outcome_note := outcome_note b; completion_ratio := completion_ratio b;
     location_hint := location_hint b; device_hint := device_hint b |}.

(** [block.model_copy(update={"status": s, "actual_end": t,
    "outcome_note": note, "completion_ratio": ratio})]: the copy is not
    validated, and a [None] given for a field replaces what was there. *)
Definition copy_completed (b : t) (s : BlockStatus.t) (stop : datetime)
           (note : option string) (ratio : option Q) : t :=
  {| id := id b; user_id := user_id b; mission_id := mission_id b;
     sequence_index := sequence_index b;
     scheduled_start := scheduled_start b; scheduled_end := scheduled_end b;
     planned_duration_minutes := planned_duration_minutes b;
     actual_start := actual_start b; actual_end := Some stop;
     status := s; title := title b; plan_note := plan_note b;
     outcome_note := note; completion_ratio := ratio;
     location_hint := location_hint b; device_hint := device_hint b |}.

(** [block.model_copy(update=updates)] for the updates of
    [update_block_plan]: a key is there only for an argument that is not
    [None]. *)
Definition copy_plan (b : t) (new_title new_plan_note : option string)
           (new_minutes : option Z) : t :=
  {| id := id b; user_id := user_id b; mission_id := mission_id b;
     sequence_index := sequence_index b;
     scheduled_start := scheduled_start b; scheduled_end := scheduled_end b;
     planned_duration_minutes :=
       match new_minutes with Some n => Some n | None => planned_duration_minutes b end;
     actual_start := actual_start b; actual_end := actual_end b;
     status := status b;
     title := match new_title with Some s => Some s | None => title b end;
     plan_note := match new_plan_note with Some s => Some s | None => plan_note b end;
     outcome_note := outcome_note b; completion_ratio := completion_ratio b;
     location_hint := location_hint b; device_hint := device_hint b |}.
End Block.

Module LeakCategory.
Inductive t :=
| SOCIAL | VIDEO | CHAT | NEWS | SHOPPING | EMAIL | GAMING | RANDOM_WEB | OTHER.
End LeakCategory.

Module LeakEvent.
Record t := {
  timestamp : datetime;
  category : LeakCategory.t;
  source : string;
  duration_seconds : option Z;
  note : option string
}.
End LeakEvent.

Module EpisodeKind.
Inductive t := SESSION | DAY | MISSION | META.
Definition value (k : t) : string :=
  match k with
  | SESSION => "session" | DAY => "day" | MISSION => "mission" | META => "meta"
  end.
Definition eqb (a b : t) : bool := String.eqb (value a) (value b).

(** [EpisodeKind(s)]: the member whose value is [s], else [ValueError]. *)
Definition of_value (s : string) : result t :=
  if String.eqb s "session" then Ok SESSION
  else if String.eqb s "day" then Ok DAY
  else if String.eqb s "mission" then Ok MISSION
  else if String.eqb s "meta" then Ok META
  else Raise (ValueError (repr_str s ++ " is not a valid EpisodeKind")).
End EpisodeKind.

Module EmotionLabel.
Inductive t := VERY_LOW | LOW | NEUTRAL | HIGH | VERY_HIGH.
End EmotionLabel.

Module Episode.
(** The free-form [meta] map is always empty in the modelled code and is
    left out. *)
Record t := {
  id : string;
  user_id : string;
  kind : EpisodeKind.t;
  created_at : datetime;
  mission_id : option string;
  block_id : option string;
  title : option string;
  summary : string;
  reflection : option string;
  mood_before : option EmotionLabel.t;
  mood_after : option EmotionLabel.t;
  focus_score : option Z;
  energy_score : option Z;
  time_focused_minutes : option Z;
  time_leaked_minutes : option Z;
  leaks : list LeakEvent.t;
  tags : list string
}.
End Episode.

Module NudgeLevel.
Inductive t := OFF | SOFT | NORMAL | AGGRESSIVE.
End NudgeLevel.

Module UserPreferences.
Record t := {
  timezone : string;
  preferred_block_lengths : list Z;
  typical_wake_hour : option Z;
  typical_sleep_hour : option Z;
  nudge_level : NudgeLevel.t;
  sideglyph_enabled : bool;
  browser_tracking_enabled : bool
}.
(** [UserPreferences()]. *)
Definition default : t :=
  {| timezone := "UTC"; preferred_block_lengths := [25; 40];
     typical_wake_hour := None; typical_sleep_hour := None;
     nudge_level := NudgeLevel.NORMAL; sideglyph_enabled := true;
     browser_tracking_enabled := true |}.
End UserPreferences.

Module UserStats.
Record t := {
  total_missions_created : Z;
  total_blocks_completed : Z;
  total_focused_minutes : Z;
  avg_block_length_successful : option Z;
  avg_start_hour_successful : option Q;
  night_sessions_failure_rate : option Q;
  morning_sessions_success_rate : option Q
}.
(** [UserStats()]. *)
Definition default : t :=
  {| total_missions_created := 0; total_blocks_completed := 0;
     total_focused_minutes := 0; avg_block_length_successful := None;
     avg_start_hour_successful := None;
     night_sessions_failure_rate := None;
     morning_sessions_success_rate := None |}.
End UserStats.

Module UserProfile.
Record t := {
  user_id : string;
  created_at : datetime;
  updated_at : datetime;
  display_name : option string;
  preferences : UserPreferences.t;
  stats : UserStats.t;
  persona_notes : option string
}.

(** [profile.model_copy(update={"stats": s, "updated_at": t})]. *)
Definition copy_stats (p : t) (s : UserStats.t) (now : datetime) : t :=
  {| user_id := user_id p; created_at := created_at p; updated_at := now;
     display_name := display_name p; preferences := preferences p;
     stats := s; persona_notes := persona_notes p |}.
End UserProfile.

(* ===================================================================== *)
(** ** agents/schemas/api.py *)
(* ===================================================================== *)

Module PlanMissionRequest.
Record t := {
  raw_input : string;
  kind : option MissionKind.t;
  deadline : option date;
  estimated_hours : option float;
  constraints : option MissionConstraints.t;
  preferences : option MissionPreferences.t;
  surface : SurfaceType.t;
  graph_context : list string
}.
End PlanMissionRequest.

Module ProposedBlock.
Record t := {
  title : string;
  plan_note : option string;
  suggested_date : option date;
  suggested_duration_minutes : Z;
  sequence_index : Z
}.
End ProposedBlock.

Module PlanMissionResponse.
Record t := {
  mission : Mission.t;
  proposed_blocks : list ProposedBlock.t;
  summary : string;
  rationale : option string;
  similar_missions_note : option string;
  warnings : list string;
  suggestions : list string
}.
End PlanMissionResponse.

Module EnergyLevel.
Inductive t := VERY_LOW | LOW | MEDIUM | HIGH | VERY_HIGH.
End EnergyLevel.

Module RunSessionRequest.
Record t := {
  mission_id : option string;
  block_id : option string;
  available_minutes : option Z;
  energy_level : option EnergyLevel.t;
  mood_note : option string;
  surface : SurfaceType.t;
  is_continuation : bool;
  adjustment_request : option string
}.
End RunSessionRequest.

Module SessionAction.
Record t := {
  description : string;
  estimated_minutes : option Z;
  is_stretch_goal : bool
}.
End SessionAction.

Module RunSessionResponse.
Record t := {
  block : Block.t;
  actions : list SessionAction.t;
  brief : string;
  recommended_duration_minutes : Z;
  break_after_minutes : option Z;
  show_timer : bool;
  enable_leak_tracking : bool;
  warnings : list string
}.
End RunSessionResponse.

Module ReflectPeriodKind.
Inductive t := BLOCK | DAY | WEEK | MISSION.
Definition value (k : t) : string :=
  match k with
  | BLOCK => "block" | DAY => "day" | WEEK => "week" | MISSION => "mission"
  end.
End ReflectPeriodKind.

Module ReflectPeriodRequest.
Record t := {
  kind : ReflectPeriodKind.t;
  mission_id : option string;
  block_id : option string;
  start_date : option date;
  end_date : option date;
  user_reflection : option string;
  focus_score : option Z;
  energy_score : option Z;
  surface : SurfaceType.t
}.
End ReflectPeriodRequest.

Module PatternInsight.
Record t := {
  description : string;
  confidence : Q;
  supporting_data : option string;
  suggested_action : option string
}.
End PatternInsight.

Module ReflectPeriodResponse.
Record t := {
  episode : Episode.t;
  summary : string;
  highlights : list string;
  challenges : list string;
  patterns : list PatternInsight.t;
  total_focused_minutes : Z;
  total_leaked_minutes : Z;
  blocks_completed : Z;
  completion_rate : option Q;
  updated_profile : option UserProfile.t;
  suggestions : list string
}.
End ReflectPeriodResponse.

(* ===================================================================== *)
(** ** Validation on construction ([BaseSchema]) *)
(* ===================================================================== *)

(** [BaseSchema] sets [str_strip_whitespace=True]: every [str] a model is
    built from is stripped, and [Field(ge=, le=)] bounds are checked. *)

Definition validated_mission (m : Mission.t) : Mission.t :=
  {| Mission.id := strip (Mission.id m);
     Mission.user_id := strip (Mission.user_id m);
     Mission.title := strip (Mission.title m);
     Mission.description := strip_opt (Mission.description m);
     Mission.kind := Mission.kind m; Mission.status := Mission.status m;
     Mission.priority := Mission.priority m;
     Mission.created_at := Mission.created_at m;
     Mission.updated_at := Mission.updated_at m;
     Mission.planned_start_date := Mission.planned_start_date m;
     Mission.deadline_date := Mission.deadline_date m;
     Mission.estimated_total_minutes := Mission.estimated_total_minutes m;
     Mission.tags := map strip (Mission.tags m);
     Mission.graph_links :=
       map (fun g => {| GraphNodeRef.graph_id := strip (GraphNodeRef.graph_id g);
                        GraphNodeRef.node_id := strip (GraphNodeRef.node_id g);
                        GraphNodeRef.weight := GraphNodeRef.weight g |})
           (Mission.graph_links m);
     Mission.constraints := Mission.constraints m;
     Mission.preferences :=
       (let p := Mission.preferences m in
        {| MissionPreferences.preferred_block_lengths :=
             MissionPreferences.preferred_block_lengths p;
           MissionPreferences.intensity :=
             strip_opt (MissionPreferences.intensity p);
           MissionPreferences.notes_for_glyph :=
             strip_opt (MissionPreferences.notes_for_glyph p) |});
     Mission.archived := Mission.archived m |}.

Definition Qin_range (lo hi x : Q) : bool := Qle_bool lo x && Qle_bool x hi.

Definition validate_block (b : Block.t) : result Block.t :=
  let ratio_ok :=
    match Block.completion_ratio b with
    | Some r => Qin_range 0 1 r
    | None => true
    end in
  if ratio_ok then
    Ok {| Block.id := strip (Block.id b);
          Block.user_id := strip (Block.user_id b);
          Block.mission_id := strip (Block.mission_id b);
          Block.sequence_index := Block.sequence_index b;
          Block.scheduled_start := Block.scheduled_start b;
          Block.scheduled_end := Block.scheduled_end b;
          Block.planned_duration_minutes := Block.planned_duration_minutes b;
          Block.actual_start := Block.actual_start b;
          Block.actual_end := Block.actual_end b;
          Block.status := Block.status b;
          Block.title := strip_opt (Block.title b);
          Block.plan_note := strip_opt (Block.plan_note b);
          Block.outcome_note := strip_opt (Block.outcome_note b);
          Block.completion_ratio := Block.completion_ratio b;
          Block.location_hint := strip_opt (Block.location_hint b);
          Block.device_hint := strip_opt (Block.device_hint b) |}
  else Raise (ValidationError "completion_ratio").

Definition score_ok (o : option Z) : bool :=
  match o with Some n => (1 <=? n) && (n <=? 5) | None => true end.

Definition validate_episode (e : Episode.t) : result Episode.t :=
  if negb (score_ok (Episode.focus_score e)) then
    Raise (ValidationError "focus_score")
  else if negb (score_ok (Episode.energy_score e)) then
    Raise (ValidationError "energy_score")
  else
    Ok {| Episode.id := strip (Episode.id e);
          Episode.user_id := strip (Episode.user_id e);
          Episode.kind := Episode.kind e;
          Episode.created_at := Episode.created_at e;
          Episode.mission_id := strip_opt (Episode.mission_id e);
          Episode.block_id := strip_opt (Episode.block_id e);
          Episode.title := strip_opt (Episode.title e);
          Episode.summary := strip (Episode.summary e);
          Episode.reflection := strip_opt (Episode.reflection e);
          Episode.mood_before := Episode.mood_before e;
          Episode.mood_after := Episode.mood_after e;
          Episode.focus_score := Episode.focus_score e;
          Episode.energy_score := Episode.energy_score e;
          Episode.time_focused_minutes := Episode.time_focused_minutes e;
          Episode.time_leaked_minutes := Episode.time_leaked_minutes e;
          Episode.leaks := Episode.leaks e;
          Episode.tags := map strip (Episode.tags e) |}.

Definition validated_profile (p : UserProfile.t) : UserProfile.t :=
  {| UserProfile.user_id := strip (UserProfile.user_id p);
     UserProfile.created_at := UserProfile.created_at p;
     UserProfile.updated_at := UserProfile.updated_at p;
     UserProfile.display_name := strip_opt (UserProfile.display_name p);
     UserProfile.preferences :=
       (let q := UserProfile.preferences p in
        {| UserPreferences.timezone := strip (UserPreferences.timezone q);
           UserPreferences.preferred_block_lengths :=
             UserPreferences.preferred_block_lengths q;
           UserPreferences.typical_wake_hour :=
             UserPreferences.typical_wake_hour q;
           UserPreferences.typical_sleep_hour :=
             UserPreferences.typical_sleep_hour q;
           UserPreferences.nudge_level := UserPreferences.nudge_level q;
           UserPreferences.sideglyph_enabled :=
             UserPreferences.sideglyph_enabled q;
           UserPreferences.browser_tracking_enabled :=
             UserPreferences.browser_tracking_enabled q |});
     UserProfile.stats := UserProfile.stats p;
     UserProfile.persona_notes := strip_opt (UserProfile.persona_notes p) |}.

Definition validated_action (a : SessionAction.t) : SessionAction.t :=
  {| SessionAction.description := strip (SessionAction.description a);
     SessionAction.estimated_minutes := SessionAction.estimated_minutes a;
     SessionAction.is_stretch_goal := SessionAction.is_stretch_goal a |}.

Definition validated_proposed (p : ProposedBlock.t) : ProposedBlock.t :=
  {| ProposedBlock.title := strip (ProposedBlock.title p);
     ProposedBlock.plan_note := strip_opt (ProposedBlock.plan_note p);
     ProposedBlock.suggested_date := ProposedBlock.suggested_date p;
     ProposedBlock.suggested_duration_minutes :=
       ProposedBlock.suggested_duration_minutes p;
     ProposedBlock.sequence_index := ProposedBlock.sequence_index p |}.

Definition validate_insight (p : PatternInsight.t) : result PatternInsight.t :=
  if Qin_range 0 1 (PatternInsight.confidence p) then
    Ok {| PatternInsight.description := strip (PatternInsight.description p);
          PatternInsight.confidence := PatternInsight.confidence p;
          PatternInsight.supporting_data :=
            strip_opt (PatternInsight.supporting_data p);
          PatternInsight.suggested_action :=
            strip_opt (PatternInsight.suggested_action p) |}
  else Raise (ValidationError "confidence").

(* ===================================================================== *)
(** ** The world: repositories, identifiers, clock *)
(* ===================================================================== *)

Module SemanticStore.
(** [InMemorySemanticMemory]: the indexed episodes and missions.  The
    pattern summaries are not touched by the graphs and are left out. *)
Record t := {
  episodes : list Episode.t;
  missions : list Mission.t
}.
End SemanticStore.

(** What a graph run can read and change.  The four dictionaries are those
    of the in-memory repositories; [semantic_memory] is [None] for a
    bundle built without one.  [new_id_at n] is the [n]-th value
    [new_id()] returns, [clock_at n] the [n]-th reading of the clock
    (which [now_utc()] returns with the UTC time zone and [datetime.now()]
    without a time zone), [today] is [date.today()] for the
    length of the run.  [format_1f], [str_date] and [str_lower] are
    Python's [f"{x:.1f}"], [str(date)] and [str.lower], the last with the
    case tables of the interpreter; [debug_enabled] is
    [logger.isEnabledFor(DEBUG)] for the router's logger. *)
Record World := {
  missions : list Mission.t;
  blocks : list Block.t;
  episodes : list Episode.t;
  profiles : list (string * UserProfile.t);
  semantic_memory : option SemanticStore.t;
  new_id_at : nat -> string;
  ids_drawn : nat;
  clock_at : nat -> datetime;
  clock_reads : nat;
  today : date;
  format_1f : Q -> string;
  str_date : date -> string;
  str_lower : string -> string;
  debug_enabled : bool
}.

Definition set_missions (ms : list Mission.t) (w : World) : World :=
  {| missions := ms; blocks := blocks w; episodes := episodes w;
     profiles := profiles w; semantic_memory := semantic_memory w;
     new_id_at := new_id_at w; ids_drawn := ids_drawn w;
     clock_at := clock_at w; clock_reads := clock_reads w;
     today := today w; format_1f := format_1f w; str_date := str_date w;
     str_lower := str_lower w; debug_enabled := debug_enabled w |}.

Definition set_blocks (bs : list Block.t) (w : World) : World :=
  {| missions := missions w; blocks := bs; episodes := episodes w;
     profiles := profiles w; semantic_memory := semantic_memory w;
     new_id_at := new_id_at w; ids_drawn := ids_drawn w;
     clock_at := clock_at w; clock_reads := clock_reads w;
     today := today w; format_1f := format_1f w; str_date := str_date w;
     str_lower := str_lower w; debug_enabled := debug_enabled w |}.

Definition set_episodes (es : list Episode.t) (w : World) : World :=
  {| missions := missions w; blocks := blocks w; episodes := es;
     profiles := profiles w; semantic_memory := semantic_memory w;
     new_id_at := new_id_at w; ids_drawn := ids_drawn w;
     clock_at := clock_at w; clock_reads := clock_reads w;
     today := today w; format_1f := format_1f w; str_date := str_date w;
     str_lower := str_lower w; debug_enabled := debug_enabled w |}.

Definition set_profiles (ps : list (string * UserProfile.t)) (w : World) : World :=
  {| missions := missions w; blocks := blocks w; episodes := episodes w;
     profiles := ps; semantic_memory := semantic_memory w;
     new_id_at := new_id_at w; ids_drawn := ids_drawn w;
     clock_at := clock_at w; clock_reads := clock_reads w;
     today := today w; format_1f := format_1f w; str_date := str_date w;
     str_lower := str_lower w; debug_enabled := debug_enabled w |}.

Definition set_semantic (s : option SemanticStore.t) (w : World) : World :=
  {| missions := missions w; blocks := blocks w; episodes := episodes w;
     profiles := profiles w; semantic_memory := s;
     new_id_at := new_id_at w; ids_drawn := ids_drawn w;
     clock_at := clock_at w; clock_reads := clock_reads w;
     today := today w; format_1f := format_1f w; str_date := str_date w;
     str_lower := str_lower w; debug_enabled := debug_enabled w |}.

Definition set_ids_drawn (n : nat) (w : World) : World :=
  {| missions := missions w; blocks := blocks w; episodes := episodes w;
     profiles := profiles w; semantic_memory := semantic_memory w;
     new_id_at := new_id_at w; ids_drawn := n;
     clock_at := clock_at w; clock_reads := clock_reads w;
     today := today w; format_1f := format_1f w; str_date := str_date w;
     str_lower := str_lower w; debug_enabled := debug_enabled w |}.

Definition set_clock_reads (n : nat) (w : World) : World :=
  {| missions := missions w; blocks := blocks w; episodes := episodes w;
     profiles := profiles w; semantic_memory := semantic_memory w;
     new_id_at := new_id_at w; ids_drawn := ids_drawn w;
     clock_at := clock_at w; clock_reads := n;
     today := today w; format_1f := format_1f w; str_date := str_date w;
     str_lower := str_lower w; debug_enabled := debug_enabled w |}.

(** Computations that read and change the world and may raise.  The world
    is returned in both cases: what was written before an exception stays
    written. *)
Definition M (A : Type) : Type := World -> World * result A.

Definition ret {A} (a : A) : M A := fun w => (w, Ok a).

Definition raise {A} (e : exn) : M A := fun w => (w, Raise e).

Definition bind {A B} (m : M A) (k : A -> M B) : M B :=
  fun w =>
    match m w with
    | (w', Ok a) => k a w'
    | (w', Raise e) => (w', Raise e)
    end.

Definition lift {A} (r : result A) : M A := fun w => (w, r).

Definition gets {A} (f : World -> A) : M A := fun w => (w, Ok (f w)).

Definition modify (f : World -> World) : M unit := fun w => (f w, Ok tt).

Notation "'let!' x ':=' m 'in' k" := (bind m (fun x => k))
  (at level 10, x name, m at level 200, k at level 200).

Notation "'do!' m 'in' k" := (bind m (fun _ => k))
  (at level 10, m at level 200, k at level 200).

(** [cyntra.commons.new_id()]. *)
Definition new_id : M string :=
  fun w => (set_ids_drawn (S (ids_drawn w)) w, Ok (new_id_at w (ids_drawn w))).

(** [cyntra.commons.now_utc()], which is [datetime.now(UTC)]: aware. *)
Definition now_utc : M datetime :=
  fun w => (set_clock_reads (S (clock_reads w)) w,
            Ok (utc (clock_at w (clock_reads w)))).

(** [datetime.now()]: naive. *)
Definition now : M datetime :=
  fun w => (set_clock_reads (S (clock_reads w)) w,
            Ok (naive (clock_at w (clock_reads w)))).

(** *** Python's list and dictionary operations *)

Section Dict.
Context {A : Type} (key : A -> string).

(** [d[x.id] = x]: in place when the key is there, else at the end. *)
Fixpoint dict_set (x : A) (l : list A) : list A :=
  match l with
  | [] => [x]
  | y :: l' =>
      if String.eqb (key y) (key x) then x :: l' else y :: dict_set x l'
  end.

(** [d.get(k)]. *)
Definition dict_get (k : string) (l : list A) : option A :=
  find (fun y => String.eqb (key y) k) l.

(** [k in d]. *)
Definition dict_mem (k : string) (l : list A) : bool :=
  existsb (fun y => String.eqb (key y) k) l.

(** [del d[k]]. *)
Definition dict_del (k : string) (l : list A) : list A :=
  List.filter (fun y => negb (String.eqb (key y) k)) l.
End Dict.

Section Order.
Context {A : Type} (ltb : A -> A -> bool).

(** Puts [x] before the first element it is strictly below. *)
Fixpoint insert_sorted (x : A) (l : list A) : list A :=
  match l with
  | [] => [x]
  | y :: l' => if ltb x y then x :: l else y :: insert_sorted x l'
  end.

(** [list.sort]: stable, so elements that compare equal keep their
    order. *)
Definition sort_by (l : list A) : list A :=
  fold_left (fun acc x => insert_sorted x acc) l [].

(** [max(l, key=...)] from a first candidate: the first greatest. *)
Fixpoint max_from (cur : A) (l : list A) : A :=
  match l with
  | [] => cur
  | y :: l' => max_from (if ltb cur y then y else cur) l'
  end.

(** [min(l, key=...)] from a first candidate: the first least. *)
Fixpoint min_from (cur : A) (l : list A) : A :=
  match l with
  | [] => cur
  | y :: l' => min_from (if ltb y cur then y else cur) l'
  end.
End Order.

(** [len(l)] and the slice [l[a:b]] for integers [a] and [b]: an index
    below zero counts from the end, and both ends are cut to the list. *)
Definition clamp_index (n i : Z) : Z :=
  if i <? 0 then Z.max 0 (i + n) else Z.min i n.

Definition py_slice {A} (a b : Z) (l : list A) : list A :=
  let n := Z.of_nat (List.length l) in
  let lo := clamp_index n a in
  let hi := clamp_index n b in
  firstn (Z.to_nat (hi - lo)) (skipn (Z.to_nat lo) l).

(** [x in l] for integers. *)
Definition mem_int (x : Z) (l : list Z) : bool := existsb (Z.eqb x) l.

Definition mem_str (x : string) (l : list string) : bool :=
  existsb (String.eqb x) l.

(* ===================================================================== *)
(** ** agents/memory/in_memory.py *)
(* ===================================================================== *)

Module InMemoryMissionsRepository.

Definition create (mission : Mission.t) : M Mission.t :=
  do! modify (fun w => set_missions (dict_set Mission.id mission (missions w)) w) in
  ret mission.

Definition get (mission_id : string) : M (option Mission.t) :=
  gets (fun w => dict_get Mission.id mission_id (missions w)).

Definition get_active_mission (user_id : string) : M (option Mission.t) :=
  let! all := gets missions in
  let active :=
    List.filter (fun m => String.eqb (Mission.user_id m) user_id
                     && MissionStatus.eqb (Mission.status m) MissionStatus.ACTIVE)
           all in
  match active with
  | [] => ret None
  | m :: rest =>
      ret (Some (max_from
                   (fun a b => datetime_ltb (Mission.updated_at a) (Mission.updated_at b))
                   m rest))
  end.

Definition update (mission : Mission.t) : M Mission.t :=
  let! all := gets missions in
  if negb (dict_mem Mission.id (Mission.id mission) all) then
    raise (ValueError ("Mission " ++ Mission.id mission ++ " not found"))
  else
    do! modify (fun w => set_missions (dict_set Mission.id mission (missions w)) w) in
    ret mission.

Definition delete (mission_id : string) : M bool :=
  let! all := gets missions in
  if dict_mem Mission.id mission_id all then
    do! modify (fun w => set_missions (dict_del Mission.id mission_id (missions w)) w) in
    ret true
  else ret false.

(** [missions.sort(key=lambda m: m.created_at, reverse=True)] and the
    slice [missions[offset : offset + limit]]. *)
Definition list_for_user (user_id : string) (status : option MissionStatus.t)
           (limit offset : Z) : M (list Mission.t) :=
  let! all := gets missions in
  let found :=
    List.filter (fun m => String.eqb (Mission.user_id m) user_id
                          && match status with
                             | None => true
                             | Some s => MissionStatus.eqb (Mission.status m) s
                             end)
                all in
  let sorted :=
    sort_by (fun a b => datetime_ltb (Mission.created_at b) (Mission.created_at a))
            found in
  ret (py_slice offset (offset + limit) sorted).
End InMemoryMissionsRepository.

Module InMemoryBlocksRepository.

Definition create (block : Block.t) : M Block.t :=
  do! modify (fun w => set_blocks (dict_set Block.id block (blocks w)) w) in
  ret block.

Definition get (block_id : string) : M (option Block.t) :=
  gets (fun w => dict_get Block.id block_id (blocks w)).

Definition update (block : Block.t) : M Block.t :=
  let! all := gets blocks in
  if negb (dict_mem Block.id (Block.id block) all) then
    raise (ValueError ("Block " ++ Block.id block ++ " not found"))
  else
    do! modify (fun w => set_blocks (dict_set Block.id block (blocks w)) w) in
    ret block.

(** The sort key [(b.sequence_index or 0, b.scheduled_start or datetime.max)],
    compared as a tuple. *)
Definition mission_order (a b : Block.t) : bool :=
  let ka := or_int (Block.sequence_index a) 0 in
  let kb := or_int (Block.sequence_index b) 0 in
  (ka <? kb)
  || ((ka =? kb)
      && datetime_ltb (or_datetime (Block.scheduled_start a) datetime_max)
                      (or_datetime (Block.scheduled_start b) datetime_max)).

(** Two keys whose comparison raises: the indices are equal, so the
    tuple comparison goes on to the datetimes, and one of these is naive
    and the other aware. *)
Definition mission_order_raises (a b : Block.t) : bool :=
  (or_int (Block.sequence_index a) 0 =? or_int (Block.sequence_index b) 0)
  && negb (comparable (or_datetime (Block.scheduled_start a) datetime_max)
                      (or_datetime (Block.scheduled_start b) datetime_max)).

(** [list_for_mission].  The sort raises as soon as it compares two keys
    whose comparison raises, and it compares two such keys whenever the
    list holds them: the comparisons it makes must tell the order that
    puts the naive keys of an index first from the order that puts the
    aware ones first, and no other comparison does.  The slice
    [blocks[:limit]] takes any integer. *)
Definition list_for_mission (mission_id : string)
           (status : option BlockStatus.t) (limit : Z) : M (list Block.t) :=
  let! all := gets blocks in
  let found :=
    List.filter (fun b => String.eqb (Block.mission_id b) mission_id
                     && match status with
                        | None => true
                        | Some s => BlockStatus.eqb (Block.status b) s
                        end)
           all in
  if existsb (fun a => existsb (mission_order_raises a) found) found then
    raise naive_with_aware
  else ret (py_slice 0 limit (sort_by mission_order found)).

Definition start_order (a b : Block.t) : bool :=
  datetime_ltb (or_datetime (Block.scheduled_start a) datetime_max)
               (or_datetime (Block.scheduled_start b) datetime_max).

Definition list_for_user_date (user_id : string) (target_date : date)
  : M (list Block.t) :=
  let! all := gets blocks in
  let found :=
    List.filter (fun b => String.eqb (Block.user_id b) user_id
                     && match Block.scheduled_start b with
                        | Some s => date_eqb (dt_date s) target_date
                        | None => false
                        end)
           all in
  ret (sort_by start_order found).

Definition get_current_block (user_id : string) : M (option Block.t) :=
  let! all := gets blocks in
  let in_progress :=
    List.filter (fun b => String.eqb (Block.user_id b) user_id
                     && BlockStatus.eqb (Block.status b) BlockStatus.IN_PROGRESS)
           all in
  match in_progress with
  | [] => ret None
  | b :: rest =>
      (* max() compares every further key with the greatest so far *)
      if forallb (fun x => comparable (or_datetime (Block.actual_start b) datetime_min)
                                      (or_datetime (Block.actual_start x) datetime_min))
                 rest
      then
        ret (Some (max_from
                     (fun x y =>
                        datetime_ltb (or_datetime (Block.actual_start x) datetime_min)
                                     (or_datetime (Block.actual_start y) datetime_min))
                     b rest))
      else raise naive_with_aware
  end.

Definition delete (block_id : string) : M bool :=
  let! all := gets blocks in
  if dict_mem Block.id block_id all then
    do! modify (fun w => set_blocks (dict_del Block.id block_id (blocks w)) w) in
    ret true
  else ret false.
End InMemoryBlocksRepository.

Module InMemoryEpisodesRepository.

Definition create (episode : Episode.t) : M Episode.t :=
  do! modify (fun w => set_episodes (dict_set Episode.id episode (episodes w)) w) in
  ret episode.

(** Applies a filter only when its argument is given. *)
Definition filter_if {F : Type} (arg : option F) (p : F -> Episode.t -> bool)
           (l : list Episode.t) : list Episode.t :=
  match arg with
  | Some a => List.filter (p a) l
  | None => l
  end.

Definition same_opt_str (o : option string) (s : string) : bool :=
  match o with Some x => String.eqb x s | None => false end.

Definition list_for_user (user_id : string) (kind : option EpisodeKind.t)
           (mission_id : option string) (start_date end_date : option date)
           (limit : Z) : M (list Episode.t) :=
  let! all := gets episodes in
  let e0 := List.filter (fun e => String.eqb (Episode.user_id e) user_id) all in
  let e1 := filter_if kind (fun k e => EpisodeKind.eqb (Episode.kind e) k) e0 in
  let e2 := filter_if mission_id (fun m e => same_opt_str (Episode.mission_id e) m) e1 in
  let e3 := filter_if start_date
              (fun d e => date_leb d (dt_date (Episode.created_at e))) e2 in
  let e4 := filter_if end_date
              (fun d e => date_leb (dt_date (Episode.created_at e)) d) e3 in
  (* sort(key=created_at, reverse=True) *)
  let sorted :=
    sort_by (fun a b => datetime_ltb (Episode.created_at b) (Episode.created_at a))
            e4 in
  ret (py_slice 0 limit sorted).

Definition get (episode_id : string) : M (option Episode.t) :=
  gets (fun w => dict_get Episode.id episode_id (episodes w)).

(** [get_recent]: the user's episodes, newest first, cut by the slice
    [episodes[:limit]]. *)
Definition get_recent (user_id : string) (limit : Z) : M (list Episode.t) :=
  let! all := gets episodes in
  let found := List.filter (fun e => String.eqb (Episode.user_id e) user_id) all in
  let sorted :=
    sort_by (fun a b => datetime_ltb (Episode.created_at b) (Episode.created_at a))
            found in
  ret (py_slice 0 limit sorted).
End InMemoryEpisodesRepository.

(** The profile dictionary is keyed by the [user_id] handed to the
    repository, which need not be the stripped [user_id] of the stored
    profile; it is kept as a list of key and value. *)
Module InMemoryUserProfileRepository.

Fixpoint assoc_set (k : string) (v : UserProfile.t)
         (l : list (string * UserProfile.t)) : list (string * UserProfile.t) :=
  match l with
  | [] => [(k, v)]
  | (k', v') :: l' =>
      if String.eqb k' k then (k, v) :: l' else (k', v') :: assoc_set k v l'
  end.

Definition assoc_get (k : string) (l : list (string * UserProfile.t))
  : option UserProfile.t :=
  option_map snd (find (fun kv => String.eqb (fst kv) k) l).

Definition update (profile : UserProfile.t) : M UserProfile.t :=
  do! modify (fun w => set_profiles
                         (assoc_set (UserProfile.user_id profile) profile (profiles w)) w) in
  ret profile.

Definition get_or_create (user_id : string) : M UserProfile.t :=
  let! all := gets profiles in
  match assoc_get user_id all with
  | Some p => ret p
  | None =>
      let! now := now in
      let profile := validated_profile
        {| UserProfile.user_id := user_id;
           UserProfile.created_at := now; UserProfile.updated_at := now;
           UserProfile.display_name := None;
           UserProfile.preferences := UserPreferences.default;
           UserProfile.stats := UserStats.default;
           UserProfile.persona_notes := None |} in
      do! modify (fun w => set_profiles (assoc_set user_id profile (profiles w)) w) in
      ret profile
  end.

Definition get (user_id : string) : M (option UserProfile.t) :=
  gets (fun w => assoc_get user_id (profiles w)).

Definition create (profile : UserProfile.t) : M UserProfile.t :=
  do! modify (fun w => set_profiles
                         (assoc_set (UserProfile.user_id profile) profile (profiles w)) w) in
  ret profile.
End InMemoryUserProfileRepository.

Module InMemorySemanticMemory.

(** [str.split()]: the maximal runs of characters that are not white
    space; [cur] is the run being read. *)
Fixpoint split_from (l : list string) (cur : string) : list string :=
  match l with
  | [] => if truthy_str cur then [cur] else []
  | ch :: l' =>
      if is_py_space ch then
        (if truthy_str cur then cur :: split_from l' "" else split_from l' "")
      else split_from l' (cur ++ ch)
  end.

Definition split (s : string) : list string := split_from (chars s) "".

(** [len(set(a) & set(b))]. *)
Definition overlap (a b : list string) : Z :=
  Z.of_nat (List.length (List.filter (fun x => mem_str x b) (nodup string_dec a))).

Definition or_empty (o : option string) : string :=
  match o with Some s => s | None => "" end.

Definition add_episode (episode : Episode.t) (s : SemanticStore.t) : SemanticStore.t :=
  {| SemanticStore.episodes := dict_set Episode.id episode (SemanticStore.episodes s);
     SemanticStore.missions := SemanticStore.missions s |}.

Definition add_mission (mission : Mission.t) (s : SemanticStore.t) : SemanticStore.t :=
  {| SemanticStore.episodes := SemanticStore.episodes s;
     SemanticStore.missions := dict_set Mission.id mission (SemanticStore.missions s) |}.

(** [search_similar_missions]; [lower] is [str.lower]. *)
Definition search_similar_missions (lower : string -> string)
           (s : SemanticStore.t) (user_id query : string)
           (limit : Z) : list Mission.t :=
  let query_lower := lower query in
  let user_missions :=
    List.filter (fun m => String.eqb (Mission.user_id m) user_id)
           (SemanticStore.missions s) in
  let scored :=
    flat_map
      (fun mission =>
         let text := lower (Mission.title mission ++ " "
                            ++ or_empty (Mission.description mission)) in
         let n := overlap (split query_lower) (split text) in
         if 0 <? n then [(n, mission)] else [])
      user_missions in
  (* sort(key=score, reverse=True) *)
  let sorted := sort_by (fun a b => fst b <? fst a) scored in
  map snd (py_slice 0 limit sorted).

End InMemorySemanticMemory.

(* ===================================================================== *)
(** ** agents/tools *)
(* ===================================================================== *)

(** [range(n)]. *)
Definition range (n : Z) : list Z := map Z.of_nat (seq 0 (Z.to_nat n)).

(** [len(l)]. *)
Definition len {A} (l : list A) : Z := Z.of_nat (List.length l).

Module MissionTools.

(** [create_mission]; [deadline_date] and [planned_start_date] arrive as
    datetimes and are cut to their dates. *)
Definition create_mission (user_id title : string)
           (description : option string) (kind : MissionKind.t)
           (priority : MissionPriority.t)
           (deadline_date planned_start_date : option datetime)
           (estimated_total_minutes : option Z)
           (constraints : option MissionConstraints.t)
           (preferences : option MissionPreferences.t)
           (tags : option (list string)) : M Mission.t :=
  let! now := now_utc in
  let! fresh := new_id in
  let mission := validated_mission
    {| Mission.id := fresh; Mission.user_id := user_id;
       Mission.title := title; Mission.description := description;
       Mission.kind := kind; Mission.status := MissionStatus.ACTIVE;
       Mission.priority := priority;
       Mission.created_at := now; Mission.updated_at := now;
       Mission.planned_start_date := option_map dt_date planned_start_date;
       Mission.deadline_date := option_map dt_date deadline_date;
       Mission.estimated_total_minutes := estimated_total_minutes;
       Mission.tags := match tags with Some l => l | None => [] end;
       Mission.graph_links := [];
       Mission.constraints :=
         match constraints with
         | Some c => c | None => MissionConstraints.default end;
       Mission.preferences :=
         match preferences with
         | Some p => p | None => MissionPreferences.default end;
       Mission.archived := false |} in
  let! mission := InMemoryMissionsRepository.create mission in
  do! modify (fun w =>
                match semantic_memory w with
                | Some s =>
                    set_semantic (Some (InMemorySemanticMemory.add_mission mission s)) w
                | None => w
                end) in
  ret mission.

Definition get_mission (mission_id : string) : M (option Mission.t) :=
  InMemoryMissionsRepository.get mission_id.

Definition get_active_mission (user_id : string) : M (option Mission.t) :=
  InMemoryMissionsRepository.get_active_mission user_id.

Definition find_similar_missions (user_id query : string) (limit : Z)
  : M (list Mission.t) :=
  let! sem := gets semantic_memory in
  match sem with
  | Some s =>
      let! lower := gets str_lower in
      ret (InMemorySemanticMemory.search_similar_missions lower s user_id query limit)
  | None => ret []
  end.

(** [update_mission]: the clock is read for [updated_at] before the
    arguments are looked at; [deadline_date] arrives as a datetime and is
    cut to its date. *)
Definition update_mission (mission_id : string)
           (title description : option string)
           (status : option MissionStatus.t)
           (priority : option MissionPriority.t)
           (deadline_date : option datetime)
           (estimated_total_minutes : option Z)
           (constraints : option MissionConstraints.t)
           (preferences : option MissionPreferences.t)
           (tags : option (list string)) : M (option Mission.t) :=
  let! mission := InMemoryMissionsRepository.get mission_id in
  match mission with
  | None => ret None
  | Some mission =>
      let! now := now_utc in
      let updated :=
        Mission.copy_updated mission now title description status priority
                             (option_map dt_date deadline_date)
                             estimated_total_minutes constraints preferences tags in
      let! saved := InMemoryMissionsRepository.update updated in
      ret (Some saved)
  end.

Definition complete_mission (mission_id : string) : M (option Mission.t) :=
  update_mission mission_id None None (Some MissionStatus.COMPLETED)
                 None None None None None None.

Definition pause_mission (mission_id : string) : M (option Mission.t) :=
  update_mission mission_id None None (Some MissionStatus.PAUSED)
                 None None None None None None.

Definition resume_mission (mission_id : string) : M (option Mission.t) :=
  update_mission mission_id None None (Some MissionStatus.ACTIVE)
                 None None None None None None.

Definition abandon_mission (mission_id : string) : M (option Mission.t) :=
  update_mission mission_id None None (Some MissionStatus.ABANDONED)
                 None None None None None None.

Definition list_missions_for_user (user_id : string)
           (status : option MissionStatus.t) (limit : Z) : M (list Mission.t) :=
  InMemoryMissionsRepository.list_for_user user_id status limit 0.
End MissionTools.

Module TimelineTools.

(** The body of the [for i in range(num_blocks)] loop, over the indices
    still to visit; [blocks] is the list built so far. *)
Fixpoint propose_loop (mission : Mission.t) (mission_id : string)
         (start : date) (duration : Z) (indices : list Z)
         (blocks : list Block.t) : M (list Block.t) :=
  match indices with
  | [] => ret blocks
  | i :: rest =>
      let! block_date := lift (date_add_days start i) in
      let days_off := MissionConstraints.days_off (Mission.constraints mission) in
      if match days_off with [] => false | _ => mem_int (weekday block_date) days_off end
      then propose_loop mission mission_id start duration rest blocks
      else
        let! fresh := new_id in
        let! block := lift (validate_block
          {| Block.id := fresh;
             Block.user_id := Mission.user_id mission;
             Block.mission_id := mission_id;
             Block.sequence_index := Some (len blocks);
             Block.scheduled_start := Some (combine_hour block_date 9);
             Block.scheduled_end := None;
             Block.planned_duration_minutes := Some duration;
             Block.actual_start := None; Block.actual_end := None;
             Block.status := BlockStatus.PLANNED;
             Block.title :=
               Some (Mission.title mission ++ " - Session "
                     ++ str_int (len blocks + 1));
             Block.plan_note := None; Block.outcome_note := None;
             Block.completion_ratio := None;
             Block.location_hint := None; Block.device_hint := None |}) in
        propose_loop mission mission_id start duration rest (blocks ++ [block])
  end.

Definition propose_blocks_for_mission (mission_id : string)
           (start_date : option date) (num_blocks : Z)
           (default_duration_minutes : Z) : M (list Block.t) :=
  let! mission := InMemoryMissionsRepository.get mission_id in
  match mission with
  | None => ret []
  | Some mission =>
      let! start := match start_date with
                    | Some d => ret d
                    | None => gets today
                    end in
      let duration :=
        match MissionPreferences.preferred_block_lengths (Mission.preferences mission) with
        | Some (first :: _) => first
        | _ => default_duration_minutes
        end in
      propose_loop mission mission_id start duration (range num_blocks) []
  end.

Definition create_block (user_id mission_id : string)
           (title plan_note : option string)
           (scheduled_start : option datetime)
           (planned_duration_minutes : Z) : M Block.t :=
  let! existing_blocks :=
    InMemoryBlocksRepository.list_for_mission mission_id None 100 in
  let sequence_index := len existing_blocks in
  let! fresh := new_id in
  let! block := lift (validate_block
    {| Block.id := fresh; Block.user_id := user_id;
       Block.mission_id := mission_id;
       Block.sequence_index := Some sequence_index;
       Block.scheduled_start := scheduled_start;
       Block.scheduled_end := None;
       Block.planned_duration_minutes := Some planned_duration_minutes;
       Block.actual_start := None; Block.actual_end := None;
       Block.status := BlockStatus.PLANNED;
       Block.title := title; Block.plan_note := plan_note;
       Block.outcome_note := None; Block.completion_ratio := None;
       Block.location_hint := None; Block.device_hint := None |}) in
  InMemoryBlocksRepository.create block.

Definition start_block (block_id : string) : M (option Block.t) :=
  let! block := InMemoryBlocksRepository.get block_id in
  match block with
  | None => ret None
  | Some block =>
      let! now := now_utc in
      let updated := Block.copy_started block BlockStatus.IN_PROGRESS now in
      let! saved := InMemoryBlocksRepository.update updated in
      ret (Some saved)
  end.

Definition get_block (block_id : string) : M (option Block.t) :=
  InMemoryBlocksRepository.get block_id.

Definition get_today_blocks (user_id : string) : M (list Block.t) :=
  let! d := gets today in
  InMemoryBlocksRepository.list_for_user_date user_id d.

Definition get_current_block (user_id : string) : M (option Block.t) :=
  InMemoryBlocksRepository.get_current_block user_id.

Definition is_some {A} (o : option A) : bool :=
  match o with Some _ => true | None => false end.

Definition get_next_planned_block (user_id : string)
           (mission_id : option string) : M (option Block.t) :=
  let planned_today :=
    let! today_blocks := get_today_blocks user_id in
    ret (List.filter (fun b => BlockStatus.eqb (Block.status b) BlockStatus.PLANNED)
                today_blocks) in
  let! blocks :=
    match mission_id with
    | Some mid =>
        if truthy_str mid then
          InMemoryBlocksRepository.list_for_mission mid (Some BlockStatus.PLANNED) 100
        else planned_today
    | None => planned_today
    end in
  match blocks with
  | [] => ret None
  | first :: _ =>
      let blocks_with_schedule :=
        List.filter (fun b => is_some (Block.scheduled_start b)) blocks in
      match blocks_with_schedule with
      | b :: rest =>
          ret (Some (min_from InMemoryBlocksRepository.start_order b rest))
      | [] => ret (Some first)
      end
  end.

(** The loop of [commit_blocks], over the blocks still to save; [saved]
    is the list built so far. *)
Fixpoint commit_loop (blocks saved : list Block.t) : M (list Block.t) :=
  match blocks with
  | [] => ret saved
  | block :: rest =>
      let! saved_block := InMemoryBlocksRepository.create block in
      commit_loop rest (saved ++ [saved_block])
  end.

Definition commit_blocks (blocks : list Block.t) : M (list Block.t) :=
  commit_loop blocks [].

Definition complete_block (block_id : string) (outcome_note : option string)
           (completion_ratio : option Q) : M (option Block.t) :=
  let! block := InMemoryBlocksRepository.get block_id in
  match block with
  | None => ret None
  | Some block =>
      let! now := now_utc in
      let updated :=
        Block.copy_completed block BlockStatus.COMPLETED now
                             outcome_note completion_ratio in
      let! saved := InMemoryBlocksRepository.update updated in
      ret (Some saved)
  end.

Definition cancel_block (block_id : string) : M (option Block.t) :=
  let! block := InMemoryBlocksRepository.get block_id in
  match block with
  | None => ret None
  | Some block =>
      let updated := Block.copy_status block BlockStatus.CANCELLED in
      let! saved := InMemoryBlocksRepository.update updated in
      ret (Some saved)
  end.

Definition skip_block (block_id : string) : M (option Block.t) :=
  let! block := InMemoryBlocksRepository.get block_id in
  match block with
  | None => ret None
  | Some block =>
      let updated := Block.copy_status block BlockStatus.SKIPPED in
      let! saved := InMemoryBlocksRepository.update updated in
      ret (Some saved)
  end.

Definition list_blocks_for_mission (mission_id : string)
           (status : option BlockStatus.t) : M (list Block.t) :=
  InMemoryBlocksRepository.list_for_mission mission_id status 100.

Definition update_block_plan (block_id : string)
           (title plan_note : option string)
           (planned_duration_minutes : option Z) : M (option Block.t) :=
  let! block := InMemoryBlocksRepository.get block_id in
  match block with
  | None => ret None
  | Some block =>
      match title, plan_note, planned_duration_minutes with
      | None, None, None => ret (Some block)
      | _, _, _ =>
          let updated :=
            Block.copy_plan block title plan_note planned_duration_minutes in
          let! saved := InMemoryBlocksRepository.update updated in
          ret (Some saved)
      end
  end.
End TimelineTools.

Module PeriodStats.
(** The dictionary [compute_period_stats] returns; [completion_rate] is
    the key the archivist adds to it. *)
Record t := {
  total_focused_minutes : Z;
  total_leaked_minutes : Z;
  blocks_completed : Z;
  avg_focus_score : Q;
  avg_energy_score : Q;
  completion_rate : option Q
}.

Definition with_completion_rate (s : t) (r : Q) : t :=
  {| total_focused_minutes := total_focused_minutes s;
     total_leaked_minutes := total_leaked_minutes s;
     blocks_completed := blocks_completed s;
     avg_focus_score := avg_focus_score s;
     avg_energy_score := avg_energy_score s;
     completion_rate := Some r |}.
End PeriodStats.

Module MemoryTools.

Definition save_episode (user_id : string) (kind : EpisodeKind.t)
           (summary : string) (mission_id block_id title reflection : option string)
           (mood_before mood_after : option EmotionLabel.t)
           (focus_score energy_score : option Z)
           (time_focused_minutes time_leaked_minutes : option Z)
           (leaks : option (list LeakEvent.t)) (tags : option (list string))
  : M Episode.t :=
  let! fresh := new_id in
  let! now := now_utc in
  let! episode := lift (validate_episode
    {| Episode.id := fresh; Episode.user_id := user_id; Episode.kind := kind;
       Episode.created_at := now;
       Episode.mission_id := mission_id; Episode.block_id := block_id;
       Episode.title := title; Episode.summary := summary;
       Episode.reflection := reflection;
       Episode.mood_before := mood_before; Episode.mood_after := mood_after;
       Episode.focus_score := focus_score; Episode.energy_score := energy_score;
       Episode.time_focused_minutes := time_focused_minutes;
       Episode.time_leaked_minutes := time_leaked_minutes;
       Episode.leaks := match leaks with Some l => l | None => [] end;
       Episode.tags := match tags with Some l => l | None => [] end |}) in
  let! episode := InMemoryEpisodesRepository.create episode in
  do! modify (fun w =>
                match semantic_memory w with
                | Some s =>
                    set_semantic (Some (InMemorySemanticMemory.add_episode episode s)) w
                | None => w
                end) in
  ret episode.

(** The repository is asked without a [limit], so its default of 50
    applies. *)
Definition get_episodes_for_period (user_id : string) (start_date end_date : date)
           (kind : option EpisodeKind.t) : M (list Episode.t) :=
  InMemoryEpisodesRepository.list_for_user
    user_id kind None (Some start_date) (Some end_date) 50.

Definition get_user_profile (user_id : string) : M UserProfile.t :=
  InMemoryUserProfileRepository.get_or_create user_id.

Definition update_user_stats (user_id : string)
           (blocks_completed_delta focused_minutes_delta missions_created_delta : Z)
  : M UserProfile.t :=
  let! profile := InMemoryUserProfileRepository.get_or_create user_id in
  let old := UserProfile.stats profile in
  let new_stats :=
    {| UserStats.total_missions_created :=
         UserStats.total_missions_created old + missions_created_delta;
       UserStats.total_blocks_completed :=
         UserStats.total_blocks_completed old + blocks_completed_delta;
       UserStats.total_focused_minutes :=
         UserStats.total_focused_minutes old + focused_minutes_delta;
       UserStats.avg_block_length_successful :=
         UserStats.avg_block_length_successful old;
       UserStats.avg_start_hour_successful :=
         UserStats.avg_start_hour_successful old;
       UserStats.night_sessions_failure_rate :=
         UserStats.night_sessions_failure_rate old;
       UserStats.morning_sessions_success_rate :=
         UserStats.morning_sessions_success_rate old |} in
  let! now := now_utc in
  let updated := UserProfile.copy_stats profile new_stats now in
  InMemoryUserProfileRepository.update updated.

(** The five accumulators of the loop in [compute_period_stats]. *)
Record Acc := {
  total_focused : Z;
  total_leaked : Z;
  blocks_completed : Z;
  focus_scores : list Z;
  energy_scores : list Z
}.

Definition acc0 : Acc :=
  {| total_focused := 0; total_leaked := 0; blocks_completed := 0;
     focus_scores := []; energy_scores := [] |}.

(** One turn of [for ep in episodes]. *)
Definition visit (a : Acc) (ep : Episode.t) : Acc :=
  {| total_focused :=
       (match Episode.time_focused_minutes ep with
        | Some n => if n =? 0 then total_focused a else total_focused a + n
        | None => total_focused a
        end);
     total_leaked :=
       (match Episode.time_leaked_minutes ep with
        | Some n => if n =? 0 then total_leaked a else total_leaked a + n
        | None => total_leaked a
        end);
     blocks_completed :=
       (if EpisodeKind.eqb (Episode.kind ep) EpisodeKind.SESSION
        then blocks_completed a + 1 else blocks_completed a);
     focus_scores :=
       (match Episode.focus_score ep with
        | Some n => if n =? 0 then focus_scores a else focus_scores a ++ [n]
        | None => focus_scores a
        end);
     energy_scores :=
       (match Episode.energy_score ep with
        | Some n => if n =? 0 then energy_scores a else energy_scores a ++ [n]
        | None => energy_scores a
        end) |}.

Definition sum_ints (l : list Z) : Z := fold_left Z.add l 0.

(** [sum(scores) / len(scores) if scores else 0.0]. *)
Definition average (scores : list Z) : Q :=
  match scores with
  | [] => 0%Q
  | _ => (inject_Z (sum_ints scores) / inject_Z (len scores))%Q
  end.

Definition stats_of (a : Acc) : PeriodStats.t :=
  {| PeriodStats.total_focused_minutes := total_focused a;
     PeriodStats.total_leaked_minutes := total_leaked a;
     PeriodStats.blocks_completed := blocks_completed a;
     PeriodStats.avg_focus_score := average (focus_scores a);
     PeriodStats.avg_energy_score := average (energy_scores a);
     PeriodStats.completion_rate := None |}.

Definition compute_period_stats (user_id : string) (start_date end_date : date)
  : M PeriodStats.t :=
  let! episodes := get_episodes_for_period user_id start_date end_date None in
  ret (stats_of (fold_left visit episodes acc0)).

Definition get_recent_episodes (user_id : string) (limit : Z) : M (list Episode.t) :=
  InMemoryEpisodesRepository.get_recent user_id limit.

(** The repository is asked without a [limit] here too. *)
Definition get_mission_episodes (user_id mission_id : string) : M (list Episode.t) :=
  InMemoryEpisodesRepository.list_for_user
    user_id None (Some mission_id) None None 50.
End MemoryTools.

Module UITools.
(** [UIState], without the notification queue the graphs do not use. *)
Record UIState := {
  focus_mode_active : bool;
  timer_running : bool;
  timer_remaining_seconds : option Z;
  current_block_id : option string
}.

(** [UIState()]. *)
Definition fresh : UIState :=
  {| focus_mode_active := false; timer_running := false;
     timer_remaining_seconds := None; current_block_id := None |}.

Definition focus_mode_on (block_id : option string) (duration_minutes : option Z)
           (s : UIState) : UIState :=
  if truthy_opt_int duration_minutes then
    {| focus_mode_active := true; timer_running := true;
       timer_remaining_seconds := Some (or_int duration_minutes 0 * 60);
       current_block_id := block_id |}
  else
    {| focus_mode_active := true; timer_running := timer_running s;
       timer_remaining_seconds := timer_remaining_seconds s;
       current_block_id := block_id |}.

Definition focus_mode_off (s : UIState) : UIState :=
  {| focus_mode_active := false; timer_running := false;
     timer_remaining_seconds := None; current_block_id := None |}.

Definition start_timer (duration_minutes : Z) (s : UIState) : UIState :=
  {| focus_mode_active := focus_mode_active s; timer_running := true;
     timer_remaining_seconds := Some (duration_minutes * 60);
     current_block_id := current_block_id s |}.

Definition stop_timer (s : UIState) : UIState :=
  {| focus_mode_active := focus_mode_active s; timer_running := false;
     timer_remaining_seconds := None;
     current_block_id := current_block_id s |}.

Definition pause_timer (s : UIState) : UIState :=
  {| focus_mode_active := focus_mode_active s; timer_running := false;
     timer_remaining_seconds := timer_remaining_seconds s;
     current_block_id := current_block_id s |}.

Definition resume_timer (s : UIState) : UIState :=
  match timer_remaining_seconds s with
  | Some _ =>
      {| focus_mode_active := focus_mode_active s; timer_running := true;
         timer_remaining_seconds := timer_remaining_seconds s;
         current_block_id := current_block_id s |}
  | None => s
  end.

Inductive NotificationPriority := LOW | NORMAL | HIGH | URGENT.

Inductive NotificationType := INFO | SUCCESS | WARNING | NUDGE | CELEBRATION.

Record PendingNotification := {
  id : string;
  title : string;
  message : string;
  notification_type : NotificationType;
  priority : NotificationPriority;
  created_at : datetime;
  metadata : gmap string Base.PyVal
}.

(** The notification side of a [UITools] instance: the queue of its
    [UIState] and the counter the ids are made from. *)
Record Queue := {
  pending_notifications : list PendingNotification;
  notification_counter : Z
}.

(** [UITools()]. *)
Definition empty_queue : Queue :=
  {| pending_notifications := []; notification_counter := 0 |}.

(** [show_notification]; [now] is the reading of [datetime.now()]. *)
Definition show_notification (title message : string)
           (notification_type : NotificationType)
           (priority : NotificationPriority)
           (metadata : option (gmap string Base.PyVal))
           (now : datetime) (q : Queue) : string * Queue :=
  let counter := notification_counter q + 1 in
  let notification_id := "notif_" ++ str_int counter in
  let notification :=
    {| id := notification_id; title := title; message := message;
       notification_type := notification_type; priority := priority;
       created_at := now;
       metadata := match metadata with Some d => d | None => ∅ end |} in
  (notification_id,
   {| pending_notifications := pending_notifications q ++ [notification];
      notification_counter := counter |}).

Definition pop_notifications (q : Queue) : list PendingNotification * Queue :=
  (pending_notifications q,
   {| pending_notifications := []; notification_counter := notification_counter q |}).

Definition send_nudge (message : string) (gentle : bool)
           (now : datetime) (q : Queue) : string * Queue :=
  let priority := if gentle then NORMAL else HIGH in
  show_notification "Nudge from Glyph" message NUDGE priority None now q.
End UITools.

(* ===================================================================== *)
(** ** agents/graphs/planner_graph.py *)
(* ===================================================================== *)

Definition newline : string := String (ascii_of_nat 10) EmptyString.

Module PlannerGraph.

(** The dictionary built by [_parse_input]. *)
Record ParsedInput := {
  title : string;
  description : string;
  kind : MissionKind.t;
  deadline : option date;
  estimated_hours : option float;
  constraints : option MissionConstraints.t;
  preferences : option MissionPreferences.t
}.

(** The state dictionary of a planner run: the context, the scratchpad,
    one field per key of [outputs], and the error list. *)
Record State := {
  user_id : string;
  surface : string;
  ctx_mission_id : option string;
  scratchpad : string;
  request : PlanMissionRequest.t;
  parsed_input : option ParsedInput;
  similar_missions : option (list Mission.t);
  history_note : option string;
  mission : option Mission.t;
  proposed_blocks : option (list ProposedBlock.t);
  summary : option string;
  rationale : option string;
  similar_missions_note : option string;
  errors : list string
}.

Definition _parse_input (st : State) : State :=
  let r := request st in
  let parsed :=
    {| title := prefix_slice 100 (PlanMissionRequest.raw_input r);
       description := PlanMissionRequest.raw_input r;
       kind := match PlanMissionRequest.kind r with
               | Some k => k | None => MissionKind.OTHER end;
       deadline := PlanMissionRequest.deadline r;
       estimated_hours := PlanMissionRequest.estimated_hours r;
       constraints := PlanMissionRequest.constraints r;
       preferences := PlanMissionRequest.preferences r |} in
  {| user_id := user_id st; surface := surface st;
     ctx_mission_id := ctx_mission_id st;
     scratchpad := scratchpad st ++ newline ++ "Parsed input: " ++ title parsed;
     request := request st;
     parsed_input := Some parsed;
     similar_missions := similar_missions st; history_note := history_note st;
     mission := mission st; proposed_blocks := proposed_blocks st;
     summary := summary st; rationale := rationale st;
     similar_missions_note := similar_missions_note st;
     errors := errors st |}.

Definition parsed_title (st : State) (default : string) : string :=
  match parsed_input st with Some p => title p | None => default end.

Definition _check_history (st : State) : M State :=
  let query :=
    parsed_title st "" ++ " "
    ++ match parsed_input st with Some p => description p | None => "" end in
  let! similar := MissionTools.find_similar_missions (user_id st) query 3 in
  let completed :=
    List.filter (fun m => MissionStatus.eqb (Mission.status m) MissionStatus.COMPLETED)
           similar in
  let note :=
    match completed with
    | [] => None
    | _ => Some ("Found " ++ str_int (len completed)
                 ++ " similar completed missions. Consider what worked before.")
    end in
  ret {| user_id := user_id st; surface := surface st;
         ctx_mission_id := ctx_mission_id st; scratchpad := scratchpad st;
         request := request st; parsed_input := parsed_input st;
         similar_missions := Some similar; history_note := note;
         mission := mission st; proposed_blocks := proposed_blocks st;
         summary := summary st; rationale := rationale st;
         similar_missions_note := similar_missions_note st;
         errors := errors st |}.

(** [x * 60] in binary64, rounded to nearest, ties to even. *)
Definition times_60 (x : float) : float := SFmul 53 1024 x float_60.

(** [int(x)] for a float: towards zero; not a number and the infinities
    have no integer. *)
Definition int_of_float (x : float) : result Z :=
  match x with
  | S754_zero _ => Ok 0
  | S754_finite s m e =>
      let magnitude :=
        if 0 <=? e then Zpos m * 2 ^ e else Zpos m / 2 ^ (- e) in
      Ok (if s then - magnitude else magnitude)
  | S754_nan => Raise (ValueError "cannot convert float NaN to integer")
  | S754_infinity _ =>
      Raise (OverflowError "cannot convert float infinity to integer")
  end.

(** The truth value of a float: false for the two zeros only. *)
Definition truthy_float (x : float) : bool :=
  match x with S754_zero _ => false | _ => true end.

Definition _build_mission (st : State) : M State :=
  let parsed := parsed_input st in
  (* the ISO text of the date, read back as a datetime at midnight *)
  let deadline_dt :=
    match parsed with
    | Some p => option_map (fun d => mkdatetime d 0 false) (deadline p)
    | None => None
    end in
  let! estimated_minutes :=
    match parsed with
    | Some p =>
        match estimated_hours p with
        | Some h =>
            if truthy_float h then
              let! minutes := lift (int_of_float (times_60 h)) in
              ret (Some minutes)
            else ret None
        | None => ret None
        end
    | None => ret None
    end in
  let! m := MissionTools.create_mission
              (user_id st)
              (parsed_title st "Untitled")
              (option_map description parsed)
              (match parsed with Some p => kind p | None => MissionKind.OTHER end)
              MissionPriority.MEDIUM
              deadline_dt None estimated_minutes
              (match parsed with Some p => constraints p | None => None end)
              (match parsed with Some p => preferences p | None => None end)
              None in
  ret {| user_id := user_id st; surface := surface st;
         ctx_mission_id := Some (Mission.id m); scratchpad := scratchpad st;
         request := request st; parsed_input := parsed_input st;
         similar_missions := similar_missions st;
         history_note := history_note st;
         mission := Some m; proposed_blocks := proposed_blocks st;
         summary := summary st; rationale := rationale st;
         similar_missions_note := similar_missions_note st;
         errors := errors st |}.

Definition or_str (o : option string) (d : string) : string :=
  match o with Some s => if truthy_str s then s else d | None => d end.

(** A proposed block in the shape the response carries. *)
Definition to_proposed (b : Block.t) : ProposedBlock.t :=
  validated_proposed
    {| ProposedBlock.title := or_str (Block.title b) "";
       ProposedBlock.plan_note := Block.plan_note b;
       ProposedBlock.suggested_date := option_map dt_date (Block.scheduled_start b);
       ProposedBlock.suggested_duration_minutes :=
         or_int (Block.planned_duration_minutes b) 25;
       ProposedBlock.sequence_index := or_int (Block.sequence_index b) 0 |}.

Definition _propose_blocks (st : State) : M State :=
  match mission st with
  | None =>
      ret {| user_id := user_id st; surface := surface st;
             ctx_mission_id := ctx_mission_id st; scratchpad := scratchpad st;
             request := request st; parsed_input := parsed_input st;
             similar_missions := similar_missions st;
             history_note := history_note st;
             mission := mission st; proposed_blocks := proposed_blocks st;
             summary := summary st; rationale := rationale st;
             similar_missions_note := similar_missions_note st;
             errors := errors st ++ ["No mission created"] |}
  | Some mission_data =>
      let mission_id := Mission.id mission_data in
      let! proposed := TimelineTools.propose_blocks_for_mission mission_id None 5 25 in
      ret {| user_id := user_id st; surface := surface st;
             ctx_mission_id := ctx_mission_id st; scratchpad := scratchpad st;
             request := request st; parsed_input := parsed_input st;
             similar_missions := similar_missions st;
             history_note := history_note st;
             mission := mission st;
             proposed_blocks := Some (map to_proposed proposed);
             summary := summary st; rationale := rationale st;
             similar_missions_note := similar_missions_note st;
             errors := errors st |}
  end.

Definition _summarize (st : State) : M State :=
  let! fmt := gets format_1f in
  let! sdate := gets str_date in
  let blocks := match proposed_blocks st with Some l => l | None => [] end in
  let summary_text :=
    "Created mission: "
    ++ match mission st with Some m => Mission.title m | None => "Untitled" end
    ++ match blocks with
       | [] => ""
       | _ => " with " ++ str_int (len blocks) ++ " proposed sessions"
       end in
  let rationale_parts :=
    match mission st with
    | Some m =>
        app
          (match Mission.deadline_date m with
           | Some d => ["Deadline: " ++ sdate d]
           | None => []
           end)
          (if truthy_opt_int (Mission.estimated_total_minutes m) then
             ["Estimated effort: "
              ++ fmt (inject_Z (or_int (Mission.estimated_total_minutes m) 0) / 60)%Q
              ++ " hours"]
           else [])
    | None => []
    end in
  let rationale_text :=
    match rationale_parts with
    | [] => None
    | _ => Some (join ". " rationale_parts)
    end in
  ret {| user_id := user_id st; surface := surface st;
         ctx_mission_id := ctx_mission_id st; scratchpad := scratchpad st;
         request := request st; parsed_input := parsed_input st;
         similar_missions := similar_missions st;
         history_note := history_note st;
         mission := mission st; proposed_blocks := proposed_blocks st;
         summary := Some summary_text; rationale := rationale_text;
         similar_missions_note := history_note st;
         errors := errors st |}.

(** The compiled graph: the five nodes in edge order. *)
Definition invoke (st : State) : M State :=
  let! s2 := _check_history (_parse_input st) in
  let! s3 := _build_mission s2 in
  let! s4 := _propose_blocks s3 in
  _summarize s4.

Definition initial_state (user_id : string) (request : PlanMissionRequest.t) : State :=
  {| user_id := user_id;
     surface := SurfaceType.value (PlanMissionRequest.surface request);
     ctx_mission_id := None; scratchpad := "";
     request := request; parsed_input := None; similar_missions := None;
     history_note := None; mission := None; proposed_blocks := None;
     summary := None; rationale := None; similar_missions_note := None;
     errors := [] |}.

Definition run_planner (user_id : string) (request : PlanMissionRequest.t)
  : M PlanMissionResponse.t :=
  let! final_state := invoke (initial_state user_id request) in
  let! m :=
    match mission final_state with
    | Some mission_data => ret (validated_mission mission_data)
    | None =>
        let! created := now in
        let! updated := now in
        ret (validated_mission
               {| Mission.id := ""; Mission.user_id := user_id;
                  Mission.title := "Failed to create mission";
                  Mission.description := None;
                  Mission.kind := MissionKind.OTHER;
                  Mission.status := MissionStatus.ACTIVE;
                  Mission.priority := MissionPriority.MEDIUM;
                  Mission.created_at := created; Mission.updated_at := updated;
                  Mission.planned_start_date := None;
                  Mission.deadline_date := None;
                  Mission.estimated_total_minutes := None;
                  Mission.tags := []; Mission.graph_links := [];
                  Mission.constraints := MissionConstraints.default;
                  Mission.preferences := MissionPreferences.default;
                  Mission.archived := false |})
    end in
  let blocks :=
    map validated_proposed
        (match proposed_blocks final_state with Some l => l | None => [] end) in
  ret {| PlanMissionResponse.mission := m;
         PlanMissionResponse.proposed_blocks := blocks;
         PlanMissionResponse.summary :=
           strip (match summary final_state with Some s => s | None => "" end);
         PlanMissionResponse.rationale := strip_opt (rationale final_state);
         PlanMissionResponse.similar_missions_note :=
           strip_opt (similar_missions_note final_state);
         PlanMissionResponse.warnings := map strip (errors final_state);
         PlanMissionResponse.suggestions := [] |}.

End PlannerGraph.

(* ===================================================================== *)
(** ** agents/graphs/coach_graph.py *)
(* ===================================================================== *)

Module CoachGraph.

(** [outputs["ui_state"]]. *)
Record UiFlags := {
  focus_mode_active : bool;
  timer_running : bool;
  timer_remaining_seconds : Z
}.

(** The state dictionary of a coach run; [ui_tools] is the graph's own
    [UITools] instance. *)
Record State := {
  user_id : string;
  request : RunSessionRequest.t;
  mission : option Mission.t;
  current_block : option Block.t;
  today_blocks : list Block.t;
  selected_block : option Block.t;
  is_continuation : option bool;
  brief : option string;
  actions : option (list SessionAction.t);
  recommended_duration : option Z;
  ui_state : option UiFlags;
  ui_tools : UITools.UIState;
  errors : list string
}.

Definition _load_context (st : State) : M State :=
  let request_data := request st in
  let mission_id := RunSessionRequest.mission_id request_data in
  let! m :=
    match mission_id with
    | Some mid =>
        if truthy_str mid then MissionTools.get_mission mid
        else MissionTools.get_active_mission (user_id st)
    | None => MissionTools.get_active_mission (user_id st)
    end in
  let block_id := RunSessionRequest.block_id request_data in
  let! block :=
    match block_id with
    | Some bid =>
        if truthy_str bid then TimelineTools.get_block bid
        else TimelineTools.get_current_block (user_id st)
    | None => TimelineTools.get_current_block (user_id st)
    end in
  let! today_blocks := TimelineTools.get_today_blocks (user_id st) in
  ret {| user_id := user_id st; request := request st;
         mission := m; current_block := block; today_blocks := today_blocks;
         selected_block := selected_block st;
         is_continuation := is_continuation st;
         brief := brief st; actions := actions st;
         recommended_duration := recommended_duration st;
         ui_state := ui_state st; ui_tools := ui_tools st;
         errors := errors st |}.

(** [state["outputs"]["selected_block"] = b] and
    [state["outputs"]["is_continuation"] = c]. *)
Definition select (st : State) (b : Block.t) (c : bool) : State :=
  {| user_id := user_id st; request := request st;
     mission := mission st; current_block := current_block st;
     today_blocks := today_blocks st;
     selected_block := Some b; is_continuation := Some c;
     brief := brief st; actions := actions st;
     recommended_duration := recommended_duration st;
     ui_state := ui_state st; ui_tools := ui_tools st;
     errors := errors st |}.

Definition add_error (st : State) (e : string) : State :=
  {| user_id := user_id st; request := request st;
     mission := mission st; current_block := current_block st;
     today_blocks := today_blocks st;
     selected_block := selected_block st;
     is_continuation := is_continuation st;
     brief := brief st; actions := actions st;
     recommended_duration := recommended_duration st;
     ui_state := ui_state st; ui_tools := ui_tools st;
     errors := (errors st ++ [e])%list |}.

(** The part of [_decide_block] from "Get next planned block" on. *)
Definition decide_next (st : State) : M State :=
  let mission_id := option_map Mission.id (mission st) in
  let! next_block :=
    TimelineTools.get_next_planned_block (user_id st) mission_id in
  match next_block with
  | Some b => ret (select st b false)
  | None =>
      match mission_id with
      | Some mid =>
          if truthy_str mid then
            let duration :=
              or_int (RunSessionRequest.available_minutes (request st)) 25 in
            let! new_block :=
              TimelineTools.create_block (user_id st) mid None None None duration in
            ret (select st new_block false)
          else ret (add_error st "No mission or block available")
      | None => ret (add_error st "No mission or block available")
      end
  end.

Definition _decide_block (st : State) : M State :=
  let in_progress :=
    match current_block st with
    | Some b => BlockStatus.eqb (Block.status b) BlockStatus.IN_PROGRESS
    | None => false
    end in
  match current_block st, in_progress with
  | Some b, true => ret (select st b true)
  | _, _ =>
      match RunSessionRequest.block_id (request st) with
      | Some bid =>
          if truthy_str bid then
            let! block := TimelineTools.get_block bid in
            match block with
            | Some b => ret (select st b false)
            | None => decide_next st
            end
          else decide_next st
      | None => decide_next st
      end
  end.

(** [str(x)] of an optional string inside an f-string. *)
Definition str_opt (o : option string) : string :=
  match o with Some s => s | None => "None" end.

Definition _generate_brief (st : State) : M State :=
  match selected_block st with
  | None =>
      ret {| user_id := user_id st; request := request st;
             mission := mission st; current_block := current_block st;
             today_blocks := today_blocks st;
             selected_block := selected_block st;
             is_continuation := is_continuation st;
             brief := Some "Let's get you started. What would you like to work on?";
             actions := Some [];
             recommended_duration := recommended_duration st;
             ui_state := ui_state st; ui_tools := ui_tools st;
             errors := errors st |}
  | Some block_data =>
      let mission_title :=
        match mission st with Some m => Mission.title m | None => "your work" end in
      let block_title := Block.title block_data in
      let duration := Block.planned_duration_minutes block_data in
      let continuation :=
        match is_continuation st with Some c => c | None => false end in
      let has_note := truthy_opt_str (Block.plan_note block_data) in
      let brief_text :=
        if continuation then
          "Continuing your session on " ++ mission_title ++ ". You've got this."
        else
          "Let's do a " ++ str_opt_int duration ++ "-minute block on "
          ++ mission_title ++ "."
          ++ (if has_note then " Focus: " ++ str_opt (Block.plan_note block_data)
              else "") in
      let first_action :=
        validated_action
          (if has_note then
             {| SessionAction.description := str_opt (Block.plan_note block_data);
                SessionAction.estimated_minutes := duration;
                SessionAction.is_stretch_goal := false |}
           else
             {| SessionAction.description := "Work on " ++ str_opt block_title;
                SessionAction.estimated_minutes := duration;
                SessionAction.is_stretch_goal := false |}) in
      match duration with
      | None =>
          raise (TypeError
                   "'>=' not supported between instances of 'NoneType' and 'int'")
      | Some d =>
          let all_actions :=
            if 40 <=? d then
              [first_action;
               validated_action
                 {| SessionAction.description := "Review what you completed";
                    SessionAction.estimated_minutes := Some 5;
                    SessionAction.is_stretch_goal := true |}]
            else [first_action] in
          ret {| user_id := user_id st; request := request st;
                 mission := mission st; current_block := current_block st;
                 today_blocks := today_blocks st;
                 selected_block := selected_block st;
                 is_continuation := is_continuation st;
                 brief := Some brief_text;
                 actions := Some all_actions;
                 recommended_duration := Some d;
                 ui_state := ui_state st; ui_tools := ui_tools st;
                 errors := errors st |}
      end
  end.

Definition _start_session (st : State) : M State :=
  match selected_block st with
  | None => ret st
  | Some block_data =>
      let! selected :=
        if negb (BlockStatus.eqb (Block.status block_data) BlockStatus.IN_PROGRESS)
        then
          let! block := TimelineTools.start_block (Block.id block_data) in
          match block with
          | Some b => ret (Some b)
          | None => ret (selected_block st)
          end
        else ret (selected_block st) in
      let duration :=
        match recommended_duration st with Some d => d | None => 25 end in
      ret {| user_id := user_id st; request := request st;
             mission := mission st; current_block := current_block st;
             today_blocks := today_blocks st;
             selected_block := selected;
             is_continuation := is_continuation st;
             brief := brief st; actions := actions st;
             recommended_duration := recommended_duration st;
             ui_state := Some {| focus_mode_active := true;
                                 timer_running := true;
                                 timer_remaining_seconds := duration * 60 |};
             ui_tools := UITools.focus_mode_on (Some (Block.id block_data))
                                               (Some duration) (ui_tools st);
             errors := errors st |}
  end.

(** The compiled graph: the four nodes in edge order. *)
Definition invoke (st : State) : M State :=
  let! s1 := _load_context st in
  let! s2 := _decide_block s1 in
  let! s3 := _generate_brief s2 in
  _start_session s3.

Definition initial_state (user_id : string) (request : RunSessionRequest.t) : State :=
  {| user_id := user_id; request := request;
     mission := None; current_block := None; today_blocks := [];
     selected_block := None; is_continuation := None;
     brief := None; actions := None; recommended_duration := None;
     ui_state := None; ui_tools := UITools.fresh; errors := [] |}.

Definition run_coach (user_id : string) (request : RunSessionRequest.t)
  : M RunSessionResponse.t :=
  let! final_state := invoke (initial_state user_id request) in
  let! block :=
    match selected_block final_state with
    | Some block_data => lift (validate_block block_data)
    | None =>
        let! fresh := new_id in
        lift (validate_block
                {| Block.id := fresh; Block.user_id := user_id;
                   Block.mission_id := "";
                   Block.sequence_index := None;
                   Block.scheduled_start := None; Block.scheduled_end := None;
                   Block.planned_duration_minutes := None;
                   Block.actual_start := None; Block.actual_end := None;
                   Block.status := BlockStatus.PLANNED;
                   Block.title := None; Block.plan_note := None;
                   Block.outcome_note := None; Block.completion_ratio := None;
                   Block.location_hint := None; Block.device_hint := None |})
    end in
  let acts :=
    map validated_action
        (match actions final_state with Some l => l | None => [] end) in
  ret {| RunSessionResponse.block := block;
         RunSessionResponse.actions := acts;
         RunSessionResponse.brief :=
           strip (match brief final_state with
                  | Some s => s | None => "Ready to focus?" end);
         RunSessionResponse.recommended_duration_minutes :=
           match recommended_duration final_state with
           | Some d => d | None => 25 end;
         RunSessionResponse.break_after_minutes := None;
         RunSessionResponse.show_timer := true;
         RunSessionResponse.enable_leak_tracking := true;
         RunSessionResponse.warnings := map strip (errors final_state) |}.

End CoachGraph.

(* ===================================================================== *)
(** ** agents/graphs/archivist_graph.py *)
(* ===================================================================== *)

Module ArchivistGraph.

(** [outputs["period"]]. *)
Record Period := {
  kind : ReflectPeriodKind.t;
  start_date : date;
  end_date : date
}.

(** The state dictionary of an archivist run. *)
Record State := {
  user_id : string;
  request : ReflectPeriodRequest.t;
  period : option Period;
  block : option Block.t;
  mission : option Mission.t;
  period_episodes : option (list Episode.t);
  profile : option UserProfile.t;
  stats : option PeriodStats.t;
  patterns : option (list PatternInsight.t);
  highlights : option (list string);
  challenges : option (list string);
  episode : option Episode.t;
  updated_profile : option UserProfile.t;
  final_summary : option string;
  suggestions : option (list string);
  errors : list string
}.

Definition _load_period_data (st : State) : M State :=
  let request_data := request st in
  let k := ReflectPeriodRequest.kind request_data in
  let! today_date := gets today in
  let! default_start :=
    match k with
    | ReflectPeriodKind.BLOCK => ret today_date
    | ReflectPeriodKind.DAY => ret today_date
    | ReflectPeriodKind.WEEK => lift (date_add_days today_date (-7))
    | ReflectPeriodKind.MISSION => lift (date_add_days today_date (-30))
    end in
  let start :=
    match ReflectPeriodRequest.start_date request_data with
    | Some d => d | None => default_start end in
  let stop :=
    match ReflectPeriodRequest.end_date request_data with
    | Some d => d | None => today_date end in
  let! block_data :=
    match ReflectPeriodRequest.block_id request_data with
    | Some bid => if truthy_str bid then TimelineTools.get_block bid else ret None
    | None => ret None
    end in
  let! mission_data :=
    match ReflectPeriodRequest.mission_id request_data with
    | Some mid => if truthy_str mid then MissionTools.get_mission mid else ret None
    | None => ret None
    end in
  let! eps := MemoryTools.get_episodes_for_period (user_id st) start stop None in
  let! prof := MemoryTools.get_user_profile (user_id st) in
  ret {| user_id := user_id st; request := request st;
         period := Some {| kind := k; start_date := start; end_date := stop |};
         block := block_data; mission := mission_data;
         period_episodes := Some eps; profile := Some prof;
         stats := stats st; patterns := patterns st;
         highlights := highlights st; challenges := challenges st;
         episode := episode st; updated_profile := updated_profile st;
         final_summary := final_summary st; suggestions := suggestions st;
         errors := errors st |}.

(** [min(a, b)] on floats: [b] when it is strictly smaller, else [a]. *)
Definition py_min (a b : Q) : Q := if Qle_bool a b then a else b.

Definition _compute_stats (st : State) : M State :=
  match period st with
  | None => raise (KeyError "start_date")
  | Some p =>
      let! computed :=
        MemoryTools.compute_period_stats (user_id st) (start_date p) (end_date p) in
      let with_rate :=
        if 0 <? PeriodStats.blocks_completed computed then
          PeriodStats.with_completion_rate computed
            (py_min 1 (inject_Z (PeriodStats.blocks_completed computed) / 5))
        else computed in
      ret {| user_id := user_id st; request := request st;
             period := period st; block := block st; mission := mission st;
             period_episodes := period_episodes st; profile := profile st;
             stats := Some with_rate; patterns := patterns st;
             highlights := highlights st; challenges := challenges st;
             episode := episode st; updated_profile := updated_profile st;
             final_summary := final_summary st; suggestions := suggestions st;
             errors := errors st |}
  end.

Definition Qlt_bool (a b : Q) : bool := negb (Qle_bool b a).

(** The readings [stats.get(key, 0)]. *)
Definition stat_focused (st : State) : Z :=
  match stats st with Some s => PeriodStats.total_focused_minutes s | None => 0 end.
Definition stat_leaked (st : State) : Z :=
  match stats st with Some s => PeriodStats.total_leaked_minutes s | None => 0 end.
Definition stat_blocks (st : State) : Z :=
  match stats st with Some s => PeriodStats.blocks_completed s | None => 0 end.
Definition stat_avg_focus (st : State) : Q :=
  match stats st with Some s => PeriodStats.avg_focus_score s | None => 0%Q end.
Definition stat_avg_energy (st : State) : Q :=
  match stats st with Some s => PeriodStats.avg_energy_score s | None => 0%Q end.

Definition _identify_patterns (st : State) : M State :=
  let! fmt := gets format_1f in
  let focused := stat_focused st in
  let leaked := stat_leaked st in
  let blocks := stat_blocks st in
  let hl :=
    app (if 0 <? blocks then ["Completed " ++ str_int blocks ++ " focus blocks"]
         else [])
        (if 60 <? focused then ["Total focus time: " ++ str_int focused ++ " minutes"]
         else []) in
  let ch :=
    if 30 <? leaked then ["Leak time: " ++ str_int leaked ++ " minutes"] else [] in
  let avg_focus := stat_avg_focus st in
  let focus_patterns :=
    if Qle_bool 4 avg_focus then
      [{| PatternInsight.description := "Your focus has been strong this period";
          PatternInsight.confidence := (7 # 10)%Q;
          PatternInsight.supporting_data :=
            Some ("Average focus score: " ++ fmt avg_focus ++ "/5");
          PatternInsight.suggested_action := None |}]
    else if Qlt_bool 0 avg_focus && Qlt_bool avg_focus 3 then
      [{| PatternInsight.description :=
            "Focus has been challenging - consider shorter blocks";
          PatternInsight.confidence := (6 # 10)%Q;
          PatternInsight.supporting_data := None;
          PatternInsight.suggested_action :=
            Some "Try 25-minute blocks instead of longer ones" |}]
    else [] in
  let avg_energy := stat_avg_energy st in
  let energy_patterns :=
    if Qlt_bool 0 avg_energy && Qlt_bool avg_energy 3 then
      [{| PatternInsight.description := "Energy levels have been lower than usual";
          PatternInsight.confidence := (5 # 10)%Q;
          PatternInsight.supporting_data := None;
          PatternInsight.suggested_action :=
            Some "Consider rest or lighter sessions" |}]
    else [] in
  ret {| user_id := user_id st; request := request st;
         period := period st; block := block st; mission := mission st;
         period_episodes := period_episodes st; profile := profile st;
         stats := stats st;
         patterns := Some (focus_patterns ++ energy_patterns)%list;
         highlights := Some hl; challenges := Some ch;
         episode := episode st; updated_profile := updated_profile st;
         final_summary := final_summary st; suggestions := suggestions st;
         errors := errors st |}.

Definition _write_episode (st : State) : M State :=
  let request_data := request st in
  let kind_str :=
    match period st with
    | Some p => ReflectPeriodKind.value (kind p)
    | None => "session"
    end in
  let! ekind := lift (EpisodeKind.of_value kind_str) in
  let summary_parts :=
    app (if 0 <? stat_blocks st
         then ["Completed " ++ str_int (stat_blocks st) ++ " blocks"] else [])
        (if 0 <? stat_focused st
         then [str_int (stat_focused st) ++ " minutes focused"] else []) in
  let summary :=
    match summary_parts with
    | [] => "Reflection recorded"
    | _ => join ". " summary_parts
    end in
  let reflection := ReflectPeriodRequest.user_reflection request_data in
  let! saved :=
    MemoryTools.save_episode
      (user_id st) ekind summary
      (ReflectPeriodRequest.mission_id request_data)
      (ReflectPeriodRequest.block_id request_data)
      None reflection None None
      (ReflectPeriodRequest.focus_score request_data)
      (ReflectPeriodRequest.energy_score request_data)
      (option_map PeriodStats.total_focused_minutes (stats st))
      (option_map PeriodStats.total_leaked_minutes (stats st))
      None
      (Some (kind_str :: (if truthy_opt_str reflection then ["has_reflection"] else []))) in
  ret {| user_id := user_id st; request := request st;
         period := period st; block := block st; mission := mission st;
         period_episodes := period_episodes st; profile := profile st;
         stats := stats st; patterns := patterns st;
         highlights := highlights st; challenges := challenges st;
         episode := Some saved; updated_profile := updated_profile st;
         final_summary := final_summary st; suggestions := suggestions st;
         errors := errors st |}.

Definition _update_profile (st : State) : M State :=
  let! updated :=
    MemoryTools.update_user_stats (user_id st) (stat_blocks st) (stat_focused st) 0 in
  ret {| user_id := user_id st; request := request st;
         period := period st; block := block st; mission := mission st;
         period_episodes := period_episodes st; profile := profile st;
         stats := stats st; patterns := patterns st;
         highlights := highlights st; challenges := challenges st;
         episode := episode st; updated_profile := Some updated;
         final_summary := final_summary st; suggestions := suggestions st;
         errors := errors st |}.

Definition or_nil {A} (o : option (list A)) : list A :=
  match o with Some l => l | None => [] end.

Definition _build_summary (st : State) : State :=
  let hl := or_nil (highlights st) in
  let ch := or_nil (challenges st) in
  let summary_parts :=
    app (match hl with [] => [] | _ => ["Highlights: " ++ join ", " hl] end)
        (match ch with [] => [] | _ => ["Challenges: " ++ join ", " ch] end) in
  let summary :=
    match summary_parts with
    | [] => "Reflection complete."
    | _ => join ". " summary_parts
    end in
  let sugg :=
    flat_map (fun p =>
                match PatternInsight.suggested_action p with
                | Some a => if truthy_str a then [a] else []
                | None => []
                end)
             (or_nil (patterns st)) in
  {| user_id := user_id st; request := request st;
     period := period st; block := block st; mission := mission st;
     period_episodes := period_episodes st; profile := profile st;
     stats := stats st; patterns := patterns st;
     highlights := highlights st; challenges := challenges st;
     episode := episode st; updated_profile := updated_profile st;
     final_summary := Some summary; suggestions := Some sugg;
     errors := errors st |}.

(** The compiled graph: the six nodes in edge order. *)
Definition invoke (st : State) : M State :=
  let! s1 := _load_period_data st in
  let! s2 := _compute_stats s1 in
  let! s3 := _identify_patterns s2 in
  let! s4 := _write_episode s3 in
  let! s5 := _update_profile s4 in
  ret (_build_summary s5).

Definition initial_state (user_id : string) (request : ReflectPeriodRequest.t) : State :=
  {| user_id := user_id; request := request;
     period := None; block := None; mission := None;
     period_episodes := None; profile := None; stats := None;
     patterns := None; highlights := None; challenges := None;
     episode := None; updated_profile := None;
     final_summary := None; suggestions := None; errors := [] |}.

(** The episode kind a reflect-period kind is read as when the response
    is built without a stored episode. *)
Definition episode_kind_of (k : ReflectPeriodKind.t) : result EpisodeKind.t :=
  match EpisodeKind.of_value (ReflectPeriodKind.value k) with
  | Ok e => Ok e
  | Raise _ => Raise (ValidationError "kind")
  end.

Definition run_archivist (user_id : string) (request : ReflectPeriodRequest.t)
  : M ReflectPeriodResponse.t :=
  let! final_state := invoke (initial_state user_id request) in
  let! ep :=
    match episode final_state with
    | Some episode_data => lift (validate_episode episode_data)
    | None =>
        let! k := lift (episode_kind_of (ReflectPeriodRequest.kind request)) in
        let! now := now in
        lift (validate_episode
                {| Episode.id := ""; Episode.user_id := user_id;
                   Episode.kind := k; Episode.created_at := now;
                   Episode.mission_id := None; Episode.block_id := None;
                   Episode.title := None;
                   Episode.summary := "Reflection recorded";
                   Episode.reflection := None;
                   Episode.mood_before := None; Episode.mood_after := None;
                   Episode.focus_score := None; Episode.energy_score := None;
                   Episode.time_focused_minutes := None;
                   Episode.time_leaked_minutes := None;
                   Episode.leaks := []; Episode.tags := [] |})
    end in
  let! pats := lift (Base.all_ok (map validate_insight (or_nil (patterns final_state)))) in
  ret {| ReflectPeriodResponse.episode := ep;
         ReflectPeriodResponse.summary :=
           strip (match final_summary final_state with Some s => s | None => "" end);
         ReflectPeriodResponse.highlights :=
           map strip (or_nil (highlights final_state));
         ReflectPeriodResponse.challenges :=
           map strip (or_nil (challenges final_state));
         ReflectPeriodResponse.patterns := pats;
         ReflectPeriodResponse.total_focused_minutes := stat_focused final_state;
         ReflectPeriodResponse.total_leaked_minutes := stat_leaked final_state;
         ReflectPeriodResponse.blocks_completed := stat_blocks final_state;
         ReflectPeriodResponse.completion_rate :=
           match stats final_state with
           | Some s => PeriodStats.completion_rate s
           | None => None
           end;
         ReflectPeriodResponse.updated_profile :=
           option_map validated_profile (updated_profile final_state);
         ReflectPeriodResponse.suggestions :=
           map strip (or_nil (suggestions final_state)) |}.

End ArchivistGraph.

(* ===================================================================== *)
(** ** agents/graphs/router.py *)
(* ===================================================================== *)

Module GraphRouter.

Inductive GlyphEntrypoint := PLAN_MISSION | RUN_SESSION | REFLECT_PERIOD | CHAT.

Definition value (e : GlyphEntrypoint) : string :=
  match e with
  | PLAN_MISSION => "plan_mission" | RUN_SESSION => "run_session"
  | REFLECT_PERIOD => "reflect_period" | CHAT => "chat"
  end.

(** What can be handed over as [entrypoint].  The enum mixes in [str], so
    a member of another string enum is compared by its value; [Foreign]
    is such a member, with its value and the text [str()] gives for it. *)
Inductive Entry :=
| Member (e : GlyphEntrypoint)
| Foreign (val : string) (text : string).

Definition entry_value (e : Entry) : string :=
  match e with Member m => value m | Foreign v _ => v end.

Definition entry_text (e : Entry) : string :=
  match e with Member m => value m | Foreign _ t => t end.

(** What can be handed over as [request]: one of the three request
    records, or an object of another class, known by its class name. *)
Inductive Request :=
| PlanRequest (r : PlanMissionRequest.t)
| SessionRequest (r : RunSessionRequest.t)
| ReflectRequest (r : ReflectPeriodRequest.t)
| OtherRequest (class_name : string).

(** [type(request).__name__]. *)
Definition type_name (r : Request) : string :=
  match r with
  | PlanRequest _ => "PlanMissionRequest"
  | SessionRequest _ => "RunSessionRequest"
  | ReflectRequest _ => "ReflectPeriodRequest"
  | OtherRequest n => n
  end.

Inductive Response :=
| PlanResponse (r : PlanMissionResponse.t)
| SessionResponse (r : RunSessionResponse.t)
| ReflectResponse (r : ReflectPeriodResponse.t).

Definition plan_mission (user_id : string) (request : PlanMissionRequest.t)
  : M PlanMissionResponse.t :=
  PlannerGraph.run_planner user_id request.

Definition run_session (user_id : string) (request : RunSessionRequest.t)
  : M RunSessionResponse.t :=
  CoachGraph.run_coach user_id request.

Definition reflect_period (user_id : string) (request : ReflectPeriodRequest.t)
  : M ReflectPeriodResponse.t :=
  ArchivistGraph.run_archivist user_id request.

(** [logger.debug("call_graph", entrypoint=..., user_id=..., request_type=...)]
    on a [logging.Logger]: when the level is enabled, [Logger.debug] hands
    its keyword arguments to [Logger._log], which takes none of these
    names. *)
Definition log_call : M unit :=
  let! enabled := gets debug_enabled in
  if enabled then
    raise (TypeError "Logger._log() got an unexpected keyword argument 'entrypoint'")
  else ret tt.

Definition validation_error (message : string) (entrypoint : string) : exn :=
  ServiceError ErrorCode.VALIDATION_ERROR message [("entrypoint", entrypoint)].

Definition call_graph (entrypoint : Entry) (user_id : string) (request : Request)
  : M Response :=
  do! log_call in
  let v := entry_value entrypoint in
  if String.eqb v (value PLAN_MISSION) then
    match request with
    | PlanRequest r =>
        let! resp := plan_mission user_id r in ret (PlanResponse resp)
    | _ =>
        raise (validation_error
                 ("Expected PlanMissionRequest, got " ++ type_name request) v)
    end
  else if String.eqb v (value RUN_SESSION) then
    match request with
    | SessionRequest r =>
        let! resp := run_session user_id r in ret (SessionResponse resp)
    | _ =>
        raise (validation_error
                 ("Expected RunSessionRequest, got " ++ type_name request) v)
    end
  else if String.eqb v (value REFLECT_PERIOD) then
    match request with
    | ReflectRequest r =>
        let! resp := reflect_period user_id r in ret (ReflectResponse resp)
    | _ =>
        raise (validation_error
                 ("Expected ReflectPeriodRequest, got " ++ type_name request) v)
    end
  else if String.eqb v (value CHAT) then
    raise (validation_error
             "Chat should be handled by GlyphAgentService, not the router" v)
  else
    raise (validation_error ("Unknown entrypoint: " ++ entry_text entrypoint)
                            (entry_text entrypoint)).

Definition get_mode_for_entrypoint (e : GlyphEntrypoint) : Base.GlyphMode :=
  match e with
  | PLAN_MISSION => Base.PLANNER
  | RUN_SESSION => Base.COACH
  | REFLECT_PERIOD => Base.ARCHIVIST
  | CHAT => Base.CHAT
  end.

End GraphRouter.

(* ===================================================================== *)
(** ** The vocabulary of the properties *)
(* ===================================================================== *)

(** [m] run in [w] returns [a] and leaves [w']; [m] run in [w] raises. *)
Definition returns {A} (m : M A) (w w' : World) (a : A) : Prop :=
  m w = (w', Ok a).

Definition raises {A} (m : M A) (w : World) : Prop :=
  exists w' e, m w = (w', Raise e).

(** *** Users and their missions and blocks *)

Definition no_active_mission (w : World) (u : string) : Prop :=
  forall m, In m (missions w) -> Mission.user_id m = u ->
            Mission.status m <> MissionStatus.ACTIVE.

Definition no_block_in_progress (w : World) (u : string) : Prop :=
  forall b, In b (blocks w) -> Block.user_id b = u ->
            Block.status b <> BlockStatus.IN_PROGRESS.

(** No block of the user is planned and scheduled on today's date. *)
Definition no_planned_block_today (w : World) (u : string) : Prop :=
  forall b t, In b (blocks w) -> Block.user_id b = u ->
              Block.status b = BlockStatus.PLANNED ->
              Block.scheduled_start b = Some t -> dt_date t <> today w.

Definition mission_without_blocks (w : World) (m : Mission.t) : Prop :=
  forall b, In b (blocks w) -> Block.mission_id b <> Mission.id m.

(** The block the request names, if it names one, is not in the
    repository; if it names none, the user has no block in progress. *)
Definition no_block_to_resume (w : World) (u : string) (req : RunSessionRequest.t)
  : Prop :=
  match RunSessionRequest.block_id req with
  | Some bid =>
      if truthy_str bid then dict_get Block.id bid (blocks w) = None
      else no_block_in_progress w u
  | None => no_block_in_progress w u
  end.

(** The five-minute review the coach adds to long blocks. *)
Definition stretch_action : SessionAction.t :=
  {| SessionAction.description := "Review what you completed";
     SessionAction.estimated_minutes := Some 5;
     SessionAction.is_stretch_goal := true |}.

(** *** Block proposal *)

Definition is_day_off (mission : Mission.t) (d : date) : bool :=
  mem_int (weekday d) (MissionConstraints.days_off (Mission.constraints mission)).

(** Candidate [i] falls [i] days after the start: each candidate is one
    calendar day after the one before. *)
Definition candidate_day (start : date) (i : Z) : date :=
  mkdate (toordinal start + i).

(** The candidate days that are not days off, in order. *)
Definition kept_days (mission : Mission.t) (start : date) (indices : list Z)
  : list date :=
  List.filter (fun d => negb (is_day_off mission d))
              (map (candidate_day start) indices).

(** The mission's first preferred block length, or the default. *)
Definition block_length (mission : Mission.t) (default : Z) : Z :=
  match MissionPreferences.preferred_block_lengths (Mission.preferences mission) with
  | Some (first :: _) => first
  | _ => default
  end.

(** What the proposal loop builds for a kept day [d] as block number [k],
    from the identifier it drew. *)
Definition proposed (mission : Mission.t) (mission_id : string) (duration : Z)
           (fresh : string) (d : date) (k : Z) (b : Block.t) : Prop :=
  Block.id b = strip fresh
  /\ Block.user_id b = strip (Mission.user_id mission)
  /\ Block.mission_id b = strip mission_id
  /\ Block.sequence_index b = Some k
  /\ Block.scheduled_start b = Some (combine_hour d 9)
  /\ Block.planned_duration_minutes b = Some duration
  /\ Block.status b = BlockStatus.PLANNED.

(** The blocks match the kept days one for one, numbered from [k]. *)
Inductive proposed_from (mission : Mission.t) (mission_id : string) (duration : Z)
  : Z -> list date -> list Block.t -> Prop :=
| proposed_nil k : proposed_from mission mission_id duration k [] []
| proposed_cons k d ds b bs fresh :
    proposed mission mission_id duration fresh d k b ->
    proposed_from mission mission_id duration (k + 1) ds bs ->
    proposed_from mission mission_id duration k (d :: ds) (b :: bs).

(** *** Period statistics *)

(** The user's episodes created within the date range. *)
Definition in_range_episodes (u : string) (start stop : date)
           (all : list Episode.t) : list Episode.t :=
  List.filter (fun e => String.eqb (Episode.user_id e) u
                        && (date_leb start (dt_date (Episode.created_at e))
                            && date_leb (dt_date (Episode.created_at e)) stop))
              all.

(** Newest first, as the repository orders them. *)
Definition newest_first (l : list Episode.t) : list Episode.t :=
  sort_by (fun a b => datetime_ltb (Episode.created_at b) (Episode.created_at a)) l.

Definition minutes_or_zero (o : option Z) : Z :=
  match o with Some n => n | None => 0 end.

(** The sum of [time_focused_minutes] and the number of session episodes. *)
Definition focused_sum (l : list Episode.t) : Z :=
  fold_right (fun e acc => minutes_or_zero (Episode.time_focused_minutes e) + acc) 0 l.

Definition session_count (l : list Episode.t) : Z :=
  len (List.filter (fun e => EpisodeKind.eqb (Episode.kind e) EpisodeKind.SESSION) l).

(** *** The archivist's completion rate *)

(** [min(1.0, n / 5)]. *)
Definition capped_fifth (n : Z) : Q := ArchivistGraph.py_min 1 (inject_Z n / 5).

(** *** What a computation leaves alone *)

(** Whatever it returns or raises, the computation takes a world [w] to a
    world related to [w] by [R]. *)
Definition preserves {A} (R : World -> World -> Prop) (m : M A) : Prop :=
  forall w, R w (fst (m w)).

(** The component [f] of the world is the same in both worlds. *)
Definition same {X} (f : World -> X) (w w' : World) : Prop := f w' = f w.

(** Every block id stored in the first world is stored in the second. *)
Definition block_ids_kept (w w' : World) : Prop :=
  forall k, dict_mem Block.id k (blocks w) = true ->
            dict_mem Block.id k (blocks w') = true.

(* ===================================================================== *)
(** ** The text of a timestamp *)
(* ===================================================================== *)

Section IsoText.
Import Base.

(** An offset that [fromisoformat] reads back as it is: none, zero, or
    one of a second at least; an offset of less than a second is read
    as UTC. *)
Definition offset_read_back (d : datetime) : bool :=
  match utcoffset d with
  | Some off => (off =? 0) || (1000000 <=? Z.abs off)
  | None => true
  end.

Definition fraction_text (us : Z) : string :=
  if us =? 0 then "" else "." ++ fmt_digits 6 us.

(** The text of an offset of [a] microseconds after its sign. *)
Definition offset_body (a : Z) : string :=
  let r := a mod hour_us in
  let ss := r mod minute_us in
  fmt_digits 2 (a / hour_us) ++ ":" ++ fmt_digits 2 (r / minute_us) ++
  (if ss =? 0 then ""
   else ":" ++ fmt_digits 2 (ss / 1000000) ++
        (if ss mod 1000000 =? 0 then ""
         else "." ++ fmt_digits 6 (ss mod 1000000))).

End IsoText.

(* ===================================================================== *)
(** ** Sample inputs *)
(* ===================================================================== *)

Module Sample.

Definition day0 : date := mkdate 739000.

(** [str.lower] on text of ASCII letters, which is all the samples hold. *)
Definition ascii_lower_char (c : ascii) : ascii :=
  let n := nat_of_ascii c in
  if ((65 <=? n) && (n <=? 90))%nat then ascii_of_nat (n + 32) else c.

Fixpoint ascii_lower (s : string) : string :=
  match s with
  | String c s' => String (ascii_lower_char c) (ascii_lower s')
  | EmptyString => EmptyString
  end.

(** A host with empty repositories and no semantic memory. *)
Definition host : World :=
  {| missions := []; blocks := []; episodes := []; profiles := [];
     semantic_memory := None;
     new_id_at := fun n => "id-" ++ str_int (Z.of_nat n); ids_drawn := 0;
     clock_at := fun n => mkdatetime day0 (Z.of_nat n) true; clock_reads := 0;
     today := day0;
     format_1f := fun _ => "0.0"; str_date := fun _ => "2024-01-01";
     str_lower := ascii_lower;
     debug_enabled := false |}.

(** The same host with the router's logger at DEBUG. *)
Definition host_debug : World :=
  {| missions := []; blocks := []; episodes := []; profiles := [];
     semantic_memory := None;
     new_id_at := new_id_at host; ids_drawn := 0;
     clock_at := clock_at host; clock_reads := 0;
     today := day0;
     format_1f := format_1f host; str_date := str_date host;
     str_lower := str_lower host;
     debug_enabled := true |}.

Definition mission (id user : string) (status : MissionStatus.t) : Mission.t :=
  {| Mission.id := id; Mission.user_id := user; Mission.title := "thesis";
     Mission.description := None; Mission.kind := MissionKind.PROJECT;
     Mission.status := status; Mission.priority := MissionPriority.MEDIUM;
     Mission.created_at := mkdatetime day0 0 true;
     Mission.updated_at := mkdatetime day0 0 true;
     Mission.planned_start_date := None; Mission.deadline_date := None;
     Mission.estimated_total_minutes := None; Mission.tags := [];
     Mission.graph_links := [];
     Mission.constraints := MissionConstraints.default;
     Mission.preferences := MissionPreferences.default;
     Mission.archived := false |}.

Definition block (id user mission_id : string) (status : BlockStatus.t)
           (start : option datetime) (minutes : option Z) : Block.t :=
  {| Block.id := id; Block.user_id := user; Block.mission_id := mission_id;
     Block.sequence_index := Some 0;
     Block.scheduled_start := start; Block.scheduled_end := None;
     Block.planned_duration_minutes := minutes;
     Block.actual_start := None; Block.actual_end := None;
     Block.status := status; Block.title := Some "chapter one";
     Block.plan_note := None; Block.outcome_note := None;
     Block.completion_ratio := None;
     Block.location_hint := None; Block.device_hint := None |}.

Definition episode (id user : string) (kind : EpisodeKind.t)
           (created : datetime) (focused : option Z) : Episode.t :=
  {| Episode.id := id; Episode.user_id := user; Episode.kind := kind;
     Episode.created_at := created;
     Episode.mission_id := None; Episode.block_id := None;
     Episode.title := None; Episode.summary := "worked";
     Episode.reflection := None;
     Episode.mood_before := None; Episode.mood_after := None;
     Episode.focus_score := None; Episode.energy_score := None;
     Episode.time_focused_minutes := focused;
     Episode.time_leaked_minutes := None;
     Episode.leaks := []; Episode.tags := [] |}.

Definition session_request (mission_id block_id : option string)
           (available : option Z) : RunSessionRequest.t :=
  {| RunSessionRequest.mission_id := mission_id;
     RunSessionRequest.block_id := block_id;
     RunSessionRequest.available_minutes := available;
     RunSessionRequest.energy_level := None;
     RunSessionRequest.mood_note := None;
     RunSessionRequest.surface := SurfaceType.FOCUS_DOCK;
     RunSessionRequest.is_continuation := false;
     RunSessionRequest.adjustment_request := None |}.

Definition reflect_request (kind : ReflectPeriodKind.t) : ReflectPeriodRequest.t :=
  {| ReflectPeriodRequest.kind := kind;
     ReflectPeriodRequest.mission_id := None;
     ReflectPeriodRequest.block_id := None;
     ReflectPeriodRequest.start_date := None;
     ReflectPeriodRequest.end_date := None;
     ReflectPeriodRequest.user_reflection := None;
     ReflectPeriodRequest.focus_score := None;
     ReflectPeriodRequest.energy_score := None;
     ReflectPeriodRequest.surface := SurfaceType.FOCUS_DOCK |}.

(** Scenario A of the specification. *)
Definition scenario_A_request : PlanMissionRequest.t :=
  {| PlanMissionRequest.raw_input :=
       "organic chem final monday, cs project wednesday";
     PlanMissionRequest.kind := None; PlanMissionRequest.deadline := None;
     PlanMissionRequest.estimated_hours := None;
     PlanMissionRequest.constraints := None;
     PlanMissionRequest.preferences := None;
     PlanMissionRequest.surface := SurfaceType.OTHER;
     PlanMissionRequest.graph_context := [] |}.

(** A user whose only mission is paused and who has one planned block
    scheduled for today. *)
Definition paused_with_block_today : World :=
  set_blocks
    [block "b1" "u1" "m1" BlockStatus.PLANNED (Some (combine_hour day0 9)) (Some 25)]
    (set_missions [mission "m1" "u1" MissionStatus.PAUSED] host).

(** A user with a mission without blocks and, on another mission, a
    block in progress. *)
Definition other_block_in_progress : World :=
  set_blocks
    [block "b2" "u1" "m2" BlockStatus.IN_PROGRESS None (Some 25)]
    (set_missions [mission "m1" "u1" MissionStatus.ACTIVE;
                   mission "m2" "u1" MissionStatus.ACTIVE] host).

(** A mission that has no block yet. *)
Definition mission_only : World :=
  set_missions [mission "m1" "u1" MissionStatus.ACTIVE] host.

(** A completed block that was stored without a planned duration. *)
Definition block_without_duration : World :=
  set_blocks
    [block "b1" "u1" "m1" BlockStatus.COMPLETED None None]
    (set_missions [mission "m1" "u1" MissionStatus.ACTIVE] host).

(** Fifty-one sessions of one focused minute each, all created today. *)
Definition fifty_one_sessions : World :=
  set_episodes
    (map (fun i => episode ("e" ++ str_int i) "u1" EpisodeKind.SESSION
                           (mkdatetime day0 i true) (Some 1))
         (range 51))
    host.

(** Scenario B of the specification: a session of thirty focused minutes
    and a day episode, both created today. *)
Definition scenario_B : World :=
  set_episodes
    [episode "e1" "u1" EpisodeKind.SESSION (mkdatetime day0 1 true) (Some 30);
     episode "e2" "u1" EpisodeKind.DAY (mkdatetime day0 2 true) None]
    host.

(** A state whose outputs map is [{"x": 1}]. *)
Definition moment : Base.datetime :=
  {| Base.year := 2024; Base.month := 2; Base.day := 29;
     Base.hour := 9; Base.minute := 5; Base.second := 7;
     Base.microsecond := 1234; Base.utcoffset := Some (- 19800000000) |}.

Definition state_with_output : Base.GlyphState :=
  {| Base.context :=
       {| Base.user_id := "u1"; Base.session_id := Some "s1";
          Base.mission_id := None; Base.block_id := None;
          Base.surface := "api"; Base.user_name := None;
          Base.timezone := "UTC"; Base.graph_id := None;
          Base.focus_node_ids := ["n1"; "n2"] |};
     Base.mode := Base.COACH;
     Base.messages := [{["role" := Base.PStr "user"]}];
     Base.scratchpad := "notes";
     Base.outputs := {["x" := Base.PInt 1]};
     Base.errors := ["late"];
     Base.started_at := moment; Base.updated_at := moment |}.

(** A moment in a zone half a second east of Greenwich,
    [datetime(2025, 3, 9, 9, 5, 7, tzinfo=timezone(timedelta(microseconds=500000)))],
    and the same wall clock at UTC. *)
Definition moment_half_second_east : Base.datetime :=
  {| Base.year := 2025; Base.month := 3; Base.day := 9;
     Base.hour := 9; Base.minute := 5; Base.second := 7;
     Base.microsecond := 0; Base.utcoffset := Some 500000 |}.

Definition moment_at_utc : Base.datetime :=
  {| Base.year := 2025; Base.month := 3; Base.day := 9;
     Base.hour := 9; Base.minute := 5; Base.second := 7;
     Base.microsecond := 0; Base.utcoffset := Some 0 |}.

(** A state started at [started], otherwise empty. *)
Definition state_started_at (started : Base.datetime) : Base.GlyphState :=
  {| Base.context :=
       {| Base.user_id := "u1"; Base.session_id := None;
          Base.mission_id := None; Base.block_id := None;
          Base.surface := "api"; Base.user_name := None;
          Base.timezone := "UTC"; Base.graph_id := None;
          Base.focus_node_ids := [] |};
     Base.mode := Base.CHAT;
     Base.messages := [];
     Base.scratchpad := "";
     Base.outputs := {["x" := Base.PInt 1]};
     Base.errors := [];
     Base.started_at := started; Base.updated_at := moment |}.

End Sample.

(* ===================================================================== *)
(** * Properties *)
(* ===================================================================== *)

(** ** Running computations *)

(** ** The monad *)

Lemma bind_ok {A B} (m : M A) (k : A -> M B) (w w' : World) (a : A) :
  m w = (w', Ok a) -> bind m k w = k a w'.
Proof. intros H. unfold bind. now rewrite H. Qed.

Lemma bind_raise {A B} (m : M A) (k : A -> M B) (w w' : World) (e : exn) :
  m w = (w', Raise e) -> bind m k w = (w', Raise e).
Proof. intros H. unfold bind. now rewrite H. Qed.

(** A computation that returns went through its first part. *)
Lemma bind_inv {A B} (m : M A) (k : A -> M B) (w w2 : World) (b : B) :
  bind m k w = (w2, Ok b) ->
  exists w1 a, m w = (w1, Ok a) /\ k a w1 = (w2, Ok b).
Proof.
  unfold bind. destruct (m w) as [w1 [a | e]]; intros H.
  - now exists w1, a.
  - discriminate.
Qed.

(** ** Block proposal *)

Section Propose.
Import TimelineTools.

Lemma date_add_days_ok (d : date) (n : Z) (r : date) :
  date_add_days d n = Ok r -> r = candidate_day d n.
Proof.
  unfold date_add_days, candidate_day.
  destruct ((1 <=? toordinal d + n) && (toordinal d + n <=? MAXORDINAL));
    [intros [= <-]; reflexivity | discriminate].
Qed.

Lemma skip_test (mission : Mission.t) (d : date) :
  match MissionConstraints.days_off (Mission.constraints mission) with
  | [] => false
  | _ => mem_int (weekday d) (MissionConstraints.days_off (Mission.constraints mission))
  end = is_day_off mission d.
Proof.
  unfold is_day_off.
  destruct (MissionConstraints.days_off (Mission.constraints mission)); reflexivity.
Qed.

Lemma propose_loop_spec (mission : Mission.t) (mission_id : string)
      (start : date) (duration : Z) (indices : list Z) :
  forall (acc : list Block.t) (w w' : World) (bs : list Block.t),
    propose_loop mission mission_id start duration indices acc w = (w', Ok bs) ->
    exists new,
      bs = (acc ++ new)%list
      /\ proposed_from mission mission_id duration (len acc)
                       (kept_days mission start indices) new.
Proof.
  induction indices as [| i rest IH]; intros acc w w' bs H.
  - cbn in H. injection H as <- <-. exists []. split; [now rewrite app_nil_r | constructor].
  - cbn [propose_loop] in H.
    apply bind_inv in H. destruct H as (w1 & d & Hd & H).
    unfold lift in Hd. injection Hd as <- Hd.
    apply date_add_days_ok in Hd. subst d.
    rewrite skip_test in H.
    unfold kept_days. cbn [map List.filter]. fold (kept_days mission start rest).
    destruct (is_day_off mission (candidate_day start i)) eqn:Eoff; cbn [negb].
    + apply IH in H. exact H.
    + apply bind_inv in H. destruct H as (w2 & fresh & Hf & H).
      apply bind_inv in H. destruct H as (w3 & b & Hb & H).
      unfold lift in Hb. injection Hb as <- Hb.
      unfold validate_block in Hb. cbn in Hb. subst b.
      apply IH in H. destruct H as (new & -> & Hnew).
      eexists (_ :: new). split.
      * rewrite <- app_assoc. reflexivity.
      * econstructor.
        -- repeat split; reflexivity.
        -- unfold len in *. rewrite length_app in Hnew. cbn [List.length] in Hnew.
           replace (Z.of_nat (List.length acc) + 1)
             with (Z.of_nat (List.length acc + 1)) by lia.
           exact Hnew.
Qed.

Lemma mem_int_In (x : Z) (l : list Z) : mem_int x l = true <-> In x l.
Proof.
  unfold mem_int. rewrite existsb_exists. split.
  - intros (y & Hy & E). apply Z.eqb_eq in E. now subst.
  - intros H. exists x. split; [assumption | apply Z.eqb_refl].
Qed.

Lemma proposed_from_Forall2 mission mission_id duration k days bs :
  proposed_from mission mission_id duration k days bs ->
  Forall2 (fun d b =>
             Block.scheduled_start b = Some (combine_hour d 9)
             /\ Block.planned_duration_minutes b = Some duration
             /\ Block.status b = BlockStatus.PLANNED)
          days bs.
Proof.
  induction 1 as [| k d ds b bs fresh Hp _ IH]; constructor; [| exact IH].
  destruct Hp as (_ & _ & _ & _ & Hs & Hd & Hst). auto.
Qed.

Lemma proposed_from_indices mission mission_id duration k days bs :
  proposed_from mission mission_id duration k days bs ->
  map Block.sequence_index bs
  = map (fun i => Some (k + Z.of_nat i)) (seq 0 (List.length bs)).
Proof.
  induction 1 as [| k d ds b bs fresh Hp _ IH]; [reflexivity |].
  cbn [map List.length seq]. f_equal.
  - destruct Hp as (_ & _ & _ & Hk & _). rewrite Hk. f_equal. lia.
  - rewrite IH, <- seq_shift, map_map. apply map_ext. intros i. f_equal. lia.
Qed.

Lemma length_range (n : Z) : len (range n) = Z.max 0 n.
Proof. unfold len, range. rewrite length_map, length_seq. lia. Qed.

Lemma length_kept_days mission start indices :
  (List.length (kept_days mission start indices) <= List.length indices)%nat.
Proof.
  unfold kept_days.
  etransitivity; [apply filter_length_le | now rewrite length_map].
Qed.

Lemma kept_days_not_off mission start indices d :
  In d (kept_days mission start indices) ->
  ~ In (weekday d) (MissionConstraints.days_off (Mission.constraints mission)).
Proof.
  unfold kept_days. rewrite filter_In. intros [_ H] Hin.
  apply mem_int_In in Hin. unfold is_day_off in H. now rewrite Hin in H.
Qed.

Lemma propose_blocks_spec (mission_id : string) (start_date : option date)
      (num_blocks default : Z) (w w' : World) (bs : list Block.t) :
  propose_blocks_for_mission mission_id start_date num_blocks default w = (w', Ok bs) ->
  match dict_get Mission.id mission_id (missions w) with
  | None => bs = []
  | Some mission =>
      proposed_from mission mission_id (block_length mission default) 0
        (kept_days mission
           (match start_date with Some d => d | None => today w end)
           (range num_blocks))
        bs
  end.
Proof.
  unfold propose_blocks_for_mission. intros H.
  apply bind_inv in H. destruct H as (w1 & m & Hm & H).
  unfold InMemoryMissionsRepository.get, gets in Hm. injection Hm as <- <-.
  destruct (dict_get Mission.id mission_id (missions w)) as [mission |].
  - apply bind_inv in H. destruct H as (w2 & start & Hs & H).
    assert (start = match start_date with Some d => d | None => today w end
            /\ w2 = w) as [-> ->].
    { destruct start_date; unfold ret, gets in Hs; injection Hs as <- <-; auto. }
    apply propose_loop_spec in H. destruct H as (new & -> & Hnew).
    exact Hnew.
  - unfold ret in H. now injection H as <- <-.
Qed.
End Propose.

Lemma Forall2_In_r {A B} (P : A -> B -> Prop) (l1 : list A) (l2 : list B) (b : B) :
  Forall2 P l1 l2 -> In b l2 -> exists a, In a l1 /\ P a b.
Proof.
  induction 1 as [| x y l1 l2 Hxy _ IH]; intros Hb; [destruct Hb |].
  destruct Hb as [-> | Hb].
  - exists x. split; [now left | assumption].
  - destruct (IH Hb) as (a & Ha & HP). exists a. split; [now right | assumption].
Qed.

(** C4: whenever block proposal returns a list for a mission and a requested
    count, the list has at most the requested count of blocks (none for a
    negative count).  When the mission is found, the blocks are, in order,
    those of the candidate days [start], [start + 1], ... (one calendar day
    after the previous candidate, [start] being the given start date, or
    today) that are not days off of the mission: each block starts at 9:00
    of its day, lasts the mission's first preferred block length, or 25
    minutes when no preference is set, and is [planned]; no block's day
    falls on a weekday listed in the mission's days off; and the sequence
    indices count 0, 1, 2, ... along the list. *)
Theorem propose_blocks_count_days_off_duration :
  forall (w w' : World) (mission_id : string) (start_date : option date)
         (num_blocks : Z) (bs : list Block.t),
    TimelineTools.propose_blocks_for_mission mission_id start_date num_blocks 25 w
    = (w', Ok bs) ->
    len bs <= Z.max 0 num_blocks
    /\ forall mission,
         dict_get Mission.id mission_id (missions w) = Some mission ->
         let start := match start_date with Some d => d | None => today w end in
         Forall2 (fun d b =>
                    Block.scheduled_start b = Some (combine_hour d 9)
                    /\ Block.planned_duration_minutes b
                       = Some (block_length mission 25)
                    /\ Block.status b = BlockStatus.PLANNED)
                 (kept_days mission start (range num_blocks)) bs
         /\ (forall b t,
               In b bs -> Block.scheduled_start b = Some t ->
               ~ In (weekday (dt_date t))
                    (MissionConstraints.days_off (Mission.constraints mission)))
         /\ map Block.sequence_index bs
            = map (fun i => Some (Z.of_nat i)) (seq 0 (List.length bs)).
Proof.
  intros w w' mission_id start_date num_blocks bs H.
  apply propose_blocks_spec in H.
  destruct (dict_get Mission.id mission_id (missions w)) as [mission |] eqn:Em.
  - pose proof (proposed_from_Forall2 _ _ _ _ _ _ H) as HF.
    split.
    + pose proof (Forall2_length _ _ _ HF) as HL.
      pose proof (length_kept_days mission
                    (match start_date with Some d => d | None => today w end)
                    (range num_blocks)) as Hl.
      pose proof (length_range num_blocks) as Hr. unfold len in *. lia.
    + intros m [= <-]. cbv zeta. split; [exact HF |]. split.
      * intros b t Hb Ht.
        destruct (Forall2_In_r _ _ _ _ HF Hb) as (d & Hd & Hs & _).
        rewrite Hs in Ht. injection Ht as <-. cbn [dt_date combine_hour].
        exact (kept_days_not_off _ _ _ _ Hd).
      * rewrite (proposed_from_indices _ _ _ _ _ _ H). apply map_ext. intros i. reflexivity.
  - subst bs. split; [unfold len; cbn [List.length]; lia | intros m [=]].
Qed.

(** ** The map form of the shared state *)

Section IsoRoundTrip.
Import Base.

Lemma digit_cases (z : Z) :
  let c := digit_char (z mod 10) in
  c = "0"%char \/ c = "1"%char \/ c = "2"%char \/ c = "3"%char \/ c = "4"%char
  \/ c = "5"%char \/ c = "6"%char \/ c = "7"%char \/ c = "8"%char \/ c = "9"%char.
Proof.
  pose proof (Z.mod_pos_bound z 10 ltac:(lia)) as H.
  assert (E : z mod 10 = 0 \/ z mod 10 = 1 \/ z mod 10 = 2 \/ z mod 10 = 3
              \/ z mod 10 = 4 \/ z mod 10 = 5 \/ z mod 10 = 6
              \/ z mod 10 = 7 \/ z mod 10 = 8 \/ z mod 10 = 9) by lia.
  cbv zeta.
  repeat (destruct E as [-> | E]; [tauto |]).
  rewrite E. tauto.
Qed.

(** What holds of the ten digits holds of a digit of [fmt_digits]. *)
Ltac by_digit z :=
  let H := fresh in
  pose proof (digit_cases z) as H; cbv zeta in H;
  repeat (destruct H as [-> | H]; [reflexivity |]);
  rewrite H; reflexivity.

Lemma digit_val_char (d : Z) : 0 <= d <= 9 -> digit_val (digit_char d) = Some d.
Proof.
  intros H.
  assert (E : d = 0 \/ d = 1 \/ d = 2 \/ d = 3 \/ d = 4 \/ d = 5 \/ d = 6
              \/ d = 7 \/ d = 8 \/ d = 9) by lia.
  repeat (destruct E as [-> | E]; [reflexivity |]).
  subst; reflexivity.
Qed.

Lemma digit_is_digit (z : Z) : is_digit (digit_char (z mod 10)) = true.
Proof. by_digit z. Qed.

Lemma digit_not_tz (z : Z) : is_tz_start (digit_char (z mod 10)) = false.
Proof. by_digit z. Qed.

Lemma digit_not_W (z : Z) : Ascii.eqb (digit_char (z mod 10)) "W" = false.
Proof. by_digit z. Qed.

Lemma digit_not_continuation (z : Z) :
  is_continuation_byte (digit_char (z mod 10)) = false.
Proof. by_digit z. Qed.

Lemma append_cons (c : ascii) (a b : string) :
  String c a ++ b = String c (a ++ b).
Proof. reflexivity. Qed.

Lemma append_nil (b : string) : "" ++ b = b.
Proof. reflexivity. Qed.

Lemma fmt_digits_S (n : nat) (z : Z) :
  fmt_digits (S n) z
  = String (digit_char ((z / 10 ^ Z.of_nat n) mod 10)) (fmt_digits n z).
Proof. reflexivity. Qed.

Lemma length_fmt_digits (n : nat) (z : Z) : String.length (fmt_digits n z) = n.
Proof. induction n as [| n IH]; [reflexivity |]. rewrite fmt_digits_S. simpl. now rewrite IH. Qed.

Lemma length_append (a b : string) :
  String.length (a ++ b) = (String.length a + String.length b)%nat.
Proof. induction a as [| c a IH]; [reflexivity |]. rewrite append_cons. simpl. now rewrite IH. Qed.

Lemma parse_fmt_digits (n : nat) : forall (z acc : Z) (rest : string),
  0 <= z ->
  parse_digits n acc (fmt_digits n z ++ rest)
  = Some (acc * 10 ^ Z.of_nat n + z mod 10 ^ Z.of_nat n, rest).
Proof.
  induction n as [| n IH]; intros z acc rest Hz.
  - simpl. rewrite Z.mod_1_r. f_equal. f_equal. lia.
  - rewrite fmt_digits_S, append_cons. cbn [parse_digits].
    assert (Hp : 0 < 10 ^ Z.of_nat n) by (apply Z.pow_pos_nonneg; lia).
    assert (Hd : 0 <= (z / 10 ^ Z.of_nat n) mod 10 <= 9)
      by (pose proof (Z.mod_pos_bound (z / 10 ^ Z.of_nat n) 10); lia).
    rewrite (digit_val_char _ Hd), (IH z _ rest Hz).
    f_equal. f_equal.
    rewrite Nat2Z.inj_succ, Z.pow_succ_r by lia.
    rewrite (Z.mul_comm 10 (10 ^ Z.of_nat n)).
    rewrite (Z.rem_mul_r z (10 ^ Z.of_nat n) 10) by lia.
    ring.
Qed.

Lemma parse_fmt (n : nat) (z : Z) (rest : string) :
  0 <= z < 10 ^ Z.of_nat n ->
  parse_digits n 0 (fmt_digits n z ++ rest) = Some (z, rest).
Proof.
  intros H. rewrite parse_fmt_digits by lia.
  rewrite Z.mod_small by lia. reflexivity.
Qed.

Lemma parse_fmt2 (z : Z) (rest : string) :
  0 <= z < 100 -> parse_digits 2 0 (fmt_digits 2 z ++ rest) = Some (z, rest).
Proof. intros H. apply parse_fmt. change (10 ^ Z.of_nat 2) with 100. lia. Qed.

Lemma append_char (c : ascii) (b : string) : String c "" ++ b = String c b.
Proof. reflexivity. Qed.

Lemma append_assoc (a b c : string) : (a ++ b) ++ c = a ++ (b ++ c).
Proof.
  induction a as [| x a IH]; [reflexivity |].
  rewrite !append_cons. now rewrite IH.
Qed.

Lemma append_nil_r (a : string) : a ++ "" = a.
Proof.
  induction a as [| c a IH]; [reflexivity | rewrite append_cons; now rewrite IH].
Qed.

Lemma length_next (p : string) : (String.length (next p) <= String.length p)%nat.
Proof. destruct p; simpl; lia. Qed.

(** *** The loop over hour, minute and second *)

(** A field followed by a colon and more of the part. *)
Lemma hms_colon (i : nat) (v : Z) (rest : string) (to_end : nat) :
  0 <= v < 100 -> (to_end < String.length rest)%nat ->
  parse_hh_mm_ss (S i) true (fmt_digits 2 v ++ ":" ++ rest) to_end
  = match parse_hh_mm_ss i true rest to_end with
    | Some (vs, e) => Some (v :: vs, e)
    | None => None
    end.
Proof.
  intros Hv Hlen. cbn [parse_hh_mm_ss]. rewrite parse_fmt2 by assumption.
  rewrite append_char. cbn [peek next].
  apply Nat.leb_gt in Hlen. rewrite Hlen.
  change (Ascii.eqb ":" ":") with true.
  destruct (S i =? 3)%nat; reflexivity.
Qed.

(** A field at the end of the part. *)
Lemma hms_last (i : nat) (v : Z) (rest : string) :
  0 <= v < 100 ->
  parse_hh_mm_ss (S i) true (fmt_digits 2 v ++ rest) (String.length rest)
  = Some ([v], Return (negb (Ascii.eqb (peek rest) "000"))).
Proof.
  intros Hv. cbn [parse_hh_mm_ss]. rewrite parse_fmt2 by assumption.
  pose proof (length_next rest) as H. apply Nat.leb_le in H. now rewrite H.
Qed.

(** A field followed by the dot of the fraction. *)
Lemma hms_dot (i : nat) (v : Z) (rest : string) (to_end : nat) :
  0 <= v < 100 -> (to_end < String.length rest)%nat ->
  parse_hh_mm_ss (S i) true (fmt_digits 2 v ++ "." ++ rest) to_end
  = Some ([v], Fraction rest).
Proof.
  intros Hv Hlen. cbn [parse_hh_mm_ss]. rewrite parse_fmt2 by assumption.
  rewrite append_char. cbn [peek next].
  apply Nat.leb_gt in Hlen. rewrite Hlen.
  destruct (S i =? 3)%nat; reflexivity.
Qed.

Lemma skip_digits_stop (p : string) :
  is_digit (peek p) = false -> skip_digits p = p.
Proof. destruct p as [| c p]; [reflexivity |]. cbn [peek skip_digits]. now intros ->. Qed.

Lemma parse_ff_fmt (us : Z) (rest : string) :
  0 <= us < 1000000 -> is_digit (peek rest) = false ->
  parse_ff (fmt_digits 6 us ++ rest) (String.length rest)
  = Some (us, negb (Ascii.eqb (peek rest) "000")).
Proof.
  intros Hus Hrest. unfold parse_ff.
  rewrite length_append, length_fmt_digits.
  replace (6 + String.length rest - String.length rest)%nat with 6%nat by lia.
  change (Nat.min 6 6) with 6%nat.
  rewrite (parse_fmt 6 us rest) by (change (10 ^ Z.of_nat 6) with 1000000; lia).
  rewrite skip_digits_stop by assumption.
  change (10 ^ Z.of_nat (6 - 6)) with 1. now rewrite Z.mul_1_r.
Qed.

(** The time of [isoformat], whatever follows it that is no digit. *)
Lemma parse_hh_mm_ss_ff_full (h mi s us : Z) (rest : string) :
  0 <= h < 100 -> 0 <= mi < 100 -> 0 <= s < 100 -> 0 <= us < 1000000 ->
  is_digit (peek rest) = false ->
  parse_hh_mm_ss_ff
    (fmt_digits 2 h ++ ":" ++ fmt_digits 2 mi ++ ":" ++ fmt_digits 2 s
     ++ fraction_text us ++ rest) (String.length rest)
  = Some (h, mi, s, us, negb (Ascii.eqb (peek rest) "000")).
Proof.
  intros Hh Hm Hs Hu Hrest. unfold parse_hh_mm_ss_ff.
  rewrite hms_colon; [| assumption |].
  2:{ rewrite !length_append, !length_fmt_digits. cbn [String.length]. lia. }
  rewrite hms_colon; [| assumption |].
  2:{ rewrite !length_append, !length_fmt_digits. lia. }
  unfold fraction_text. destruct (us =? 0) eqn:E.
  - apply Z.eqb_eq in E. subst us. rewrite append_nil.
    rewrite hms_last by assumption. reflexivity.
  - rewrite append_assoc.
    rewrite hms_dot; [| assumption |].
    2:{ rewrite length_append, length_fmt_digits. lia. }
    cbn [nth]. rewrite parse_ff_fmt by assumption. reflexivity.
Qed.

Lemma parse_hh_mm (h mi : Z) :
  0 <= h < 100 -> 0 <= mi < 100 ->
  parse_hh_mm_ss_ff (fmt_digits 2 h ++ ":" ++ fmt_digits 2 mi) 0
  = Some (h, mi, 0, 0, false).
Proof.
  intros Hh Hm. unfold parse_hh_mm_ss_ff.
  rewrite hms_colon; [| assumption | rewrite length_fmt_digits; lia].
  rewrite <- (append_nil_r (fmt_digits 2 mi)).
  change 0%nat with (String.length "") at 2.
  rewrite hms_last by assumption. reflexivity.
Qed.

Lemma format_offset_body (off : Z) :
  format_offset (Some off)
  = (if off <? 0 then "-" else "+") ++ offset_body (Z.abs off).
Proof. reflexivity. Qed.

(** The offset of [isoformat] after its sign, read back field by field. *)
Lemma parse_offset_body (a : Z) :
  0 <= a < day_us ->
  parse_hh_mm_ss_ff (offset_body a) 0
  = Some (a / hour_us, (a mod hour_us) / minute_us,
          ((a mod hour_us) mod minute_us) / 1000000,
          ((a mod hour_us) mod minute_us) mod 1000000, false).
Proof.
  intros Ha. unfold offset_body. cbv zeta.
  assert (H1 : 0 <= a / hour_us < 100).
  { unfold hour_us, day_us in *. split; [apply Z.div_pos; lia |].
    apply Z.div_lt_upper_bound; lia. }
  pose proof (Z.mod_pos_bound a hour_us ltac:(unfold hour_us; lia)) as Hr.
  assert (H2 : 0 <= (a mod hour_us) / minute_us < 100).
  { unfold hour_us, minute_us in *. split; [apply Z.div_pos; lia |].
    apply Z.div_lt_upper_bound; lia. }
  pose proof (Z.mod_pos_bound (a mod hour_us) minute_us
                ltac:(unfold minute_us; lia)) as Hs.
  assert (H3 : 0 <= ((a mod hour_us) mod minute_us) / 1000000 < 100).
  { unfold minute_us in *. split; [apply Z.div_pos; lia |].
    apply Z.div_lt_upper_bound; lia. }
  pose proof (Z.mod_pos_bound ((a mod hour_us) mod minute_us) 1000000
                ltac:(lia)) as Hu.
  destruct ((a mod hour_us) mod minute_us =? 0) eqn:Ess.
  - apply Z.eqb_eq in Ess. rewrite append_nil_r, Ess.
    rewrite parse_hh_mm by assumption. reflexivity.
  - pose proof (parse_hh_mm_ss_ff_full
                  (a / hour_us) ((a mod hour_us) / minute_us)
                  (((a mod hour_us) mod minute_us) / 1000000)
                  (((a mod hour_us) mod minute_us) mod 1000000) ""
                  H1 H2 H3 Hu eq_refl) as P.
    unfold fraction_text in P. rewrite !append_nil_r in P.
    destruct (((a mod hour_us) mod minute_us) mod 1000000 =? 0);
      rewrite ?append_nil_r in *; rewrite <- ?append_assoc in *;
      rewrite ?append_assoc; rewrite ?append_assoc in P; exact P.
Qed.

(** *** The place of the offset *)

Lemma find_tzinfo_digits (n : nat) (z : Z) (rest : string) :
  find_tzinfo (fmt_digits n z ++ rest) = find_tzinfo rest.
Proof.
  induction n as [| n IH]; [reflexivity |].
  rewrite fmt_digits_S, append_cons. cbn [find_tzinfo].
  now rewrite digit_not_tz.
Qed.

Lemma find_tzinfo_offset (off : option Z) :
  find_tzinfo (format_offset off) = format_offset off.
Proof.
  destruct off as [o |]; [| reflexivity].
  rewrite format_offset_body. destruct (o <? 0); reflexivity.
Qed.

Lemma find_tzinfo_time (h mi s us : Z) (off : option Z) :
  find_tzinfo (fmt_digits 2 h ++ ":" ++ fmt_digits 2 mi ++ ":" ++ fmt_digits 2 s
               ++ fraction_text us ++ format_offset off)
  = format_offset off.
Proof.
  rewrite find_tzinfo_digits, append_char. cbn [find_tzinfo is_tz_start Ascii.eqb Bool.eqb orb].
  rewrite find_tzinfo_digits, append_char. cbn [find_tzinfo is_tz_start Ascii.eqb Bool.eqb orb].
  rewrite find_tzinfo_digits. unfold fraction_text.
  destruct (us =? 0).
  - rewrite append_nil. apply find_tzinfo_offset.
  - rewrite append_assoc, append_char.
    cbn [find_tzinfo is_tz_start Ascii.eqb Bool.eqb orb].
    rewrite find_tzinfo_digits. apply find_tzinfo_offset.
Qed.

Lemma offset_no_digit (off : option Z) : is_digit (peek (format_offset off)) = false.
Proof.
  destruct off as [o |]; [| reflexivity].
  rewrite format_offset_body. destruct (o <? 0); reflexivity.
Qed.

(** Seconds and microseconds of an offset, from its fields. *)
Lemma offset_fields (a : Z) :
  0 <= a ->
  (a / hour_us) * 3600 + ((a mod hour_us) / minute_us) * 60
  + ((a mod hour_us) mod minute_us) / 1000000 = a / 1000000
  /\ ((a mod hour_us) mod minute_us) mod 1000000 = a mod 1000000.
Proof.
  intros Ha. unfold hour_us, minute_us.
  pose proof (Z.div_mod a (3600 * 1000000) ltac:(lia)) as E1.
  pose proof (Z.mod_pos_bound a (3600 * 1000000) ltac:(lia)) as B1.
  set (q1 := a / (3600 * 1000000)) in *.
  set (r1 := a mod (3600 * 1000000)) in *.
  pose proof (Z.div_mod r1 (60 * 1000000) ltac:(lia)) as E2.
  pose proof (Z.mod_pos_bound r1 (60 * 1000000) ltac:(lia)) as B2.
  set (q2 := r1 / (60 * 1000000)) in *.
  set (r2 := r1 mod (60 * 1000000)) in *.
  pose proof (Z.div_mod r2 1000000 ltac:(lia)) as E3.
  pose proof (Z.mod_pos_bound r2 1000000 ltac:(lia)) as B3.
  set (q3 := r2 / 1000000) in *.
  set (r3 := r2 mod 1000000) in *.
  split.
  - apply (Z.div_unique_pos a 1000000 _ r3); lia.
  - apply (Z.mod_unique_pos a 1000000 (q1 * 3600 + q2 * 60 + q3) r3); lia.
Qed.

(** Division towards zero, by sign and magnitude. *)
Lemma quot_rem_abs (o : Z) :
  Z.quot o 1000000 = Z.sgn o * (Z.abs o / 1000000)
  /\ Z.rem o 1000000 = Z.sgn o * (Z.abs o mod 1000000).
Proof.
  destruct (Z.lt_trichotomy o 0) as [H | [-> | H]]; [| split; reflexivity |].
  - assert (E : o = - (- o)) by lia.
    assert (Hp : 0 < - o) by lia.
    generalize dependent (- o). intros p -> Hp. clear H.
    rewrite Z.quot_opp_l, Z.rem_opp_l by lia.
    rewrite Z.quot_div_nonneg, Z.rem_mod_nonneg by lia.
    replace (Z.abs (- p)) with p by lia.
    replace (Z.sgn (- p)) with (-1) by lia. lia.
  - rewrite Z.quot_div_nonneg, Z.rem_mod_nonneg by lia.
    replace (Z.abs o) with o by lia.
    replace (Z.sgn o) with 1 by lia. lia.
Qed.

(** The time and the offset of [isoformat], read back. *)
Lemma parse_isoformat_time_fmt (h mi s us : Z) (off : option Z) :
  0 <= h < 100 -> 0 <= mi < 100 -> 0 <= s < 100 -> 0 <= us < 1000000 ->
  match off with Some o => - day_us < o < day_us | None => True end ->
  parse_isoformat_time
    (fmt_digits 2 h ++ ":" ++ fmt_digits 2 mi ++ ":" ++ fmt_digits 2 s
     ++ fraction_text us ++ format_offset off)
  = Some (h, mi, s, us,
          option_map (fun o => (Z.quot o 1000000, Z.rem o 1000000)) off).
Proof.
  intros Hh Hm Hs Hu Hoff. unfold parse_isoformat_time.
  rewrite find_tzinfo_time.
  rewrite parse_hh_mm_ss_ff_full by (try assumption; apply offset_no_digit).
  rewrite fmt_digits_S, append_cons.
  destruct off as [o |]; [| reflexivity].
  rewrite format_offset_body. cbn [option_map].
  assert (Ha : 0 <= Z.abs o < day_us) by lia.
  destruct (offset_fields (Z.abs o) ltac:(lia)) as [F1 F2].
  destruct (o <? 0) eqn:E.
  - apply Z.ltb_lt in E. rewrite append_char. cbv beta iota.
    change (Ascii.eqb "-" "Z") with false. change (Ascii.eqb "-" "-") with true.
    cbv iota. rewrite parse_offset_body by assumption.
    rewrite F1, F2.
    destruct (quot_rem_abs o) as [Q R]. rewrite Q, R.
    replace (Z.sgn o) with (-1) by lia. reflexivity.
  - apply Z.ltb_ge in E. rewrite append_char. cbv beta iota.
    change (Ascii.eqb "+" "Z") with false. change (Ascii.eqb "+" "-") with false.
    cbv iota. rewrite parse_offset_body by assumption.
    rewrite F1, F2.
    destruct (quot_rem_abs o) as [Q R]. rewrite Q, R.
    destruct (Z.eq_dec o 0) as [-> | Hne]; [reflexivity |].
    replace (Z.sgn o) with 1 by lia. reflexivity.
Qed.

Lemma tzinfo_read_back (o : Z) :
  - day_us < o < day_us -> o = 0 \/ 1000000 <= Z.abs o ->
  tzinfo_from_isoformat_results (Some (Z.quot o 1000000, Z.rem o 1000000))
  = Ok (Some o).
Proof.
  intros Hr Ho. unfold tzinfo_from_isoformat_results.
  pose proof (Z.quot_rem' o 1000000) as E.
  destruct (Z.quot o 1000000 =? 0) eqn:Q.
  - apply Z.eqb_eq in Q.
    destruct Ho as [-> | Ho]; [reflexivity |].
    exfalso. apply Z.quot_small_iff in Q; lia.
  - replace (Z.quot o 1000000 * 1000000 + Z.rem o 1000000) with o by lia.
    destruct (- day_us <? o) eqn:A; [| apply Z.ltb_ge in A; lia].
    destruct (o <? day_us) eqn:B; [| apply Z.ltb_ge in B; lia].
    reflexivity.
Qed.

Lemma in_range_spec (lo hi x : Z) : in_range lo hi x = true <-> lo <= x <= hi.
Proof. unfold in_range. rewrite andb_true_iff, !Z.leb_le. tauto. Qed.

Lemma days_in_month_le (y m : Z) : days_in_month y m <= 31.
Proof.
  unfold days_in_month, _days_in_month.
  destruct ((m =? 2) && is_leap y); [lia |].
  destruct (Z.to_nat m) as [| n]; [cbn; lia |].
  do 12 (destruct n as [| n]; [cbn; lia |]).
  destruct n; cbn; lia.
Qed.

Lemma new_datetime_valid (d : datetime) :
  valid_datetime d = true -> new_datetime d = Ok d.
Proof.
  unfold valid_datetime, new_datetime. rewrite !andb_true_iff.
  intros [[[[[[[-> ->] ->] ->] ->] ->] ->] _]. reflexivity.
Qed.

(** *** The characters of ASCII text *)

Lemma chars_head (c : ascii) (s : string) :
  exists x rest, chars (String c s) = String c x :: rest.
Proof.
  cbn [chars]. destruct (chars s) as [| [| c' x] rest]; [now do 2 eexists .. |].
  destruct (is_continuation_byte c'); now do 2 eexists.
Qed.

Lemma chars_cons (c c' : ascii) (s : string) :
  is_continuation_byte c' = false ->
  chars (String c (String c' s)) = String c "" :: chars (String c' s).
Proof.
  intros H. destruct (chars_head c' s) as (x & rest & E).
  change (chars (String c (String c' s)))
    with (match chars (String c' s) with
          | (String c'' _ as ch) :: rest =>
              if is_continuation_byte c'' then String c ch :: rest
              else String c "" :: ch :: rest
          | l => String c "" :: l
          end).
  rewrite E, H. reflexivity.
Qed.

(** *** The date of [isoformat] *)

Section DateText.
Variables (y m dd : Z) (rest : string).
Hypotheses (Hy : 0 <= y < 10000) (Hm : 0 <= m < 100) (Hd : 0 <= dd < 100).

Let text : string :=
  fmt_digits 4 y ++ "-" ++ fmt_digits 2 m ++ "-" ++ fmt_digits 2 dd ++ "T" ++ rest.

Lemma text_bytes :
  exists y1 y2 y3 y4 m1 m2 d1 d2,
    text = String (digit_char (y1 mod 10)) (String (digit_char (y2 mod 10))
          (String (digit_char (y3 mod 10)) (String (digit_char (y4 mod 10))
          (String "-" (String (digit_char (m1 mod 10)) (String (digit_char (m2 mod 10))
          (String "-" (String (digit_char (d1 mod 10)) (String (digit_char (d2 mod 10))
          (String "T" rest)))))))))).
Proof. do 8 eexists. reflexivity. Qed.

Lemma str_len_text : (str_len text <? 7) = false.
Proof.
  destruct text_bytes as (y1 & y2 & y3 & y4 & m1 & m2 & d1 & d2 & ->).
  unfold str_len.
  rewrite !chars_cons by first [apply digit_not_continuation | reflexivity].
  cbn [List.length]. apply Z.ltb_ge. lia.
Qed.

Lemma separator_of_text : find_isoformat_datetime_separator text = 10.
Proof.
  destruct text_bytes as (y1 & y2 & y3 & y4 & m1 & m2 & d1 & d2 & ->).
  unfold find_isoformat_datetime_separator.
  cbn [drop_bytes next peek String.length Nat.eqb].
  change (Ascii.eqb "-" "-") with true. cbv iota.
  now rewrite digit_not_W.
Qed.

Lemma length_text : (10 <? Z.of_nat (String.length text)) = true.
Proof.
  destruct text_bytes as (y1 & y2 & y3 & y4 & m1 & m2 & d1 & d2 & ->).
  cbn [String.length]. apply Z.ltb_lt. lia.
Qed.

Lemma after_separator_text :
  after_separator (drop_bytes (Z.to_nat 10) text) = rest.
Proof.
  destruct text_bytes as (y1 & y2 & y3 & y4 & m1 & m2 & d1 & d2 & ->).
  reflexivity.
Qed.

Lemma parse_isoformat_date_text : parse_isoformat_date text 10 = Some (y, m, dd).
Proof.
  unfold parse_isoformat_date. subst text.
  rewrite (parse_fmt 4 y) by (change (10 ^ Z.of_nat 4) with 10000; lia).
  rewrite append_char. cbn [peek next]. change (Ascii.eqb "-" "-") with true.
  cbv iota.
  assert (HW : Ascii.eqb (peek (fmt_digits 2 m ++ "-" ++ fmt_digits 2 dd
                                ++ "T" ++ rest)) "W" = false).
  { rewrite fmt_digits_S, append_cons. cbn [peek]. apply digit_not_W. }
  rewrite HW, parse_fmt2 by assumption.
  rewrite append_char. cbn [peek next andb negb].
  change (Ascii.eqb "-" "-") with true. cbn [negb]. cbv iota.
  now rewrite parse_fmt2 by assumption.
Qed.

End DateText.

(** [fromisoformat] undoes [isoformat] on every datetime the constructor
    accepts whose offset is none, zero or a second at least. *)
Lemma fromisoformat_isoformat (d : datetime) :
  valid_datetime d = true -> offset_read_back d = true ->
  fromisoformat (isoformat d) = Ok d.
Proof.
  intros Hv Hback. pose proof Hv as Hv'.
  unfold valid_datetime in Hv'.
  rewrite !andb_true_iff, !in_range_spec in Hv'.
  destruct Hv' as [[[[[[[Hy Hmo] Hd] Hh] Hmi] Hs] Hus] Ho].
  pose proof (days_in_month_le (year d) (month d)).
  assert (Hoff : match utcoffset d with
                 | Some o => - day_us < o < day_us | None => True end).
  { destruct (utcoffset d); [| exact I].
    apply andb_true_iff in Ho. destruct Ho as [H1 H2].
    apply Z.ltb_lt in H1. apply Z.ltb_lt in H2. lia. }
  assert (Htime : parse_isoformat_time
                    (fmt_digits 2 (hour d) ++ ":" ++ fmt_digits 2 (minute d) ++ ":"
                     ++ fmt_digits 2 (second d) ++ fraction_text (microsecond d)
                     ++ format_offset (utcoffset d))
                  = Some (hour d, minute d, second d, microsecond d,
                          option_map (fun o => (Z.quot o 1000000, Z.rem o 1000000))
                                     (utcoffset d)))
    by (apply parse_isoformat_time_fmt; try lia; exact Hoff).
  assert (Htz : tzinfo_from_isoformat_results
                  (option_map (fun o => (Z.quot o 1000000, Z.rem o 1000000))
                              (utcoffset d))
                = Ok (utcoffset d)).
  { unfold offset_read_back in Hback.
    destruct (utcoffset d) as [o |]; [| reflexivity].
    apply tzinfo_read_back; [exact Hoff |].
    apply orb_true_iff in Hback. destruct Hback as [E | E].
    - left. now apply Z.eqb_eq.
    - right. now apply Z.leb_le. }
  unfold fromisoformat, isoformat.
  fold (fraction_text (microsecond d)).
  set (tstr := fmt_digits 2 (hour d) ++ _) in *.
  rewrite str_len_text, separator_of_text. cbv zeta.
  rewrite parse_isoformat_date_text by lia.
  rewrite length_text, after_separator_text, Htime, Htz.
  destruct d; cbn in *. now apply new_datetime_valid.
Qed.

End IsoRoundTrip.

Section StateRoundTrip.
Import Base.

Lemma all_ok_as_str (f : string) (l : list string) :
  all_ok (map (as_str f) (map PStr l)) = Ok l.
Proof. induction l as [| x l IH]; [reflexivity |]. cbn. now rewrite IH. Qed.

Lemma all_ok_as_dict (f : string) (l : list (gmap string PyVal)) :
  all_ok (map (as_dict f) (map PDict l)) = Ok l.
Proof. induction l as [| x l IH]; [reflexivity |]. cbn. now rewrite IH. Qed.

Lemma GlyphMode_of_value (m : GlyphMode) : GlyphMode_of (PStr (mode_value m)) = Ok m.
Proof. destruct m; reflexivity. Qed.

Lemma as_opt_str_of (f : string) (o : option string) :
  as_opt_str f (of_opt_str o) = Ok o.
Proof. destruct o; reflexivity. Qed.

Lemma top_lookups (v1 v2 v3 v4 v5 v6 v7 v8 : PyVal) :
  forall m : gmap string PyVal,
    m = list_to_map [("context", v1); ("mode", v2); ("messages", v3);
                     ("scratchpad", v4); ("outputs", v5); ("errors", v6);
                     ("started_at", v7); ("updated_at", v8)] ->
    m !! "context" = Some v1 /\ m !! "mode" = Some v2
    /\ m !! "messages" = Some v3 /\ m !! "scratchpad" = Some v4
    /\ m !! "outputs" = Some v5 /\ m !! "errors" = Some v6
    /\ m !! "started_at" = Some v7 /\ m !! "updated_at" = Some v8.
Proof. intros m ->. repeat split; reflexivity. Qed.

Lemma context_lookups (v1 v2 v3 v4 v5 v6 v7 v8 v9 : PyVal) :
  forall m : gmap string PyVal,
    m = list_to_map [("user_id", v1); ("session_id", v2); ("mission_id", v3);
                     ("block_id", v4); ("surface", v5); ("user_name", v6);
                     ("timezone", v7); ("graph_id", v8); ("focus_node_ids", v9)] ->
    m !! "user_id" = Some v1 /\ m !! "session_id" = Some v2
    /\ m !! "mission_id" = Some v3 /\ m !! "block_id" = Some v4
    /\ m !! "surface" = Some v5 /\ m !! "user_name" = Some v6
    /\ m !! "timezone" = Some v7 /\ m !! "graph_id" = Some v8
    /\ m !! "focus_node_ids" = Some v9.
Proof. intros m ->. repeat split; reflexivity. Qed.

Lemma dict_to_state_state_to_dict (now : nat -> datetime) (s : GlyphState) :
  valid_datetime (started_at s) = true ->
  valid_datetime (updated_at s) = true ->
  offset_read_back (started_at s) = true ->
  offset_read_back (updated_at s) = true ->
  dict_to_state now (state_to_dict s) = Ok s.
Proof.
  intros Hs Hu Bs Bu.
  destruct s as [c m msgs sp outs errs st up]. destruct c.
  cbn [started_at updated_at] in Hs, Hu, Bs, Bu.
  unfold dict_to_state, state_to_dict, get.
  cbn [context mode messages scratchpad outputs errors started_at updated_at
       user_id session_id mission_id block_id surface user_name timezone
       graph_id focus_node_ids].
  match goal with
  | |- context [PDict (list_to_map ?l)] =>
      set (ctx := list_to_map l : gmap string PyVal)
  end.
  match goal with
  | |- context [@list_to_map _ _ (gmap string PyVal) _ _ ?l] =>
      set (top := list_to_map l : gmap string PyVal)
  end.
  destruct (top_lookups _ _ _ _ _ _ _ _ top eq_refl)
    as (T1 & T2 & T3 & T4 & T5 & T6 & T7 & T8).
  destruct (context_lookups _ _ _ _ _ _ _ _ _ ctx eq_refl)
    as (C1 & C2 & C3 & C4 & C5 & C6 & C7 & C8 & C9).
  rewrite T1, T2, T3, T4, T5, T6, T7, T8.
  cbv beta iota delta [rbind].
  rewrite C1, C2, C3, C4, C5, C6, C7, C8, C9.
  cbn [rbind as_str as_str_list as_dict as_dict_list fromisoformat_val].
  rewrite !as_opt_str_of. cbn [rbind].
  rewrite !all_ok_as_str. cbn [rbind].
  rewrite GlyphMode_of_value. cbn [rbind].
  rewrite all_ok_as_dict. cbn [rbind].
  rewrite (fromisoformat_isoformat _ Hs Bs), (fromisoformat_isoformat _ Hu Bu).
  reflexivity.
Qed.

Lemma dict_to_state_ignores_key (now : nat -> datetime)
      (data : gmap string PyVal) (k : string) (v : PyVal) :
  ~ In k known_keys ->
  dict_to_state now (<[k := v]> data) = dict_to_state now data.
Proof.
  intros Hk. unfold dict_to_state, get.
  rewrite !lookup_insert_ne by (intros E; apply Hk; rewrite E; cbn; tauto).
  reflexivity.
Qed.

Lemma dict_to_state_ignores_context_key (now : nat -> datetime)
      (data ctx : gmap string PyVal) (k : string) (v : PyVal) :
  data !! "context" = Some (PDict ctx) ->
  ~ In k context_keys ->
  dict_to_state now (<["context" := PDict (<[k := v]> ctx)]> data)
  = dict_to_state now data.
Proof.
  intros Hc Hk. unfold dict_to_state, get.
  rewrite lookup_insert_eq.
  rewrite !(lookup_insert_ne data) by discriminate.
  rewrite Hc. cbn [rbind].
  rewrite !(lookup_insert_ne ctx) by (intros E; apply Hk; rewrite E; cbn; tauto).
  reflexivity.
Qed.
End StateRoundTrip.

(** ** The coach *)

Lemma filter_nil_iff {A} (p : A -> bool) (l : list A) :
  List.filter p l = [] <-> forall x, In x l -> p x = false.
Proof.
  induction l as [| y l IH]; cbn; [tauto |].
  destruct (p y) eqn:E; split.
  - discriminate.
  - intros H. specialize (H y (or_introl eq_refl)). congruence.
  - intros H x [-> | Hx]; [assumption | now apply IH].
  - intros H. apply IH. intros x Hx. apply H. now right.
Qed.

Lemma In_insert_sorted {A} (ltb : A -> A -> bool) (x y : A) (l : list A) :
  In y (insert_sorted ltb x l) <-> y = x \/ In y l.
Proof.
  induction l as [| z l IH]; cbn; [intuition |].
  destruct (ltb x z); cbn; [intuition |]. rewrite IH. intuition.
Qed.

Lemma In_sort_by {A} (ltb : A -> A -> bool) (l : list A) (y : A) :
  In y (sort_by ltb l) <-> In y l.
Proof.
  unfold sort_by.
  assert (G : forall acc, In y (fold_left (fun acc x => insert_sorted ltb x acc) l acc)
                          <-> In y acc \/ In y l).
  { induction l as [| x l IH]; intros acc; cbn; [tauto |].
    rewrite IH, In_insert_sorted. intuition. }
  rewrite G. cbn. tauto.
Qed.

Lemma block_status_eqb_eq (a b : BlockStatus.t) : BlockStatus.eqb a b = true <-> a = b.
Proof. destruct a, b; cbn; split; intros H; try reflexivity; discriminate. Qed.

Lemma mission_status_eqb_eq (a b : MissionStatus.t) :
  MissionStatus.eqb a b = true <-> a = b.
Proof. destruct a, b; cbn; split; intros H; try reflexivity; discriminate. Qed.

Lemma date_eqb_eq (a b : date) : date_eqb a b = true <-> a = b.
Proof.
  unfold date_eqb. rewrite Z.eqb_eq. destruct a, b; cbn. split; congruence.
Qed.

Lemma falsy_cases (o : option string) :
  truthy_opt_str o = false -> o = None \/ o = Some "".
Proof. destruct o as [[|] |]; cbn; auto; discriminate. Qed.

(** ** Dictionaries *)

Section DictFacts.
Context {A : Type} (key : A -> string).

Lemma dict_get_set_same (x : A) (l : list A) (k : string) :
  key x = k -> dict_get key k (dict_set key x l) = Some x.
Proof.
  intros <-. unfold dict_get.
  induction l as [| y l IH]; cbn.
  - now rewrite String.eqb_refl.
  - destruct (String.eqb (key y) (key x)) eqn:E; cbn.
    + now rewrite String.eqb_refl.
    + now rewrite E.
Qed.

Lemma dict_mem_set_same (x : A) (l : list A) (k : string) :
  key x = k -> dict_mem key k (dict_set key x l) = true.
Proof.
  intros <-. unfold dict_mem.
  induction l as [| y l IH]; cbn.
  - now rewrite String.eqb_refl.
  - destruct (String.eqb (key y) (key x)) eqn:E; cbn.
    + now rewrite String.eqb_refl.
    + now rewrite E.
Qed.

Lemma dict_get_key (k : string) (l : list A) (x : A) :
  dict_get key k l = Some x -> key x = k /\ In x l.
Proof.
  unfold dict_get. intros H. apply find_some in H. destruct H as [Hin E].
  apply String.eqb_eq in E. auto.
Qed.

Lemma dict_get_mem (k : string) (l : list A) (x : A) :
  dict_get key k l = Some x -> dict_mem key k l = true.
Proof.
  intros H. apply dict_get_key in H. destruct H as [<- Hin].
  unfold dict_mem. apply existsb_exists. exists x. split; [assumption |].
  apply String.eqb_refl.
Qed.
End DictFacts.

(** ** The coach run, step by step *)

Ltac coach_eval :=
  cbv beta iota zeta delta
    [bind ret gets modify lift raise new_id now_utc truthy_str truthy_opt_str
     CoachGraph.run_coach CoachGraph.invoke CoachGraph._load_context
     CoachGraph._decide_block CoachGraph.decide_next CoachGraph._generate_brief
     CoachGraph._start_session CoachGraph.initial_state CoachGraph.select
     CoachGraph.add_error
     CoachGraph.user_id CoachGraph.request CoachGraph.mission
     CoachGraph.current_block CoachGraph.today_blocks CoachGraph.selected_block
     CoachGraph.is_continuation CoachGraph.brief CoachGraph.actions
     CoachGraph.recommended_duration CoachGraph.ui_state CoachGraph.ui_tools
     CoachGraph.errors
     MissionTools.get_mission MissionTools.get_active_mission
     TimelineTools.get_block TimelineTools.get_current_block
     TimelineTools.get_today_blocks TimelineTools.get_next_planned_block
     TimelineTools.create_block TimelineTools.start_block
     InMemoryMissionsRepository.get InMemoryMissionsRepository.get_active_mission
     InMemoryBlocksRepository.get InMemoryBlocksRepository.get_current_block
     InMemoryBlocksRepository.list_for_user_date
     InMemoryBlocksRepository.list_for_mission
     InMemoryBlocksRepository.create InMemoryBlocksRepository.update
     option_map validate_block or_int len].

Ltac world_simpl :=
  cbn [missions blocks episodes profiles semantic_memory new_id_at ids_drawn
       clock_at clock_reads today format_1f str_date str_lower debug_enabled
       set_missions set_blocks set_episodes set_profiles set_semantic
       set_ids_drawn set_clock_reads].

Section CoachFacts.
Variables (w : World) (u : string).

Lemma no_active_mission_filter :
  no_active_mission w u ->
  List.filter (fun m => String.eqb (Mission.user_id m) u
                        && MissionStatus.eqb (Mission.status m) MissionStatus.ACTIVE)
              (missions w) = [].
Proof.
  intros H. apply filter_nil_iff. intros m Hm.
  destruct (String.eqb_spec (Mission.user_id m) u) as [E | E]; [| reflexivity].
  cbn. destruct (MissionStatus.eqb _ _) eqn:Es; [| reflexivity].
  apply mission_status_eqb_eq in Es. now destruct (H m Hm E).
Qed.

Lemma no_block_in_progress_filter :
  no_block_in_progress w u ->
  List.filter (fun b => String.eqb (Block.user_id b) u
                        && BlockStatus.eqb (Block.status b) BlockStatus.IN_PROGRESS)
              (blocks w) = [].
Proof.
  intros H. apply filter_nil_iff. intros b Hb.
  destruct (String.eqb_spec (Block.user_id b) u) as [E | E]; [| reflexivity].
  cbn. destruct (BlockStatus.eqb _ _) eqn:Es; [| reflexivity].
  apply block_status_eqb_eq in Es. now destruct (H b Hb E).
Qed.

Lemma no_planned_block_today_filter :
  no_planned_block_today w u ->
  List.filter (fun b => BlockStatus.eqb (Block.status b) BlockStatus.PLANNED)
    (sort_by InMemoryBlocksRepository.start_order
       (List.filter
          (fun b => String.eqb (Block.user_id b) u
                    && match Block.scheduled_start b with
                       | Some s => date_eqb (dt_date s) (today w)
                       | None => false
                       end)
          (blocks w))) = [].
Proof.
  intros H. apply filter_nil_iff. intros b Hb.
  apply In_sort_by, filter_In in Hb. destruct Hb as [Hb Hc].
  apply andb_true_iff in Hc. destruct Hc as [Hu Hd].
  apply String.eqb_eq in Hu.
  destruct (Block.scheduled_start b) as [t |] eqn:Et; [| discriminate].
  apply date_eqb_eq in Hd.
  destruct (BlockStatus.eqb _ _) eqn:Es; [| reflexivity].
  apply block_status_eqb_eq in Es.
  now destruct (H b t Hb Hu Es Et).
Qed.
End CoachFacts.


Lemma In_dict_set {A} (key : A -> string) (x : A) (l : list A) :
  In x (dict_set key x l).
Proof.
  induction l as [| y l IH]; cbn; [now left |].
  destruct (String.eqb (key y) (key x)); [now left | now right].
Qed.

Ltac record_simpl :=
  world_simpl;
  cbn [Block.id Block.user_id Block.mission_id Block.sequence_index
       Block.scheduled_start Block.scheduled_end Block.planned_duration_minutes
       Block.actual_start Block.actual_end Block.status Block.title
       Block.plan_note Block.outcome_note Block.completion_ratio
       Block.location_hint Block.device_hint Block.copy_started
       RunSessionResponse.block RunSessionResponse.actions
       RunSessionResponse.warnings RunSessionResponse.brief
       RunSessionResponse.recommended_duration_minutes].

Lemma firstn_sort_nil {A} (ltb : A -> A -> bool) (n : nat) :
  firstn n (sort_by ltb []) = [].
Proof. destruct n; reflexivity. Qed.

Lemma planned_is_not_in_progress :
  BlockStatus.eqb BlockStatus.PLANNED BlockStatus.IN_PROGRESS = false.
Proof. reflexivity. Qed.

Section CoachNewBlock.
Variables (w : World) (m : Mission.t).

Lemma mission_without_blocks_filter (st : option BlockStatus.t) :
  mission_without_blocks w m ->
  List.filter (fun b => String.eqb (Block.mission_id b) (Mission.id m)
                        && match st with
                           | None => true
                           | Some s => BlockStatus.eqb (Block.status b) s
                           end)
              (blocks w) = [].
Proof.
  intros H. apply filter_nil_iff. intros b Hb.
  destruct (String.eqb_spec (Block.mission_id b) (Mission.id m)) as [E | E];
    [now destruct (H b Hb) | reflexivity].
Qed.
End CoachNewBlock.

(** *** What the nodes of the coach leave of the state *)

Lemma py_slice_nil {A} (a b : Z) : py_slice a b (@nil A) = [].
Proof. unfold py_slice. now rewrite skipn_nil, firstn_nil. Qed.

(** The slice [l[:n]] for [n] that is not negative. *)
Lemma py_slice_firstn {A} (n : Z) (l : list A) :
  0 <= n -> py_slice 0 n l = firstn (Z.to_nat n) l.
Proof.
  intros Hn. unfold py_slice, clamp_index.
  destruct (Z.ltb_spec n 0) as [? | _]; [lia |].
  change (0 <? 0) with false. cbv iota.
  assert (E0 : Z.min 0 (Z.of_nat (List.length l)) = 0) by lia.
  rewrite E0, Z.sub_0_r.
  replace (skipn (Z.to_nat 0) l) with l by reflexivity.
  destruct (Z.le_gt_cases n (Z.of_nat (List.length l))) as [L | L].
  - now rewrite Z.min_l by lia.
  - rewrite Z.min_r by lia. rewrite Nat2Z.id.
    rewrite firstn_all. symmetry. apply firstn_all2. lia.
Qed.

(** The slice [l[:b]] for any integer [b]. *)
Lemma py_slice_from_0 {A} (b : Z) (l : list A) :
  py_slice 0 b l = firstn (Z.to_nat (clamp_index (Z.of_nat (List.length l)) b)) l.
Proof.
  unfold py_slice.
  assert (E0 : clamp_index (Z.of_nat (List.length l)) 0 = 0)
    by (unfold clamp_index; change (0 <? 0) with false; cbv iota; lia).
  rewrite E0, Z.sub_0_r.
  now replace (skipn (Z.to_nat 0) l) with l by reflexivity.
Qed.

Lemma clamp_index_range (n i : Z) : 0 <= n -> 0 <= clamp_index n i <= n.
Proof.
  intros Hn. unfold clamp_index. destruct (Z.ltb_spec i 0); lia.
Qed.

Lemma py_slice_sort_nil {A} (ltb : A -> A -> bool) (a b : Z) :
  py_slice a b (sort_by ltb []) = [].
Proof. apply py_slice_nil. Qed.

Lemma load_context_keeps (st st' : CoachGraph.State) (w w' : World) :
  CoachGraph._load_context st w = (w', Ok st') ->
  CoachGraph.recommended_duration st' = CoachGraph.recommended_duration st
  /\ CoachGraph.actions st' = CoachGraph.actions st.
Proof.
  unfold CoachGraph._load_context. intros H.
  apply bind_inv in H. destruct H as (w1 & m & _ & H).
  apply bind_inv in H. destruct H as (w2 & b & _ & H).
  apply bind_inv in H. destruct H as (w3 & t & _ & H).
  injection H as _ <-. split; reflexivity.
Qed.

Lemma decide_next_keeps (st st' : CoachGraph.State) (w w' : World) :
  CoachGraph.decide_next st w = (w', Ok st') ->
  CoachGraph.recommended_duration st' = CoachGraph.recommended_duration st
  /\ CoachGraph.actions st' = CoachGraph.actions st.
Proof.
  unfold CoachGraph.decide_next. intros H.
  apply bind_inv in H. destruct H as (w1 & nb & _ & H).
  destruct nb as [b |].
  - injection H as _ <-. split; reflexivity.
  - destruct (option_map Mission.id (CoachGraph.mission st)) as [mid |].
    + destruct (truthy_str mid).
      * apply bind_inv in H. destruct H as (w2 & nb & _ & H).
        injection H as _ <-. split; reflexivity.
      * injection H as _ <-. split; reflexivity.
    + injection H as _ <-. split; reflexivity.
Qed.

Lemma decide_block_keeps (st st' : CoachGraph.State) (w w' : World) :
  CoachGraph._decide_block st w = (w', Ok st') ->
  CoachGraph.recommended_duration st' = CoachGraph.recommended_duration st
  /\ CoachGraph.actions st' = CoachGraph.actions st.
Proof.
  unfold CoachGraph._decide_block. intros H.
  assert (G : forall (k : M CoachGraph.State) (w0 : World),
             (k = CoachGraph.decide_next st
              \/ exists b, k = ret (CoachGraph.select st b false)) ->
             k w0 = (w', Ok st') ->
             CoachGraph.recommended_duration st' = CoachGraph.recommended_duration st
             /\ CoachGraph.actions st' = CoachGraph.actions st).
  { intros k w0 [-> | [b ->]] Hk; [now apply decide_next_keeps in Hk |].
    injection Hk as _ <-. split; reflexivity. }
  assert (R : match RunSessionRequest.block_id (CoachGraph.request st) with
              | Some bid =>
                  if truthy_str bid
                  then
                    bind (TimelineTools.get_block bid)
                         (fun block =>
                            match block with
                            | Some b => ret (CoachGraph.select st b false)
                            | None => CoachGraph.decide_next st
                            end)
                  else CoachGraph.decide_next st
              | None => CoachGraph.decide_next st
              end w = (w', Ok st') ->
              CoachGraph.recommended_duration st' = CoachGraph.recommended_duration st
              /\ CoachGraph.actions st' = CoachGraph.actions st).
  { intros Hr.
    destruct (RunSessionRequest.block_id (CoachGraph.request st)) as [bid |];
      [destruct (truthy_str bid) |]; try (apply (G _ _ (or_introl eq_refl) Hr)).
    apply bind_inv in Hr. destruct Hr as (w1 & blk & _ & Hr).
    destruct blk as [b |]; [apply (G _ _ (or_intror (ex_intro _ b eq_refl)) Hr) |].
    apply (G _ _ (or_introl eq_refl) Hr). }
  destruct (CoachGraph.current_block st) as [b |]; [| exact (R H)].
  destruct (BlockStatus.eqb (Block.status b) BlockStatus.IN_PROGRESS);
    [| exact (R H)].
  injection H as _ <-. split; reflexivity.
Qed.

(** The brief decides the stretch goal: the review is among the actions
    exactly when the duration it recommends is 40 or more. *)
Lemma generate_brief_stretch (st st' : CoachGraph.State) (w w' : World) :
  CoachGraph._generate_brief st w = (w', Ok st') ->
  (CoachGraph.recommended_duration st' = CoachGraph.recommended_duration st
   /\ CoachGraph.actions st' = Some [])
  \/ exists d first,
       CoachGraph.recommended_duration st' = Some d
       /\ SessionAction.is_stretch_goal first = false
       /\ CoachGraph.actions st'
          = Some (first :: if 40 <=? d then [validated_action stretch_action] else []).
Proof.
  unfold CoachGraph._generate_brief. intros H.
  destruct (CoachGraph.selected_block st) as [b |].
  - destruct (Block.planned_duration_minutes b) as [d |]; [| discriminate].
    injection H as _ <-. right. eexists d, _.
    cbn [CoachGraph.recommended_duration CoachGraph.actions].
    split; [reflexivity |]. split; [| destruct (40 <=? d); reflexivity].
    destruct (truthy_opt_str (Block.plan_note b)); reflexivity.
  - injection H as _ <-. left. split; reflexivity.
Qed.

Lemma start_session_keeps (st st' : CoachGraph.State) (w w' : World) :
  CoachGraph._start_session st w = (w', Ok st') ->
  CoachGraph.recommended_duration st' = CoachGraph.recommended_duration st
  /\ CoachGraph.actions st' = CoachGraph.actions st.
Proof.
  unfold CoachGraph._start_session. intros H.
  destruct (CoachGraph.selected_block st) as [b |].
  - apply bind_inv in H. destruct H as (w1 & sel & _ & H).
    injection H as _ <-. split; reflexivity.
  - injection H as _ <-. split; reflexivity.
Qed.

Lemma validated_stretch : validated_action (validated_action stretch_action) = stretch_action.
Proof. reflexivity. Qed.

Lemma coach_stretch_threshold (u : string) (req : RunSessionRequest.t)
      (w w' : World) (resp : RunSessionResponse.t) :
  returns (CoachGraph.run_coach u req) w w' resp ->
  In stretch_action (RunSessionResponse.actions resp)
  <-> 40 <= RunSessionResponse.recommended_duration_minutes resp.
Proof.
  unfold returns, CoachGraph.run_coach. intros H.
  apply bind_inv in H. destruct H as (w1 & sf & Hinv & H).
  apply bind_inv in H. destruct H as (w2 & blk & _ & H).
  injection H as _ <-.
  cbn [RunSessionResponse.actions RunSessionResponse.recommended_duration_minutes].
  unfold CoachGraph.invoke in Hinv.
  apply bind_inv in Hinv. destruct Hinv as (wa & s1 & H1 & Hinv).
  apply bind_inv in Hinv. destruct Hinv as (wb & s2 & H2 & Hinv).
  apply bind_inv in Hinv. destruct Hinv as (wc & s3 & H3 & H4).
  apply load_context_keeps in H1. apply decide_block_keeps in H2.
  apply start_session_keeps in H4. apply generate_brief_stretch in H3.
  destruct H1 as [R1 A1], H2 as [R2 A2], H4 as [R4 A4].
  rewrite R4, A4.
  destruct H3 as [[R3 A3] | (d & first & R3 & F3 & A3)]; rewrite R3, A3.
  - rewrite R2, R1. cbn. split; [tauto | lia].
  - cbn [map In]. destruct (Z.leb_spec 40 d) as [L | L]; cbn [map In].
    + rewrite validated_stretch. split; [intros _; exact L | intros _; right; now left].
    + split; [| lia]. intros [E | []]. exfalso.
      apply (f_equal SessionAction.is_stretch_goal) in E.
      cbn in E. rewrite F3 in E. discriminate.
Qed.


(** C10: when the request's block id resolves to a block that is not in
    progress and was stored without a planned duration, the coach run
    raises a [TypeError] while building the brief (the comparison
    [duration >= 40] with [duration = None]): no response is returned, so
    the response's block is not in progress. *)
Theorem coach_raises_on_block_without_duration :
  forall (w : World) (u : string) (req : RunSessionRequest.t)
         (bid : string) (b : Block.t),
    RunSessionRequest.block_id req = Some bid ->
    truthy_str bid = true ->
    dict_get Block.id bid (blocks w) = Some b ->
    Block.status b <> BlockStatus.IN_PROGRESS ->
    Block.planned_duration_minutes b = None ->
    snd (CoachGraph.run_coach u req w)
    = Raise (TypeError "'>=' not supported between instances of 'NoneType' and 'int'").
Proof.
  intros w u req bid b Hbid Htruthy Hget Hst Hdur.
  assert (Hne : BlockStatus.eqb (Block.status b) BlockStatus.IN_PROGRESS = false).
  { destruct (BlockStatus.eqb _ _) eqn:E; [| reflexivity].
    apply block_status_eqb_eq in E. contradiction. }
  destruct bid as [| c0 bid0]; [discriminate |].
  destruct (RunSessionRequest.mission_id req) as [[| c1 mid] |] eqn:Emid;
    repeat (coach_eval; record_simpl; rewrite ?Emid, ?Hbid, ?Hget, ?Hne, ?Hdur);
    repeat match goal with
           | |- context [List.filter ?p (missions w)] =>
               destruct (List.filter p (missions w));
               repeat (coach_eval; record_simpl; rewrite ?Emid, ?Hbid, ?Hget, ?Hne, ?Hdur)
           | |- context [dict_get Mission.id ?k (missions w)] =>
               destruct (dict_get Mission.id k (missions w));
               repeat (coach_eval; record_simpl; rewrite ?Emid, ?Hbid, ?Hget, ?Hne, ?Hdur)
           end;
    reflexivity.
Qed.

(** ** The planner *)

Lemma date_add_days_in_range (d : date) (n : Z) :
  1 <= toordinal d + n <= MAXORDINAL ->
  date_add_days d n = Ok (candidate_day d n).
Proof.
  intros H. unfold date_add_days.
  replace ((1 <=? toordinal d + n) && (toordinal d + n <=? MAXORDINAL)) with true;
    [reflexivity |].
  symmetry. apply andb_true_iff. split; apply Z.leb_le; lia.
Qed.

Lemma range_5 : range 5 = [0; 1; 2; 3; 4].
Proof. reflexivity. Qed.

Ltac planner_eval :=
  cbv beta iota zeta delta
    [bind ret gets modify lift raise new_id now_utc truthy_str truthy_opt_str
     truthy_opt_int
     PlannerGraph.run_planner PlannerGraph.invoke PlannerGraph._parse_input
     PlannerGraph._check_history PlannerGraph._build_mission
     PlannerGraph._propose_blocks PlannerGraph._summarize
     PlannerGraph.initial_state PlannerGraph.parsed_title
     PlannerGraph.user_id PlannerGraph.surface PlannerGraph.ctx_mission_id
     PlannerGraph.scratchpad PlannerGraph.request PlannerGraph.parsed_input
     PlannerGraph.similar_missions PlannerGraph.history_note PlannerGraph.mission
     PlannerGraph.proposed_blocks PlannerGraph.summary PlannerGraph.rationale
     PlannerGraph.similar_missions_note PlannerGraph.errors
     PlannerGraph.title PlannerGraph.description PlannerGraph.kind
     PlannerGraph.deadline PlannerGraph.estimated_hours PlannerGraph.constraints
     PlannerGraph.preferences
     MissionTools.create_mission
     TimelineTools.propose_blocks_for_mission TimelineTools.propose_loop
     InMemoryMissionsRepository.create InMemoryMissionsRepository.get
     option_map validate_block validated_mission or_int len
     Sample.scenario_A_request
     PlanMissionRequest.raw_input PlanMissionRequest.kind PlanMissionRequest.deadline
     PlanMissionRequest.estimated_hours PlanMissionRequest.constraints
     PlanMissionRequest.preferences PlanMissionRequest.surface].

(** What the similarity search answers in a world. *)
Lemma find_similar_missions_run (u q : string) (n : Z) (w : World) :
  MissionTools.find_similar_missions u q n w
  = (w, Ok match semantic_memory w with
           | Some s => InMemorySemanticMemory.search_similar_missions (str_lower w) s u q n
           | None => []
           end).
Proof.
  unfold MissionTools.find_similar_missions, bind, gets, ret.
  destruct (semantic_memory w); reflexivity.
Qed.

Ltac mission_simpl :=
  record_simpl;
  cbn [Mission.id Mission.user_id Mission.title Mission.description Mission.kind
       Mission.status Mission.priority Mission.created_at Mission.updated_at
       Mission.planned_start_date Mission.deadline_date
       Mission.estimated_total_minutes Mission.tags Mission.graph_links
       Mission.constraints Mission.preferences Mission.archived
       MissionConstraints.days_off MissionConstraints.default
       MissionPreferences.preferred_block_lengths MissionPreferences.default
       MissionPreferences.intensity MissionPreferences.notes_for_glyph
       strip_opt option_map map].

(** C9: on any day from which four more calendar days exist, the planner
    run on the request of scenario A (raw input "organic chem final monday,
    cs project wednesday", no kind, deadline, constraints or preferences)
    returns a response whose mission title is the raw input (it is shorter
    than the bound of 100 characters, so the truncation keeps all of it),
    whose mission kind is [other], and that proposes exactly five blocks,
    with sequence indices 0 to 4 and 25 suggested minutes each. *)
Theorem planner_scenario_A :
  forall (w : World) (u : string),
    1 <= toordinal (today w) ->
    toordinal (today w) + 4 <= MAXORDINAL ->
    exists w' resp,
      returns (PlannerGraph.run_planner u Sample.scenario_A_request) w w' resp
      /\ Mission.title (PlanMissionResponse.mission resp)
         = "organic chem final monday, cs project wednesday"
      /\ Mission.kind (PlanMissionResponse.mission resp) = MissionKind.OTHER
      /\ map ProposedBlock.sequence_index (PlanMissionResponse.proposed_blocks resp)
         = [0; 1; 2; 3; 4]
      /\ map ProposedBlock.suggested_duration_minutes
             (PlanMissionResponse.proposed_blocks resp)
         = [25; 25; 25; 25; 25].
Proof.
  intros w u H1 H2. unfold returns.
  destruct (semantic_memory w) as [s |] eqn:Es.
  all: repeat (planner_eval; mission_simpl;
          rewrite ?find_similar_missions_run, ?range_5, ?Es;
          rewrite ?dict_get_set_same by reflexivity;
          rewrite ?date_add_days_in_range by lia).
  all: do 2 eexists; (split; [reflexivity | repeat split; reflexivity]).
Qed.

(** ** The archivist *)

(** ** Raising *)

Lemma raises_bind_l {A B} (m : M A) (k : A -> M B) (w : World) :
  raises m w -> raises (bind m k) w.
Proof.
  intros (w' & e & H). exists w', e. now apply bind_raise.
Qed.

Lemma raises_bind_r {A B} (m : M A) (k : A -> M B) (w : World) :
  (forall w1 a, m w = (w1, Ok a) -> raises (k a) w1) -> raises (bind m k) w.
Proof.
  intros H. unfold raises, bind in *.
  destruct (m w) as [w1 [a | e]] eqn:E.
  - exact (H w1 a eq_refl).
  - now exists w1, e.
Qed.

(** ** Sorting keeps the elements *)

Lemma insert_sorted_perm {A} (ltb : A -> A -> bool) (x : A) (l : list A) :
  Permutation (insert_sorted ltb x l) (x :: l).
Proof.
  induction l as [| y l IH]; cbn; [reflexivity |].
  destruct (ltb x y); [reflexivity |].
  rewrite IH. apply perm_swap.
Qed.

Lemma sort_by_perm {A} (ltb : A -> A -> bool) (l : list A) :
  Permutation (sort_by ltb l) l.
Proof.
  unfold sort_by.
  assert (G : forall acc,
             Permutation (fold_left (fun acc x => insert_sorted ltb x acc) l acc)
                         (acc ++ l)%list).
  { induction l as [| x l IH]; intros acc; cbn.
    - now rewrite app_nil_r.
    - rewrite IH, insert_sorted_perm. cbn. apply Permutation_middle. }
  exact (G []).
Qed.

(** ** Period statistics *)

Lemma filter_filter {A} (p q : A -> bool) (l : list A) :
  List.filter p (List.filter q l) = List.filter (fun x => q x && p x) l.
Proof.
  induction l as [| x l IH]; cbn; [reflexivity |].
  destruct (q x); cbn; [destruct (p x) |]; now rewrite IH.
Qed.

Lemma focused_sum_perm (l l' : list Episode.t) :
  Permutation l l' -> focused_sum l = focused_sum l'.
Proof.
  induction 1; cbn; try lia. unfold focused_sum in *. cbn. lia.
Qed.

Lemma session_count_cons (e : Episode.t) (l : list Episode.t) :
  session_count (e :: l)
  = (if EpisodeKind.eqb (Episode.kind e) EpisodeKind.SESSION then 1 else 0)
    + session_count l.
Proof.
  unfold session_count, len. cbn [List.filter].
  destruct (EpisodeKind.eqb _ _); cbn [List.length]; lia.
Qed.

Lemma session_count_perm (l l' : list Episode.t) :
  Permutation l l' -> session_count l = session_count l'.
Proof.
  induction 1; rewrite ?session_count_cons; try lia.
Qed.

Lemma visit_focused (a : MemoryTools.Acc) (e : Episode.t) :
  MemoryTools.total_focused (MemoryTools.visit a e)
  = MemoryTools.total_focused a + minutes_or_zero (Episode.time_focused_minutes e).
Proof.
  unfold MemoryTools.visit. cbn [MemoryTools.total_focused].
  destruct (Episode.time_focused_minutes e) as [n |]; cbn [minutes_or_zero];
    [destruct (Z.eqb_spec n 0) |]; lia.
Qed.

Lemma visit_blocks (a : MemoryTools.Acc) (e : Episode.t) :
  MemoryTools.blocks_completed (MemoryTools.visit a e)
  = MemoryTools.blocks_completed a
    + (if EpisodeKind.eqb (Episode.kind e) EpisodeKind.SESSION then 1 else 0).
Proof.
  unfold MemoryTools.visit. cbn [MemoryTools.blocks_completed].
  destruct (EpisodeKind.eqb _ _); lia.
Qed.

Lemma fold_visit_focused (l : list Episode.t) : forall a,
  MemoryTools.total_focused (fold_left MemoryTools.visit l a)
  = MemoryTools.total_focused a + focused_sum l.
Proof.
  induction l as [| e l IH]; intros a; cbn [fold_left].
  - unfold focused_sum. cbn. lia.
  - rewrite IH, visit_focused. unfold focused_sum. cbn [fold_right]. lia.
Qed.

Lemma fold_visit_blocks (l : list Episode.t) : forall a,
  MemoryTools.blocks_completed (fold_left MemoryTools.visit l a)
  = MemoryTools.blocks_completed a + session_count l.
Proof.
  induction l as [| e l IH]; intros a; cbn [fold_left].
  - unfold session_count, len. cbn. lia.
  - rewrite IH, session_count_cons, visit_blocks. lia.
Qed.

(** The episodes [compute_period_stats] loads. *)
Lemma get_episodes_for_period_run (u : string) (start stop : date) (w : World) :
  MemoryTools.get_episodes_for_period u start stop None w
  = (w, Ok (firstn 50 (newest_first (in_range_episodes u start stop (episodes w))))).
Proof.
  unfold MemoryTools.get_episodes_for_period,
    InMemoryEpisodesRepository.list_for_user, bind, gets, ret,
    InMemoryEpisodesRepository.filter_if, newest_first, in_range_episodes.
  rewrite !filter_filter, py_slice_firstn by lia. reflexivity.
Qed.

Lemma compute_period_stats_run (u : string) (start stop : date) (w : World) :
  MemoryTools.compute_period_stats u start stop w
  = (w, Ok (MemoryTools.stats_of
              (fold_left MemoryTools.visit
                 (firstn 50 (newest_first (in_range_episodes u start stop (episodes w))))
                 MemoryTools.acc0))).
Proof.
  unfold MemoryTools.compute_period_stats.
  rewrite (bind_ok _ _ _ _ _ (get_episodes_for_period_run u start stop w)).
  reflexivity.
Qed.

Lemma session_count_all (l : list Episode.t) :
  (forall e, In e l -> Episode.kind e = EpisodeKind.SESSION) ->
  session_count l = len l.
Proof.
  induction l as [| e l IH]; intros H; [reflexivity |].
  rewrite session_count_cons, IH by (intros x Hx; apply H; now right).
  rewrite (H e (or_introl eq_refl)). unfold len. cbn [List.length]. cbn. lia.
Qed.

(** C5: the period statistics always return, leaving the repositories as
    they were.  For a user with at most 50 episodes in the date range
    they are what the claim says: [total_focused_minutes] is the sum of
    [time_focused_minutes] and [blocks_completed] the number of episodes
    of kind [session] over the episodes in range; in particular, with
    exactly two episodes in range, a [session] of 30 focused minutes and
    a [day] episode without focused minutes, they report 30 minutes and
    1 block.  With more than 50 episodes in range they are not:
    [get_episodes_for_period] asks the repository without a limit, the
    repository's default of 50 cuts the list, and the sums run over the
    50 newest episodes only, so that more than 50 sessions in range are
    reported as 50 completed blocks. *)
Theorem period_stats_over_loaded_episodes :
  forall (w : World) (u : string) (start stop : date),
    exists st,
      returns (MemoryTools.compute_period_stats u start stop) w w st
      /\ (let loaded :=
            firstn 50 (newest_first (in_range_episodes u start stop (episodes w))) in
          PeriodStats.total_focused_minutes st = focused_sum loaded
          /\ PeriodStats.blocks_completed st = session_count loaded)
      /\ (let in_range := in_range_episodes u start stop (episodes w) in
          (List.length in_range <= 50)%nat ->
          PeriodStats.total_focused_minutes st = focused_sum in_range
          /\ PeriodStats.blocks_completed st = session_count in_range)
      /\ (forall e1 e2,
            Permutation (in_range_episodes u start stop (episodes w)) [e1; e2] ->
            Episode.kind e1 = EpisodeKind.SESSION ->
            Episode.time_focused_minutes e1 = Some 30 ->
            Episode.kind e2 = EpisodeKind.DAY ->
            Episode.time_focused_minutes e2 = None ->
            PeriodStats.total_focused_minutes st = 30
            /\ PeriodStats.blocks_completed st = 1)
      /\ (let in_range := in_range_episodes u start stop (episodes w) in
          (50 < List.length in_range)%nat ->
          (forall e, In e in_range -> Episode.kind e = EpisodeKind.SESSION) ->
          session_count in_range = len in_range
          /\ PeriodStats.blocks_completed st = 50).
Proof.
  intros w u start stop. eexists. split; [apply compute_period_stats_run |].
  cbn [MemoryTools.stats_of PeriodStats.total_focused_minutes
       PeriodStats.blocks_completed].
  rewrite fold_visit_focused, fold_visit_blocks. cbn [MemoryTools.acc0
    MemoryTools.total_focused MemoryTools.blocks_completed].
  assert (Hall : (List.length (in_range_episodes u start stop (episodes w)) <= 50)%nat ->
                 0 + focused_sum (firstn 50 (newest_first
                       (in_range_episodes u start stop (episodes w))))
                 = focused_sum (in_range_episodes u start stop (episodes w))
                 /\ 0 + session_count (firstn 50 (newest_first
                       (in_range_episodes u start stop (episodes w))))
                    = session_count (in_range_episodes u start stop (episodes w))).
  { intros Hlen.
    pose proof (sort_by_perm
                  (fun a b => datetime_ltb (Episode.created_at b) (Episode.created_at a))
                  (in_range_episodes u start stop (episodes w))) as P.
    fold (newest_first (in_range_episodes u start stop (episodes w))) in P.
    rewrite firstn_all2 by (rewrite (Permutation_length P); exact Hlen).
    rewrite (focused_sum_perm _ _ P), (session_count_perm _ _ P). lia. }
  split; [split; lia |]. split; [exact Hall |]. split.
  - intros e1 e2 P K1 F1 K2 F2.
    destruct Hall as [Hf Hs]; [rewrite (Permutation_length P); cbn; lia |].
    rewrite Hf, Hs, (focused_sum_perm _ _ P), (session_count_perm _ _ P).
    rewrite !session_count_cons. unfold focused_sum. cbn [fold_right].
    rewrite K1, F1, K2, F2. cbn. split; reflexivity.
  - intros Hmany Hkind. split; [now apply session_count_all |].
    pose proof (sort_by_perm
                  (fun a b => datetime_ltb (Episode.created_at b) (Episode.created_at a))
                  (in_range_episodes u start stop (episodes w))) as P.
    fold (newest_first (in_range_episodes u start stop (episodes w))) in P.
    rewrite session_count_all.
    + unfold len. rewrite length_firstn, (Permutation_length P). lia.
    + intros e He. apply Hkind. apply (Permutation_in _ P).
      rewrite <- (firstn_skipn 50 (newest_first _)). apply in_or_app. now left.
Qed.

(** ** The archivist nodes: what each leaves of the state *)

Ltac inv_run H :=
  repeat (apply bind_inv in H; destruct H as (? & ? & _ & H));
  unfold ret in H; injection H as <- <-.

Lemma load_period_data_period (st st' : ArchivistGraph.State) (w w' : World) :
  ArchivistGraph._load_period_data st w = (w', Ok st') ->
  exists p, ArchivistGraph.period st' = Some p
            /\ ArchivistGraph.kind p
               = ReflectPeriodRequest.kind (ArchivistGraph.request st).
Proof.
  unfold ArchivistGraph._load_period_data. intros H.
  inv_run H. eexists. split; reflexivity.
Qed.

Lemma compute_stats_inv (st st' : ArchivistGraph.State) (w w' : World) :
  ArchivistGraph._compute_stats st w = (w', Ok st') ->
  ArchivistGraph.period st' = ArchivistGraph.period st
  /\ exists s, ArchivistGraph.stats st' = Some s
               /\ PeriodStats.completion_rate s
                  = (if 0 <? PeriodStats.blocks_completed s
                     then Some (capped_fifth (PeriodStats.blocks_completed s))
                     else None).
Proof.
  unfold ArchivistGraph._compute_stats. intros H.
  destruct (ArchivistGraph.period st) as [p |]; [| discriminate].
  apply bind_inv in H. destruct H as (w1 & computed & Hc & H).
  rewrite compute_period_stats_run in Hc. injection Hc as <- <-.
  unfold ret in H. injection H as <- <-.
  cbn [ArchivistGraph.period ArchivistGraph.stats]. split; [reflexivity |].
  eexists. split; [reflexivity |].
  cbn [MemoryTools.stats_of PeriodStats.blocks_completed].
  destruct (0 <? _) eqn:E; cbn; rewrite ?E; reflexivity.
Qed.

Lemma identify_patterns_inv (st st' : ArchivistGraph.State) (w w' : World) :
  ArchivistGraph._identify_patterns st w = (w', Ok st') ->
  ArchivistGraph.period st' = ArchivistGraph.period st
  /\ ArchivistGraph.stats st' = ArchivistGraph.stats st.
Proof.
  unfold ArchivistGraph._identify_patterns. intros H.
  inv_run H. split; reflexivity.
Qed.

Lemma write_episode_inv (st st' : ArchivistGraph.State) (w w' : World) :
  ArchivistGraph._write_episode st w = (w', Ok st') ->
  ArchivistGraph.stats st' = ArchivistGraph.stats st.
Proof.
  unfold ArchivistGraph._write_episode. intros H.
  inv_run H. reflexivity.
Qed.

Lemma update_profile_inv (st st' : ArchivistGraph.State) (w w' : World) :
  ArchivistGraph._update_profile st w = (w', Ok st') ->
  ArchivistGraph.stats st' = ArchivistGraph.stats st.
Proof.
  unfold ArchivistGraph._update_profile. intros H.
  inv_run H. reflexivity.
Qed.

Lemma invoke_stats (st st' : ArchivistGraph.State) (w w' : World) :
  ArchivistGraph.invoke st w = (w', Ok st') ->
  exists s, ArchivistGraph.stats st' = Some s
            /\ PeriodStats.completion_rate s
               = (if 0 <? PeriodStats.blocks_completed s
                  then Some (capped_fifth (PeriodStats.blocks_completed s))
                  else None).
Proof.
  unfold ArchivistGraph.invoke. intros H.
  apply bind_inv in H. destruct H as (w1 & s1 & _ & H).
  apply bind_inv in H. destruct H as (w2 & s2 & H2 & H).
  apply bind_inv in H. destruct H as (w3 & s3 & H3 & H).
  apply bind_inv in H. destruct H as (w4 & s4 & H4 & H).
  apply bind_inv in H. destruct H as (w5 & s5 & H5 & H).
  unfold ret in H. injection H as <- <-.
  apply compute_stats_inv in H2. destruct H2 as (_ & s & Hs & Hr).
  apply identify_patterns_inv in H3. destruct H3 as (_ & E3).
  apply write_episode_inv in H4. apply update_profile_inv in H5.
  exists s. split; [| exact Hr].
  unfold ArchivistGraph._build_summary. cbn [ArchivistGraph.stats]. congruence.
Qed.

(** C8: for every archivist run that returns, the completion rate of the
    response is [min(1.0, blocks_completed / 5)] when at least one block was
    completed in the period, and is absent ([None]) when none was. *)
Theorem archivist_completion_rate :
  forall (w w' : World) (u : string) (req : ReflectPeriodRequest.t)
         (resp : ReflectPeriodResponse.t),
    returns (ArchivistGraph.run_archivist u req) w w' resp ->
    ReflectPeriodResponse.completion_rate resp
    = (if 0 <? ReflectPeriodResponse.blocks_completed resp
       then Some (capped_fifth (ReflectPeriodResponse.blocks_completed resp))
       else None).
Proof.
  unfold returns, ArchivistGraph.run_archivist. intros w w' u req resp H.
  apply bind_inv in H. destruct H as (w1 & final & Hinv & H).
  apply invoke_stats in Hinv. destruct Hinv as (s & Hs & Hr).
  inv_run H.
  cbn [ReflectPeriodResponse.completion_rate ReflectPeriodResponse.blocks_completed].
  unfold ArchivistGraph.stat_blocks. rewrite Hs. exact Hr.
Qed.

(** C1: for every world, user and [ReflectPeriodRequest] whose kind is
    [block] or [week] (two of the four declared kinds), [run_archivist]
    raises instead of returning a response: the kind's value is looked up
    among the episode kinds when the episode is written, and no episode
    kind has that value. *)
Theorem archivist_raises_for_block_and_week :
  forall (w : World) (u : string) (req : ReflectPeriodRequest.t),
    ReflectPeriodRequest.kind req = ReflectPeriodKind.BLOCK
    \/ ReflectPeriodRequest.kind req = ReflectPeriodKind.WEEK ->
    raises (ArchivistGraph.run_archivist u req) w.
Proof.
  intros w u req Hk.
  unfold ArchivistGraph.run_archivist. apply raises_bind_l.
  unfold ArchivistGraph.invoke.
  apply raises_bind_r. intros w1 s1 H1.
  apply load_period_data_period in H1. destruct H1 as (p & Hp & Hkind).
  cbn [ArchivistGraph.initial_state ArchivistGraph.request] in Hkind.
  apply raises_bind_r. intros w2 s2 H2.
  apply compute_stats_inv in H2. destruct H2 as (Hp2 & _).
  apply raises_bind_r. intros w3 s3 H3.
  apply identify_patterns_inv in H3. destruct H3 as (Hp3 & _).
  apply raises_bind_l.
  unfold ArchivistGraph._write_episode.
  rewrite Hp3, Hp2, Hp, Hkind.
  apply raises_bind_l.
  destruct Hk as [-> | ->]; do 2 eexists; reflexivity.
Qed.

(** ** The router *)

Lemma log_call_enabled (w : World) :
  debug_enabled w = true ->
  GraphRouter.log_call w =
  (w, Raise (TypeError "Logger._log() got an unexpected keyword argument 'entrypoint'")).
Proof.
  intros H. unfold GraphRouter.log_call, bind, gets. now rewrite H.
Qed.

Lemma log_call_disabled (w : World) :
  debug_enabled w = false -> GraphRouter.log_call w = (w, Ok tt).
Proof.
  intros H. unfold GraphRouter.log_call, bind, gets. now rewrite H.
Qed.

(** X30: with the router's logger below DEBUG, [call_graph] hands a
    request of the class its entry point expects to the graph of that
    entry point and returns what the graph returns; for a request of
    another class, for the chat entry point and for an unknown entry
    point it raises a validation error and leaves the world as it
    was. *)
Lemma call_graph_validates_when_debug_is_off
      (e : GraphRouter.Entry) (u : string) (r : GraphRouter.Request) (w : World) :
  debug_enabled w = false ->
  (GraphRouter.entry_value e = "plan_mission" ->
   match r with
   | GraphRouter.PlanRequest p =>
       GraphRouter.call_graph e u r w =
       bind (PlannerGraph.run_planner u p) (fun x => ret (GraphRouter.PlanResponse x)) w
   | _ =>
       GraphRouter.call_graph e u r w =
       (w, Raise (GraphRouter.validation_error
                    ("Expected PlanMissionRequest, got " ++ GraphRouter.type_name r)
                    "plan_mission"))
   end)
  /\ (GraphRouter.entry_value e = "run_session" ->
      match r with
      | GraphRouter.SessionRequest p =>
          GraphRouter.call_graph e u r w =
          bind (CoachGraph.run_coach u p) (fun x => ret (GraphRouter.SessionResponse x)) w
      | _ =>
          GraphRouter.call_graph e u r w =
          (w, Raise (GraphRouter.validation_error
                       ("Expected RunSessionRequest, got " ++ GraphRouter.type_name r)
                       "run_session"))
      end)
  /\ (GraphRouter.entry_value e = "reflect_period" ->
      match r with
      | GraphRouter.ReflectRequest p =>
          GraphRouter.call_graph e u r w =
          bind (ArchivistGraph.run_archivist u p)
               (fun x => ret (GraphRouter.ReflectResponse x)) w
      | _ =>
          GraphRouter.call_graph e u r w =
          (w, Raise (GraphRouter.validation_error
                       ("Expected ReflectPeriodRequest, got " ++ GraphRouter.type_name r)
                       "reflect_period"))
      end)
  /\ (GraphRouter.entry_value e = "chat" ->
      GraphRouter.call_graph e u r w =
      (w, Raise (GraphRouter.validation_error
                   "Chat should be handled by GlyphAgentService, not the router" "chat")))
  /\ (~ In (GraphRouter.entry_value e)
           ["plan_mission"; "run_session"; "reflect_period"; "chat"] ->
      GraphRouter.call_graph e u r w =
      (w, Raise (GraphRouter.validation_error
                   ("Unknown entrypoint: " ++ GraphRouter.entry_text e)
                   (GraphRouter.entry_text e)))).
Proof.
  intros H.
  assert (L : forall (k : M GraphRouter.Response),
             bind GraphRouter.log_call (fun _ => k) w = k w).
  { intros k. unfold bind at 1. now rewrite (log_call_disabled w H). }
  unfold GraphRouter.call_graph.
  repeat split; intros E.
  - destruct r; rewrite L, E; reflexivity.
  - destruct r; rewrite L, E; reflexivity.
  - destruct r; rewrite L, E; reflexivity.
  - rewrite L, E. reflexivity.
  - rewrite L. cbn [GraphRouter.value].
    destruct (String.eqb_spec (GraphRouter.entry_value e) "plan_mission") as [E1 | _];
      [exfalso; apply E; rewrite E1; cbn; tauto |].
    destruct (String.eqb_spec (GraphRouter.entry_value e) "run_session") as [E1 | _];
      [exfalso; apply E; rewrite E1; cbn; tauto |].
    destruct (String.eqb_spec (GraphRouter.entry_value e) "reflect_period") as [E1 | _];
      [exfalso; apply E; rewrite E1; cbn; tauto |].
    destruct (String.eqb_spec (GraphRouter.entry_value e) "chat") as [E1 | _];
      [exfalso; apply E; rewrite E1; cbn; tauto |].
    reflexivity.
Qed.

Lemma call_graph_validates_witness :
  GraphRouter.call_graph (GraphRouter.Member GraphRouter.RUN_SESSION) "u1"
                         (GraphRouter.OtherRequest "dict") Sample.host
  = (Sample.host,
     Raise (GraphRouter.validation_error
              ("Expected RunSessionRequest, got " ++ "dict") "run_session")).
Proof.
  exact (proj1 (proj2 (call_graph_validates_when_debug_is_off
                         (GraphRouter.Member GraphRouter.RUN_SESSION) "u1"
                         (GraphRouter.OtherRequest "dict") Sample.host eq_refl))
               eq_refl).
Defined.

(** C7: when the logger of the router module has DEBUG enabled, the generic
    dispatch of the router raises a [TypeError] for every entry point and
    every request, before any check of the request and before any graph is
    run: neither a validation error nor a graph response is produced, and
    the repositories are left as they were. *)
Theorem call_graph_raises_type_error_under_debug :
  forall (e : GraphRouter.Entry) (u : string) (r : GraphRouter.Request) (w : World),
    debug_enabled w = true ->
    GraphRouter.call_graph e u r w =
    (w, Raise (TypeError "Logger._log() got an unexpected keyword argument 'entrypoint'")).
Proof.
  intros e u r w H. unfold GraphRouter.call_graph. unfold bind at 1.
  now rewrite (log_call_enabled w H).
Qed.



(** ** Runs on the sample inputs *)

(** A run returns what its second component shows. *)
Lemma returns_of_snd {A} (m : M A) (w : World) (a : A) :
  snd (m w) = Ok a -> returns m w (fst (m w)) a.
Proof. unfold returns. destruct (m w) as [w1 r]. cbn. now intros ->. Qed.

(** Runs a computation on a closed world and names what it returns. *)
Ltac run_returns :=
  match goal with
  | |- exists w' a, returns ?m ?w w' a /\ _ =>
      let r := eval vm_compute in (snd (m w)) in
      match r with
      | Ok ?a1 =>
          exists (fst (m w)), a1;
          split; [apply returns_of_snd; vm_compute; reflexivity |]
      end
  end.

Ltac in_cases :=
  repeat match goal with
         | H : In _ _ |- _ => cbn in H; destruct H as [H | H]; [subst |]
         | H : False |- _ => destruct H
         end.




(** *** The archivist *)

Lemma archivist_block_request_run :
  snd (ArchivistGraph.run_archivist "u1" (Sample.reflect_request ReflectPeriodKind.BLOCK)
                                    Sample.host)
  = Raise (ValueError "'block' is not a valid EpisodeKind")
  /\ snd (ArchivistGraph.run_archivist "u1" (Sample.reflect_request ReflectPeriodKind.WEEK)
                                       Sample.host)
     = Raise (ValueError "'week' is not a valid EpisodeKind").
Proof. split; vm_compute; reflexivity. Qed.

Lemma archivist_raises_witness :
  (ReflectPeriodRequest.kind (Sample.reflect_request ReflectPeriodKind.BLOCK)
   = ReflectPeriodKind.BLOCK
   \/ ReflectPeriodRequest.kind (Sample.reflect_request ReflectPeriodKind.BLOCK)
      = ReflectPeriodKind.WEEK)
  /\ raises (ArchivistGraph.run_archivist
               "u1" (Sample.reflect_request ReflectPeriodKind.BLOCK)) Sample.host.
Proof.
  split; [left; reflexivity |].
  apply archivist_raises_for_block_and_week. left. reflexivity.
Defined.

(** A day without episodes: no block completed, and no completion rate at
    all, where [min(1.0, 0 / 5)] would be [0]. *)
Lemma archivist_no_rate_without_sessions :
  exists w' resp,
    returns (ArchivistGraph.run_archivist "u1" (Sample.reflect_request ReflectPeriodKind.DAY))
            Sample.host w' resp
    /\ ReflectPeriodResponse.blocks_completed resp = 0
    /\ ReflectPeriodResponse.completion_rate resp = None
    /\ capped_fifth 0 == 0.
Proof. run_returns. repeat split. Qed.

Lemma archivist_completion_rate_witness :
  exists w' resp,
    returns (ArchivistGraph.run_archivist "u1" (Sample.reflect_request ReflectPeriodKind.DAY))
            Sample.scenario_B w' resp
    /\ ReflectPeriodResponse.blocks_completed resp = 1
    /\ ReflectPeriodResponse.completion_rate resp
       = (if 0 <? ReflectPeriodResponse.blocks_completed resp
          then Some (capped_fifth (ReflectPeriodResponse.blocks_completed resp))
          else None).
Proof.
  run_returns.
  split; [reflexivity |].
  apply (archivist_completion_rate
           Sample.scenario_B
           (fst (ArchivistGraph.run_archivist
                   "u1" (Sample.reflect_request ReflectPeriodKind.DAY) Sample.scenario_B))
           "u1" (Sample.reflect_request ReflectPeriodKind.DAY)).
  apply returns_of_snd. vm_compute. reflexivity.
Defined.

(** *** Period statistics *)

(** Fifty-one sessions of one minute each lie in the range, and the
    statistics report fifty of each. *)
Lemma period_stats_stop_at_fifty :
  let in_range :=
    in_range_episodes "u1" Sample.day0 Sample.day0 (episodes Sample.fifty_one_sessions) in
  focused_sum in_range = 51
  /\ session_count in_range = 51
  /\ exists st,
       returns (MemoryTools.compute_period_stats "u1" Sample.day0 Sample.day0)
               Sample.fifty_one_sessions Sample.fifty_one_sessions st
       /\ PeriodStats.total_focused_minutes st = 50
       /\ PeriodStats.blocks_completed st = 50.
Proof.
  cbv zeta. split; [vm_compute; reflexivity |]. split; [vm_compute; reflexivity |].
  destruct (period_stats_over_loaded_episodes
              Sample.fifty_one_sessions "u1" Sample.day0 Sample.day0)
    as (st & Hrun & [Hf Hb] & _).
  exists st. split; [exact Hrun |].
  rewrite Hf, Hb. split; vm_compute; reflexivity.
Defined.

(** Scenario B: one session of thirty minutes and a day episode. *)
Lemma period_stats_scenario_B :
  exists st,
    returns (MemoryTools.compute_period_stats "u1" Sample.day0 Sample.day0)
            Sample.scenario_B Sample.scenario_B st
    /\ PeriodStats.total_focused_minutes st = 30
    /\ PeriodStats.blocks_completed st = 1.
Proof.
  eexists. split; [vm_compute; reflexivity |]. split; reflexivity.
Qed.

(** *** The coach *)





Lemma coach_block_without_duration_witness :
  dict_get Block.id "b1" (blocks Sample.block_without_duration)
  = Some (Sample.block "b1" "u1" "m1" BlockStatus.COMPLETED None None)
  /\ snd (CoachGraph.run_coach "u1" (Sample.session_request None (Some "b1") None)
                               Sample.block_without_duration)
     = Raise (TypeError "'>=' not supported between instances of 'NoneType' and 'int'").
Proof.
  split; [reflexivity |].
  apply (coach_raises_on_block_without_duration
           Sample.block_without_duration "u1"
           (Sample.session_request None (Some "b1") None) "b1"
           (Sample.block "b1" "u1" "m1" BlockStatus.COMPLETED None None));
    try reflexivity.
  discriminate.
Defined.

(** *** Block proposal *)

Lemma propose_blocks_witness :
  exists w' bs,
    returns (TimelineTools.propose_blocks_for_mission "m1" None 3 25)
            Sample.mission_only w' bs
    /\ len bs <= Z.max 0 3.
Proof.
  run_returns.
  refine (proj1 (propose_blocks_count_days_off_duration
                   Sample.mission_only
                   (fst (TimelineTools.propose_blocks_for_mission
                           "m1" None 3 25 Sample.mission_only))
                   "m1" None 3 _ _)).
  apply returns_of_snd. vm_compute. reflexivity.
Defined.

(** *** The planner *)

Lemma planner_scenario_A_witness :
  exists w' resp,
    returns (PlannerGraph.run_planner "u1" Sample.scenario_A_request) Sample.host w' resp
    /\ Mission.kind (PlanMissionResponse.mission resp) = MissionKind.OTHER
    /\ map ProposedBlock.sequence_index (PlanMissionResponse.proposed_blocks resp)
       = [0; 1; 2; 3; 4].
Proof.
  destruct (planner_scenario_A Sample.host "u1")
    as (w' & resp & Hrun & _ & Hk & Hi & _).
  - vm_compute. discriminate.
  - vm_compute. discriminate.
  - exists w', resp. repeat split; assumption.
Defined.

(** *** The router *)

Lemma call_graph_debug_witness :
  debug_enabled Sample.host_debug = true
  /\ GraphRouter.call_graph
       (GraphRouter.Member GraphRouter.PLAN_MISSION) "u1"
       (GraphRouter.SessionRequest (Sample.session_request None None None))
       Sample.host_debug
     = (Sample.host_debug,
        Raise (TypeError "Logger._log() got an unexpected keyword argument 'entrypoint'")).
Proof.
  split; [reflexivity |].
  apply call_graph_raises_type_error_under_debug. reflexivity.
Defined.

(* ===================================================================== *)
(** * Further properties of the repositories and tool sets *)
(* ===================================================================== *)

(** ** Dictionaries kept as lists *)

Section DictLaws.
Context {A : Type} (key : A -> string).

Lemma dict_get_set_other (x : A) (l : list A) (k : string) :
  k <> key x -> dict_get key k (dict_set key x l) = dict_get key k l.
Proof.
  intros Hk. unfold dict_get.
  induction l as [| y l IH]; cbn.
  - destruct (String.eqb_spec (key x) k) as [E | _]; [now symmetry in E | reflexivity].
  - destruct (String.eqb_spec (key y) (key x)) as [E | E]; cbn.
    + destruct (String.eqb_spec (key x) k) as [E1 | _]; [now symmetry in E1 |].
      destruct (String.eqb_spec (key y) k) as [E2 | _]; [congruence | reflexivity].
    + destruct (String.eqb (key y) k); [reflexivity | exact IH].
Qed.

Lemma dict_mem_get (k : string) (l : list A) :
  dict_mem key k l = match dict_get key k l with Some _ => true | None => false end.
Proof.
  unfold dict_mem, dict_get.
  induction l as [| y l IH]; cbn; [reflexivity |].
  destruct (String.eqb (key y) k); [reflexivity | exact IH].
Qed.

Lemma dict_get_del_same (k : string) (l : list A) :
  dict_get key k (dict_del key k l) = None.
Proof.
  unfold dict_get, dict_del.
  induction l as [| y l IH]; cbn; [reflexivity |].
  destruct (String.eqb (key y) k) eqn:E; cbn; [exact IH |].
  now rewrite E.
Qed.

Lemma dict_get_del_other (k k' : string) (l : list A) :
  k' <> k -> dict_get key k' (dict_del key k l) = dict_get key k' l.
Proof.
  intros Hk. unfold dict_get, dict_del.
  induction l as [| y l IH]; cbn; [reflexivity |].
  destruct (String.eqb_spec (key y) k) as [E | E]; cbn.
  - destruct (String.eqb_spec (key y) k') as [E' | _]; [congruence | exact IH].
  - destruct (String.eqb (key y) k'); [reflexivity | exact IH].
Qed.

Lemma length_dict_set (x : A) (l : list A) :
  List.length (dict_set key x l)
  = if dict_mem key (key x) l then List.length l else S (List.length l).
Proof.
  unfold dict_mem.
  induction l as [| y l IH]; cbn; [reflexivity |].
  destruct (String.eqb (key y) (key x)); cbn; [reflexivity |].
  rewrite IH. now destruct (existsb _ l).
Qed.

Lemma dict_del_absent (k : string) (l : list A) :
  dict_get key k l = None -> dict_del key k l = l.
Proof.
  unfold dict_get, dict_del.
  induction l as [| y l IH]; cbn; [reflexivity |].
  destruct (String.eqb (key y) k); [discriminate |].
  intros H. cbn. now rewrite IH.
Qed.

End DictLaws.

(** ** The blocks repository *)

(** X1: [create] returns the block it is given; [get] of the block's id
    then returns that block, and [get] of any other id answers as before
    the call; the missions, episodes and profiles are not touched. *)
Theorem blocks_create_then_get :
  forall (w : World) (b : Block.t),
    exists w',
      InMemoryBlocksRepository.create b w = (w', Ok b)
      /\ InMemoryBlocksRepository.get (Block.id b) w' = (w', Ok (Some b))
      /\ (forall k, k <> Block.id b ->
            snd (InMemoryBlocksRepository.get k w')
            = snd (InMemoryBlocksRepository.get k w))
      /\ missions w' = missions w /\ episodes w' = episodes w
      /\ profiles w' = profiles w.
Proof.
  intros w b. exists (set_blocks (dict_set Block.id b (blocks w)) w).
  split; [reflexivity |].
  unfold InMemoryBlocksRepository.get, gets. world_simpl. cbn [snd].
  rewrite dict_get_set_same by reflexivity.
  split; [reflexivity |]. split; [| auto].
  intros k Hk. now rewrite dict_get_set_other.
Qed.

(** X2: [update] of a block whose id is not stored raises [ValueError]
    with the message "Block <id> not found" and leaves the world as it
    was; [update] of a block whose id is stored returns the block, after
    which [get] of that id returns it, [get] of any other id answers as
    before, and the number of stored blocks is the same. *)
Theorem blocks_update_known_or_raises :
  forall (w : World) (b : Block.t),
    match snd (InMemoryBlocksRepository.get (Block.id b) w) with
    | Ok None =>
        InMemoryBlocksRepository.update b w
        = (w, Raise (ValueError ("Block " ++ Block.id b ++ " not found")))
    | _ =>
        exists w',
          InMemoryBlocksRepository.update b w = (w', Ok b)
          /\ InMemoryBlocksRepository.get (Block.id b) w' = (w', Ok (Some b))
          /\ (forall k, k <> Block.id b ->
                snd (InMemoryBlocksRepository.get k w')
                = snd (InMemoryBlocksRepository.get k w))
          /\ List.length (blocks w') = List.length (blocks w)
    end.
Proof.
  intros w b.
  unfold InMemoryBlocksRepository.get, InMemoryBlocksRepository.update, gets, bind.
  cbn [snd]. rewrite dict_mem_get.
  destruct (dict_get Block.id (Block.id b) (blocks w)) as [old |] eqn:E; cbn [negb].
  - exists (set_blocks (dict_set Block.id b (blocks w)) w).
    split; [reflexivity |]. world_simpl. cbn [snd].
    rewrite dict_get_set_same by reflexivity. split; [reflexivity |].
    split.
    + intros k Hk. now rewrite dict_get_set_other.
    + rewrite length_dict_set, dict_mem_get, E. reflexivity.
  - reflexivity.
Qed.

(** X3: [delete] of an id that is not stored returns [False] and leaves the
    world as it was; [delete] of a stored id returns [True], after which
    [get] of that id returns [None] and [get] of any other id answers as
    before. *)
Theorem blocks_delete_then_get :
  forall (w : World) (k : string),
    match snd (InMemoryBlocksRepository.get k w) with
    | Ok None => InMemoryBlocksRepository.delete k w = (w, Ok false)
    | _ =>
        exists w',
          InMemoryBlocksRepository.delete k w = (w', Ok true)
          /\ InMemoryBlocksRepository.get k w' = (w', Ok None)
          /\ (forall k', k' <> k ->
                snd (InMemoryBlocksRepository.get k' w')
                = snd (InMemoryBlocksRepository.get k' w))
          /\ (List.length (blocks w') < List.length (blocks w))%nat
    end.
Proof.
  intros w k.
  unfold InMemoryBlocksRepository.get, InMemoryBlocksRepository.delete, gets, bind.
  cbn [snd]. rewrite dict_mem_get.
  destruct (dict_get Block.id k (blocks w)) as [old |] eqn:E; cbn [negb].
  - exists (set_blocks (dict_del Block.id k (blocks w)) w).
    split; [reflexivity |]. world_simpl. cbn [snd].
    rewrite dict_get_del_same. split; [reflexivity |].
    split.
    + intros k' Hk. now rewrite dict_get_del_other.
    + unfold dict_del, dict_get in *.
      induction (blocks w) as [| y l IH]; [discriminate |].
      cbn in *. destruct (String.eqb (Block.id y) k); cbn.
      * pose proof (filter_length_le
                      (fun y0 => negb (String.eqb (Block.id y0) k)) l). lia.
      * apply IH in E. lia.
  - reflexivity.
Qed.

(** ** Sorting and extremal elements *)

Section OrderLaws.
Context {A : Type} (ltb : A -> A -> bool).

(** The order is the strict part of a total preorder: it is asymmetric,
    and "not below" is transitive. *)
Hypothesis ltb_asym : forall a b, ltb a b = true -> ltb b a = false.
Hypothesis ltb_trans :
  forall a b c, ltb b a = false -> ltb c b = false -> ltb c a = false.

Lemma insert_sorted_ordered (x : A) (l : list A) :
  ForallOrdPairs (fun a b => ltb b a = false) l ->
  ForallOrdPairs (fun a b => ltb b a = false) (insert_sorted ltb x l).
Proof.
  induction 1 as [| y l Hy Hl IH]; cbn.
  - constructor; constructor.
  - destruct (ltb x y) eqn:E.
    + constructor; [| now constructor].
      constructor; [now apply ltb_asym |].
      rewrite List.Forall_forall in *. intros z Hz.
      apply (ltb_trans x y z); [now apply ltb_asym | now apply Hy].
    + constructor; [| exact IH].
      rewrite List.Forall_forall in *. intros z Hz.
      apply In_insert_sorted in Hz. destruct Hz as [-> | Hz]; [exact E | now apply Hy].
Qed.

Lemma sort_by_ordered (l : list A) :
  ForallOrdPairs (fun a b => ltb b a = false) (sort_by ltb l).
Proof.
  unfold sort_by.
  assert (G : forall acc,
             ForallOrdPairs (fun a b => ltb b a = false) acc ->
             ForallOrdPairs (fun a b => ltb b a = false)
                            (fold_left (fun acc x => insert_sorted ltb x acc) l acc)).
  { induction l as [| x l IH]; intros acc Hacc; cbn; [exact Hacc |].
    apply IH. now apply insert_sorted_ordered. }
  apply G. constructor.
Qed.

Lemma max_from_spec (l : list A) : forall cur,
  In (max_from ltb cur l) (cur :: l)
  /\ forall y, In y (cur :: l) -> ltb (max_from ltb cur l) y = false.
Proof.
  induction l as [| x l IH]; intros cur; cbn [max_from].
  - split; [now left |]. intros y [<- | []].
    destruct (ltb cur cur) eqn:E; [| reflexivity].
    now rewrite (ltb_asym _ _ E) in E.
  - destruct (IH (if ltb cur x then x else cur)) as [Hin Hmax].
    split.
    + destruct Hin as [Hin | Hin]; [| right; now right].
      destruct (ltb cur x); [right; now left | now left].
    + intros y [<- | [<- | Hy]].
      * destruct (ltb cur x) eqn:E.
        -- apply (ltb_trans cur x); [| now apply Hmax; left].
           now apply ltb_asym.
        -- apply Hmax. now left.
      * destruct (ltb cur x) eqn:E.
        -- apply Hmax. now left.
        -- apply (ltb_trans x cur); [exact E | now apply Hmax; left].
      * apply Hmax. now right.
Qed.

Lemma min_from_spec (l : list A) : forall cur,
  In (min_from ltb cur l) (cur :: l)
  /\ forall y, In y (cur :: l) -> ltb y (min_from ltb cur l) = false.
Proof.
  induction l as [| x l IH]; intros cur; cbn [min_from].
  - split; [now left |]. intros y [<- | []].
    destruct (ltb cur cur) eqn:E; [| reflexivity].
    now rewrite (ltb_asym _ _ E) in E.
  - destruct (IH (if ltb x cur then x else cur)) as [Hin Hmin].
    split.
    + destruct Hin as [Hin | Hin]; [| right; now right].
      destruct (ltb x cur); [right; now left | now left].
    + intros y [<- | [<- | Hy]].
      * destruct (ltb x cur) eqn:E.
        -- apply (ltb_trans _ x); [now apply Hmin; left |].
           now apply ltb_asym.
        -- apply Hmin. now left.
      * destruct (ltb x cur) eqn:E.
        -- apply Hmin. now left.
        -- apply (ltb_trans _ cur); [now apply Hmin; left | exact E].
      * apply Hmin. now right.
Qed.

End OrderLaws.

Lemma ForallOrdPairs_firstn {A} (R : A -> A -> Prop) (n : nat) (l : list A) :
  ForallOrdPairs R l -> ForallOrdPairs R (firstn n l).
Proof.
  intros H. revert n. induction H as [| a l Ha Hl IH]; intros [| n]; cbn;
    try constructor.
  - rewrite List.Forall_forall in *. intros x Hx. apply Ha.
    rewrite <- (firstn_skipn n l). apply in_or_app. now left.
  - apply IH.
Qed.

Lemma datetime_ltb_asym (a b : datetime) :
  datetime_ltb a b = true -> datetime_ltb b a = false.
Proof. unfold datetime_ltb. lia. Qed.

Lemma datetime_ltb_trans (a b c : datetime) :
  datetime_ltb b a = false -> datetime_ltb c b = false -> datetime_ltb c a = false.
Proof. unfold datetime_ltb. lia. Qed.

Lemma mission_order_asym (a b : Block.t) :
  InMemoryBlocksRepository.mission_order a b = true ->
  InMemoryBlocksRepository.mission_order b a = false.
Proof. unfold InMemoryBlocksRepository.mission_order, datetime_ltb. lia. Qed.

Lemma mission_order_trans (a b c : Block.t) :
  InMemoryBlocksRepository.mission_order b a = false ->
  InMemoryBlocksRepository.mission_order c b = false ->
  InMemoryBlocksRepository.mission_order c a = false.
Proof. unfold InMemoryBlocksRepository.mission_order, datetime_ltb. lia. Qed.

(** ** Listing and choosing blocks and missions *)

Lemma clash_spec {A} (r : A -> A -> bool) (l : list A) :
  existsb (fun a => existsb (r a) l) l = true
  <-> exists a b, In a l /\ In b l /\ r a b = true.
Proof.
  rewrite existsb_exists. split.
  - intros (a & Ha & H). apply existsb_exists in H. destruct H as (b & Hb & H).
    now exists a, b.
  - intros (a & b & Ha & Hb & H). exists a. split; [exact Ha |].
    apply existsb_exists. now exists b.
Qed.

Lemma no_clash_spec {A} (r : A -> A -> bool) (l : list A) :
  existsb (fun a => existsb (r a) l) l = false
  <-> forall a b, In a l -> In b l -> r a b = false.
Proof.
  split.
  - intros H a b Ha Hb. destruct (r a b) eqn:E; [| reflexivity].
    assert (T : existsb (fun a => existsb (r a) l) l = true)
      by (apply clash_spec; now exists a, b).
    congruence.
  - intros H. destruct (existsb _ l) eqn:E; [| reflexivity].
    apply clash_spec in E. destruct E as (a & b & Ha & Hb & E).
    rewrite (H a b Ha Hb) in E. discriminate.
Qed.


Lemma get_current_block_selection :
  forall (w : World) (u : string),
    let key b := or_datetime (Block.actual_start b) datetime_min in
    let mine b :=
      In b (blocks w) /\ Block.user_id b = u
      /\ Block.status b = BlockStatus.IN_PROGRESS in
    fst (InMemoryBlocksRepository.get_current_block u w) = w
    /\ match snd (InMemoryBlocksRepository.get_current_block u w) with
       | Ok None => no_block_in_progress w u
       | Ok (Some b) =>
           mine b
           /\ forall b', mine b' ->
                dt_aware (key b') = dt_aware (key b)
                /\ datetime_ltb (key b) (key b') = false
       | Raise e =>
           e = naive_with_aware
           /\ exists b1 b2,
                mine b1 /\ mine b2 /\ dt_aware (key b1) <> dt_aware (key b2)
       end.
Proof.
  intros w u key mine.
  unfold InMemoryBlocksRepository.get_current_block, bind, gets.
  set (p := fun b => String.eqb (Block.user_id b) u
                     && BlockStatus.eqb (Block.status b) BlockStatus.IN_PROGRESS).
  assert (Hp : forall b, In b (List.filter p (blocks w)) <-> mine b).
  { intros b. unfold p, mine.
    rewrite filter_In, andb_true_iff, String.eqb_eq, block_status_eqb_eq. tauto. }
  destruct (List.filter p (blocks w)) as [| b rest] eqn:E; cbn [fst snd ret].
  - split; [reflexivity |].
    intros b Hb Hu Hs.
    assert (Hin : In b []) by (apply Hp; unfold mine; tauto).
    destruct Hin.
  - fold (key b).
    destruct (forallb _ rest) eqn:F; cbn [fst snd ret raise].
    + split; [reflexivity |].
      assert (Hall : forall x, In x (b :: rest) -> dt_aware (key x) = dt_aware (key b)).
      { intros x [<- | Hx]; [reflexivity |].
        rewrite forallb_forall in F. specialize (F x Hx).
        unfold comparable in F. apply eqb_prop in F. now symmetry. }
      set (o := fun x y : Block.t => datetime_ltb (key x) (key y)).
      destruct (max_from_spec o
                  (fun a b => datetime_ltb_asym _ _)
                  (fun a b c => datetime_ltb_trans _ _ _) rest b) as [Hin Hmax].
      split; [now apply Hp |].
      intros b' Hb'. apply Hp in Hb'. split.
      * etransitivity; [exact (Hall _ Hb') | symmetry; exact (Hall _ Hin)].
      * now apply Hmax.
    + split; [reflexivity |]. split; [reflexivity |].
      assert (Hx : exists x, In x rest /\ comparable (key b) (key x) = false).
      { clear - F. induction rest as [| y rest IH]; [discriminate |].
        cbn [forallb] in F. apply andb_false_iff in F. destruct F as [F | F].
        - exists y. split; [now left | exact F].
        - destruct (IH F) as (x & Hx & Hc). exists x. split; [now right | exact Hc]. }
      destruct Hx as (x & Hx & Hc).
      exists b, x. split; [apply Hp; now left |]. split; [apply Hp; now right |].
      unfold comparable in Hc. now apply eqb_false_iff in Hc.
Qed.

(** X5: [get_current_block] leaves the world as it was.  It returns
    [None] exactly when the user has no block in progress.  It raises
    [TypeError] exactly when two blocks in progress of the user have
    starts of which one is naive ([datetime.min] standing for a missing
    [actual_start]) and the other aware, as the starts stamped by
    [start_block] are.  Otherwise it returns a stored block of the user
    that is in progress and whose start is not before that of any other
    block in progress of the user. *)
Theorem get_current_block_is_latest_in_progress :
  forall (w : World) (u : string),
    let key b := or_datetime (Block.actual_start b) datetime_min in
    let mine b :=
      In b (blocks w) /\ Block.user_id b = u
      /\ Block.status b = BlockStatus.IN_PROGRESS in
    fst (InMemoryBlocksRepository.get_current_block u w) = w
    /\ match snd (InMemoryBlocksRepository.get_current_block u w) with
       | Ok None => no_block_in_progress w u
       | Ok (Some b) =>
           mine b
           /\ forall b', mine b' ->
                dt_aware (key b') = dt_aware (key b)
                /\ datetime_ltb (key b) (key b') = false
       | Raise e =>
           e = naive_with_aware
           /\ exists b1 b2,
                mine b1 /\ mine b2 /\ dt_aware (key b1) <> dt_aware (key b2)
       end.
Proof. exact get_current_block_selection. Qed.

Lemma active_mission_selection :
  forall (w : World) (u : string),
    fst (InMemoryMissionsRepository.get_active_mission u w) = w
    /\ match snd (InMemoryMissionsRepository.get_active_mission u w) with
       | Ok None => no_active_mission w u
       | Ok (Some m) =>
           In m (missions w) /\ Mission.user_id m = u
           /\ Mission.status m = MissionStatus.ACTIVE
           /\ forall m',
                In m' (missions w) -> Mission.user_id m' = u ->
                Mission.status m' = MissionStatus.ACTIVE ->
                datetime_ltb (Mission.updated_at m) (Mission.updated_at m') = false
       | Raise _ => False
       end.
Proof.
  intros w u.
  unfold InMemoryMissionsRepository.get_active_mission, bind, gets.
  set (p := fun m => String.eqb (Mission.user_id m) u
                     && MissionStatus.eqb (Mission.status m) MissionStatus.ACTIVE).
  assert (Hp : forall m, p m = true <->
                         Mission.user_id m = u /\ Mission.status m = MissionStatus.ACTIVE).
  { intros m. unfold p. rewrite andb_true_iff, String.eqb_eq, mission_status_eqb_eq.
    tauto. }
  destruct (List.filter p (missions w)) as [| m rest] eqn:E; cbn [fst snd ret].
  - split; [reflexivity |].
    intros m Hm Hu Hs.
    assert (Hin : In m (List.filter p (missions w)))
      by (apply filter_In; split; [exact Hm | now apply Hp]).
    rewrite E in Hin. destruct Hin.
  - split; [reflexivity |].
    set (o := fun x y : Mission.t =>
                datetime_ltb (Mission.updated_at x) (Mission.updated_at y)).
    destruct (max_from_spec o
                (fun a b => datetime_ltb_asym _ _)
                (fun a b c => datetime_ltb_trans _ _ _) rest m) as [Hin Hmax].
    rewrite <- E in Hin, Hmax.
    apply filter_In in Hin. destruct Hin as [Hin Hq]. apply Hp in Hq.
    split; [exact Hin |]. split; [tauto |]. split; [tauto |].
    intros m' Hm' Hu Hs. apply Hmax. apply filter_In.
    split; [exact Hm' | now apply Hp].
Qed.

(** X6: [get_active_mission] leaves the world as it was; it returns [None]
    exactly when the user has no active mission, and otherwise a stored
    active mission of the user whose [updated_at] is not before that of
    any other active mission of the user. *)
Theorem get_active_mission_is_latest_active :
  forall (w : World) (u : string),
    fst (InMemoryMissionsRepository.get_active_mission u w) = w
    /\ match snd (InMemoryMissionsRepository.get_active_mission u w) with
       | Ok None => no_active_mission w u
       | Ok (Some m) =>
           In m (missions w) /\ Mission.user_id m = u
           /\ Mission.status m = MissionStatus.ACTIVE
           /\ forall m',
                In m' (missions w) -> Mission.user_id m' = u ->
                Mission.status m' = MissionStatus.ACTIVE ->
                datetime_ltb (Mission.updated_at m) (Mission.updated_at m') = false
       | Raise _ => False
       end.
Proof. exact active_mission_selection. Qed.

(** ** The profile repository *)

Lemma assoc_get_set_same (k : string) (v : UserProfile.t)
      (l : list (string * UserProfile.t)) :
  InMemoryUserProfileRepository.assoc_get
    k (InMemoryUserProfileRepository.assoc_set k v l) = Some v.
Proof.
  unfold InMemoryUserProfileRepository.assoc_get.
  induction l as [| [k' v'] l IH]; cbn.
  - now rewrite String.eqb_refl.
  - destruct (String.eqb k' k) eqn:E; cbn.
    + now rewrite String.eqb_refl.
    + rewrite E. exact IH.
Qed.

Lemma assoc_get_set_other (k k' : string) (v : UserProfile.t)
      (l : list (string * UserProfile.t)) :
  k' <> k ->
  InMemoryUserProfileRepository.assoc_get
    k' (InMemoryUserProfileRepository.assoc_set k v l)
  = InMemoryUserProfileRepository.assoc_get k' l.
Proof.
  intros Hk. unfold InMemoryUserProfileRepository.assoc_get.
  induction l as [| [k0 v0] l IH]; cbn.
  - destruct (String.eqb_spec k k') as [E | _]; [now symmetry in E | reflexivity].
  - destruct (String.eqb_spec k0 k) as [E | E]; cbn.
    + destruct (String.eqb_spec k k') as [E1 | _]; [now symmetry in E1 |].
      destruct (String.eqb_spec k0 k') as [E2 | _]; [congruence | reflexivity].
    + destruct (String.eqb k0 k'); [reflexivity | exact IH].
Qed.

(** X7: [get_or_create] never raises; a second call right after the first
    returns the same profile and changes nothing, not even the clock; the
    first call changes the world only when the user had no profile, and
    the profiles of the other users are never touched. *)
Theorem get_or_create_is_idempotent :
  forall (w : World) (u : string),
    exists w1 p,
      InMemoryUserProfileRepository.get_or_create u w = (w1, Ok p)
      /\ InMemoryUserProfileRepository.get_or_create u w1 = (w1, Ok p)
      /\ InMemoryUserProfileRepository.get u w1 = (w1, Ok (Some p))
      /\ (forall q, snd (InMemoryUserProfileRepository.get u w) = Ok (Some q) ->
            w1 = w /\ p = q)
      /\ (forall u', u' <> u ->
            snd (InMemoryUserProfileRepository.get u' w1)
            = snd (InMemoryUserProfileRepository.get u' w))
      /\ missions w1 = missions w /\ blocks w1 = blocks w
      /\ episodes w1 = episodes w.
Proof.
  intros w u.
  unfold InMemoryUserProfileRepository.get_or_create,
    InMemoryUserProfileRepository.get, bind, gets.
  destruct (InMemoryUserProfileRepository.assoc_get u (profiles w)) as [q |] eqn:E.
  - exists w, q. cbn [ret snd]. rewrite E.
    split; [reflexivity |]. split; [reflexivity |]. split; [reflexivity |].
    split; [intros q' Hq; now injection Hq as -> |].
    auto.
  - cbv beta iota zeta delta [now_utc modify ret].
    do 2 eexists. split; [reflexivity |].
    world_simpl. cbn [snd]. rewrite !assoc_get_set_same.
    split; [reflexivity |]. split; [reflexivity |].
    split; [intros q Hq; discriminate |].
    split; [| auto].
    intros u' Hu. now rewrite assoc_get_set_other.
Qed.

(** ** Pages of missions *)

Lemma firstn_plus {A} (n m : nat) (l : list A) :
  firstn (n + m) l = (firstn n l ++ firstn m (skipn n l))%list.
Proof.
  revert l. induction n as [| n IH]; intros l; [reflexivity |].
  destruct l as [| x l]; cbn; [now destruct m |].
  now rewrite IH.
Qed.

Lemma skipn_plus {A} (n m : nat) (l : list A) :
  skipn (n + m) l = skipn m (skipn n l).
Proof.
  revert l. induction n as [| n IH]; intros l; [reflexivity |].
  destruct l as [| x l]; cbn; [now destruct m |].
  apply IH.
Qed.

Lemma py_slice_nat {A} (a b : Z) (l : list A) :
  0 <= a -> 0 <= b ->
  py_slice a b l
  = firstn (Nat.min (Z.to_nat b) (List.length l) - Nat.min (Z.to_nat a) (List.length l))
           (skipn (Nat.min (Z.to_nat a) (List.length l)) l).
Proof.
  intros Ha Hb. unfold py_slice, clamp_index.
  destruct (Z.ltb_spec a 0) as [? | _]; [lia |].
  destruct (Z.ltb_spec b 0) as [? | _]; [lia |].
  f_equal; [| f_equal]; lia.
Qed.

Lemma py_slice_pages {A} (off n m : Z) (l : list A) :
  0 <= off -> 0 <= n -> 0 <= m ->
  (py_slice off (off + n) l ++ py_slice (off + n) (off + n + m) l)%list
  = py_slice off (off + n + m) l.
Proof.
  intros Ho Hn Hm. rewrite !py_slice_nat by lia.
  set (N := List.length l).
  set (i := Nat.min (Z.to_nat off) N).
  set (j := Nat.min (Z.to_nat (off + n)) N).
  set (k := Nat.min (Z.to_nat (off + n + m)) N).
  assert (Hij : (i <= j)%nat) by lia.
  assert (Hjk : (j <= k)%nat) by lia.
  replace (k - i)%nat with ((j - i) + (k - j))%nat by lia.
  rewrite firstn_plus. f_equal. f_equal.
  rewrite <- skipn_plus. f_equal. lia.
Qed.

(** X8: [list_for_user] of the missions repository leaves the world as it
    was, and its pages fit together: for an offset and two limits that
    are not negative, the page of [n] missions at [offset] followed by the
    page of [m] missions at [offset + n] is the page of [n + m] missions
    at [offset]; every mission on a page is a stored mission of the user
    with the status asked for. *)
Theorem missions_pages_concatenate :
  forall (w : World) (u : string) (status : option MissionStatus.t)
         (offset n m : Z),
    0 <= offset -> 0 <= n -> 0 <= m ->
    exists p1 p2,
      InMemoryMissionsRepository.list_for_user u status n offset w = (w, Ok p1)
      /\ InMemoryMissionsRepository.list_for_user u status m (offset + n) w
         = (w, Ok p2)
      /\ InMemoryMissionsRepository.list_for_user u status (n + m) offset w
         = (w, Ok (p1 ++ p2)%list)
      /\ forall x, In x (p1 ++ p2)%list ->
           In x (missions w) /\ Mission.user_id x = u
           /\ match status with Some s => Mission.status x = s | None => True end.
Proof.
  intros w u status offset n m Ho Hn Hm.
  unfold InMemoryMissionsRepository.list_for_user, bind, gets, ret.
  do 2 eexists. split; [reflexivity |]. split; [reflexivity |].
  rewrite py_slice_pages by assumption.
  split; [now rewrite Z.add_assoc |].
  intros x Hx.
  rewrite py_slice_nat in Hx by lia.
  match type of Hx with
  | In x (firstn ?a (skipn ?b ?s)) =>
      assert (Hs : In x s)
  end.
  { match type of Hx with
    | In x (firstn ?a (skipn ?b ?s)) =>
        rewrite <- (firstn_skipn b s); apply in_or_app; right;
        rewrite <- (firstn_skipn a (skipn b s)); apply in_or_app; now left
    end. }
  apply In_sort_by, filter_In in Hs. destruct Hs as [Hin Hw].
  apply andb_true_iff in Hw. destruct Hw as [H1 H2].
  split; [exact Hin |]. split; [now apply String.eqb_eq |].
  destruct status; [now apply mission_status_eqb_eq | exact I].
Qed.

Lemma missions_pages_witness :
  exists p1 p2,
    InMemoryMissionsRepository.list_for_user "u1" None 1 0 Sample.other_block_in_progress
    = (Sample.other_block_in_progress, Ok p1)
    /\ InMemoryMissionsRepository.list_for_user "u1" None 1 1 Sample.other_block_in_progress
       = (Sample.other_block_in_progress, Ok p2)
    /\ InMemoryMissionsRepository.list_for_user "u1" None 2 0 Sample.other_block_in_progress
       = (Sample.other_block_in_progress, Ok (p1 ++ p2)%list)
    /\ List.length (p1 ++ p2)%list = 2%nat.
Proof.
  destruct (missions_pages_concatenate
              Sample.other_block_in_progress "u1" None 0 1 1)
    as (p1 & p2 & H1 & H2 & H3 & _); try lia.
  exists p1, p2. split; [exact H1 |]. split; [exact H2 |]. split; [exact H3 |].
  injection H1 as <-. injection H2 as <-. reflexivity.
Defined.

(** ** What the graphs and tools leave alone *)

Section Preserves.
Variable R : World -> World -> Prop.
Hypothesis R_refl : forall w, R w w.
Hypothesis R_trans : forall a b c, R a b -> R b c -> R a c.

Lemma preserves_ret {A} (a : A) : preserves R (ret a).
Proof. intros w. apply R_refl. Qed.

Lemma preserves_raise {A} (e : exn) : preserves R (@raise A e).
Proof. intros w. apply R_refl. Qed.

Lemma preserves_lift {A} (r : result A) : preserves R (lift r).
Proof. intros w. apply R_refl. Qed.

Lemma preserves_gets {A} (f : World -> A) : preserves R (gets f).
Proof. intros w. apply R_refl. Qed.

Lemma preserves_bind {A B} (m : M A) (k : A -> M B) :
  preserves R m -> (forall a, preserves R (k a)) -> preserves R (bind m k).
Proof.
  intros Hm Hk w. unfold bind.
  specialize (Hm w). destruct (m w) as [w1 [a | e]]; cbn in *.
  - apply (R_trans _ w1); [exact Hm | apply Hk].
  - exact Hm.
Qed.

Lemma preserves_modify (f : World -> World) :
  (forall w, R w (f w)) -> preserves R (modify f).
Proof. intros H w. apply H. Qed.

Lemma preserves_new_id :
  (forall w n, R w (set_ids_drawn n w)) -> preserves R new_id.
Proof. intros H w. apply H. Qed.

Lemma preserves_now_utc :
  (forall w n, R w (set_clock_reads n w)) -> preserves R now_utc.
Proof. intros H w. apply H. Qed.

End Preserves.

Create HintDb model discriminated.

#[local] Hint Unfold
  InMemoryMissionsRepository.create InMemoryMissionsRepository.get
  InMemoryMissionsRepository.get_active_mission
  InMemoryBlocksRepository.create InMemoryBlocksRepository.get
  InMemoryBlocksRepository.update InMemoryBlocksRepository.list_for_mission
  InMemoryBlocksRepository.list_for_user_date
  InMemoryBlocksRepository.get_current_block
  InMemoryEpisodesRepository.create InMemoryEpisodesRepository.list_for_user
  InMemoryUserProfileRepository.update InMemoryUserProfileRepository.get_or_create
  MissionTools.create_mission MissionTools.get_mission
  MissionTools.get_active_mission MissionTools.find_similar_missions
  TimelineTools.propose_blocks_for_mission TimelineTools.create_block
  TimelineTools.start_block TimelineTools.get_block
  TimelineTools.get_today_blocks TimelineTools.get_current_block
  TimelineTools.get_next_planned_block
  MemoryTools.save_episode MemoryTools.get_episodes_for_period
  MemoryTools.get_user_profile MemoryTools.update_user_stats
  MemoryTools.compute_period_stats
  PlannerGraph.run_planner PlannerGraph.invoke PlannerGraph._check_history
  PlannerGraph._build_mission PlannerGraph._propose_blocks
  PlannerGraph._summarize
  CoachGraph.run_coach CoachGraph.invoke CoachGraph._load_context
  CoachGraph._decide_block CoachGraph.decide_next CoachGraph._generate_brief
  CoachGraph._start_session
  ArchivistGraph.run_archivist ArchivistGraph.invoke
  ArchivistGraph._load_period_data ArchivistGraph._compute_stats
  ArchivistGraph._identify_patterns ArchivistGraph._write_episode
  ArchivistGraph._update_profile ArchivistGraph._build_summary
  : model.

(** Walks through a computation of the model: [refl] and [trans] are the
    proofs that the relation is reflexive and transitive, [base] solves
    the goals about single writes, [known] those about loops. *)
Ltac frame refl trans base known :=
  repeat (autounfold with model; cbv zeta;
          first
            [ apply (preserves_bind _ trans); [| intros ?]
            | apply (preserves_ret _ refl)
            | apply (preserves_raise _ refl)
            | apply (preserves_lift _ refl)
            | apply (preserves_gets _ refl)
            | apply preserves_modify; base
            | apply preserves_new_id; base
            | apply preserves_now_utc; base
            | known
            | match goal with
              | |- preserves _ (match ?x with _ => _ end) => destruct x
              | |- preserves _ (if ?b then _ else _) => destruct b
              end ]).

(** The stores a planner run must not touch. *)
Lemma propose_loop_preserves (R : World -> World -> Prop) :
  (forall w, R w w) -> (forall a b c, R a b -> R b c -> R a c) ->
  (forall w n, R w (set_ids_drawn n w)) ->
  forall mission mission_id start duration indices blocks,
    preserves R (TimelineTools.propose_loop mission mission_id start duration
                                            indices blocks).
Proof.
  intros refl trans Hid mission mission_id start duration indices.
  induction indices as [| i rest IH]; intros blocks; cbn [TimelineTools.propose_loop].
  - apply (preserves_ret _ refl).
  - frame refl trans ltac:(exact Hid) ltac:(apply IH).
Qed.

Lemma propose_loop_ids mission mission_id start duration indices :
  forall blocks w w' bs,
    TimelineTools.propose_loop mission mission_id start duration indices blocks w
    = (w', Ok bs) ->
    (ids_drawn w' + List.length blocks = ids_drawn w + List.length bs)%nat.
Proof.
  induction indices as [| i rest IH]; intros blocks w w' bs H;
    cbn [TimelineTools.propose_loop] in H.
  - unfold ret in H. now injection H as <- <-.
  - apply bind_inv in H. destruct H as (w1 & d & Hd & H).
    unfold lift in Hd. injection Hd as <- Hd.
    destruct (match MissionConstraints.days_off (Mission.constraints mission) with
              | [] => false
              | _ :: _ => mem_int (weekday d)
                            (MissionConstraints.days_off (Mission.constraints mission))
              end).
    + now apply IH in H.
    + apply bind_inv in H. destruct H as (w2 & fresh & Hf & H).
      unfold new_id in Hf. injection Hf as <- <-.
      apply bind_inv in H. destruct H as (w3 & b & Hb & H).
      unfold lift in Hb. injection Hb as <- Hb.
      apply IH in H. rewrite length_app in H. cbn in H. lia.
Qed.

(** X9: block proposal stores nothing.  Whatever
    [propose_blocks_for_mission] returns or raises, the missions, blocks,
    episodes, profiles and the semantic memory are as before, and the
    clock has not been read; only fresh identifiers have been drawn, and
    when a list is returned, exactly one for each block of the list. *)
Theorem propose_blocks_stores_nothing :
  forall (w : World) (mission_id : string) (start_date : option date)
         (num_blocks default_duration : Z),
    let run := TimelineTools.propose_blocks_for_mission
                 mission_id start_date num_blocks default_duration w in
    missions (fst run) = missions w /\ blocks (fst run) = blocks w
    /\ episodes (fst run) = episodes w /\ profiles (fst run) = profiles w
    /\ semantic_memory (fst run) = semantic_memory w
    /\ clock_reads (fst run) = clock_reads w
    /\ forall bs, snd run = Ok bs ->
         ids_drawn (fst run) = (ids_drawn w + List.length bs)%nat.
Proof.
  intros w mission_id start_date num_blocks default_duration run.
  set (R := fun a b : World =>
              missions b = missions a /\ blocks b = blocks a
              /\ episodes b = episodes a /\ profiles b = profiles a
              /\ semantic_memory b = semantic_memory a
              /\ clock_reads b = clock_reads a).
  assert (refl : forall a, R a a) by (intros a; unfold R; tauto).
  assert (trans : forall a b c, R a b -> R b c -> R a c).
  { unfold R. intros a b c (H1 & H2 & H3 & H4 & H5 & H6) (G1 & G2 & G3 & G4 & G5 & G6).
    repeat split; congruence. }
  assert (Hid : forall a n, R a (set_ids_drawn n a)) by (intros a n; unfold R; cbn; tauto).
  assert (H : preserves R (TimelineTools.propose_blocks_for_mission
                             mission_id start_date num_blocks default_duration)).
  { frame refl trans ltac:(exact Hid)
          ltac:(apply (propose_loop_preserves R refl trans Hid)). }
  destruct (H w) as (H1 & H2 & H3 & H4 & H5 & H6). fold run in H1, H2, H3, H4, H5, H6.
  repeat (split; [assumption |]).
  intros bs Hbs. subst run.
  destruct (TimelineTools.propose_blocks_for_mission
              mission_id start_date num_blocks default_duration w) as [w' r] eqn:E.
  cbn in Hbs. subst r. cbn [fst].
  unfold TimelineTools.propose_blocks_for_mission in E.
  apply bind_inv in E. destruct E as (w1 & m & Hm & E).
  unfold InMemoryMissionsRepository.get, gets in Hm. injection Hm as <- <-.
  destruct (dict_get Mission.id mission_id (missions w)) as [mission |].
  - apply bind_inv in E. destruct E as (w2 & start & Hs & E).
    assert (w2 = w) as ->
        by (destruct start_date; unfold ret, gets in Hs; now injection Hs as <- <-).
    apply propose_loop_ids in E. cbn in E. lia.
  - unfold ret in E. injection E as <- <-. cbn. lia.
Qed.

Ltac frame_write R :=
  intros; unfold R;
  repeat match goal with
         | |- context [match ?x with _ => _ end] => destruct x
         end;
  cbn; tauto.

(** X10: a planner run stores nothing but the mission.  Whatever
    [run_planner] returns or raises, the blocks, the episodes and the
    profiles are as before: the blocks it proposes are not saved. *)
Theorem planner_stores_no_block :
  forall (w : World) (u : string) (req : PlanMissionRequest.t),
    let w' := fst (PlannerGraph.run_planner u req w) in
    blocks w' = blocks w /\ episodes w' = episodes w /\ profiles w' = profiles w.
Proof.
  intros w u req.
  set (R := fun a b : World =>
              blocks b = blocks a /\ episodes b = episodes a
              /\ profiles b = profiles a).
  assert (refl : forall a, R a a) by (intros a; unfold R; tauto).
  assert (trans : forall a b c, R a b -> R b c -> R a c).
  { unfold R. intros a b c (H1 & H2 & H3) (G1 & G2 & G3). repeat split; congruence. }
  assert (H : preserves R (PlannerGraph.run_planner u req)).
  { frame refl trans ltac:(frame_write R)
          ltac:(apply (propose_loop_preserves R refl trans); frame_write R). }
  exact (H w).
Qed.

Lemma block_ids_kept_set (w : World) (b : Block.t) :
  block_ids_kept w (set_blocks (dict_set Block.id b (blocks w)) w).
Proof.
  intros k Hk. cbn [blocks set_blocks]. rewrite dict_mem_get in *.
  destruct (String.eqb_spec k (Block.id b)) as [-> | Hne].
  - now rewrite dict_get_set_same.
  - now rewrite dict_get_set_other.
Qed.

(** X11: a coach run never touches the missions, the episodes, the
    profiles or the semantic memory, whatever it returns or raises; and
    it never removes a block: every block id stored before the run is
    stored after it. *)
Theorem coach_touches_only_blocks :
  forall (w : World) (u : string) (req : RunSessionRequest.t),
    let w' := fst (CoachGraph.run_coach u req w) in
    missions w' = missions w /\ episodes w' = episodes w
    /\ profiles w' = profiles w /\ semantic_memory w' = semantic_memory w
    /\ block_ids_kept w w'.
Proof.
  intros w u req.
  set (R := fun a b : World =>
              missions b = missions a /\ episodes b = episodes a
              /\ profiles b = profiles a /\ semantic_memory b = semantic_memory a).
  assert (refl : forall a, R a a) by (intros a; unfold R; tauto).
  assert (trans : forall a b c, R a b -> R b c -> R a c).
  { unfold R. intros a b c (H1 & H2 & H3 & H4) (G1 & G2 & G3 & G4).
    repeat split; congruence. }
  assert (H : preserves R (CoachGraph.run_coach u req)).
  { frame refl trans ltac:(frame_write R) fail. }
  assert (refl' : forall a, block_ids_kept a a) by (intros a k Hk; exact Hk).
  assert (trans' : forall a b c,
             block_ids_kept a b -> block_ids_kept b c -> block_ids_kept a c)
    by (intros a b c H1 H2 k Hk; auto).
  assert (H' : preserves block_ids_kept (CoachGraph.run_coach u req)).
  { frame refl' trans'
          ltac:(intros;
                first [ apply block_ids_kept_set
                      | let k := fresh "k" in
                        let Hk := fresh "Hk" in
                        intros k Hk; exact Hk ])
          fail. }
  destruct (H w) as (H1 & H2 & H3 & H4).
  repeat (split; [assumption |]). exact (H' w).
Qed.

(** X12: an archivist run never touches the missions or the blocks,
    whatever it returns or raises. *)
Theorem archivist_touches_no_mission_or_block :
  forall (w : World) (u : string) (req : ReflectPeriodRequest.t),
    let w' := fst (ArchivistGraph.run_archivist u req w) in
    missions w' = missions w /\ blocks w' = blocks w.
Proof.
  intros w u req.
  set (R := fun a b : World => missions b = missions a /\ blocks b = blocks a).
  assert (refl : forall a, R a a) by (intros a; unfold R; tauto).
  assert (trans : forall a b c, R a b -> R b c -> R a c).
  { unfold R. intros a b c (H1 & H2) (G1 & G2). split; congruence. }
  assert (H : preserves R (ArchivistGraph.run_archivist u req)).
  { frame refl trans ltac:(frame_write R) fail. }
  exact (H w).
Qed.

(** ** The timeline tools *)

Lemma length_firstn_min {A} (n : nat) (l : list A) :
  len (firstn n l) = Z.min (Z.of_nat n) (len l).
Proof. unfold len. rewrite length_firstn. lia. Qed.

Lemma length_sort_by {A} (ltb : A -> A -> bool) (l : list A) :
  List.length (sort_by ltb l) = List.length l.
Proof. apply Permutation_length, sort_by_perm. Qed.

(** X13: [create_block] first lists the blocks of the mission.  When two
    stored blocks of the mission have the same [sequence_index or 0] and
    starts of which one is naive (a missing start counts as naive) and
    the other aware, the listing raises [TypeError]; [create_block] then
    raises it and leaves the world as it was.  Otherwise [create_block]
    returns: it stores and returns a planned block with a fresh id, the
    given duration and start, and as sequence index the number of blocks
    listed, which is the number of stored blocks of the mission but never
    more than 100, so that every block created once a mission has 100
    blocks gets the index 100. *)
Theorem create_block_numbers_after_the_listed :
  forall (w : World) (u mid : string) (title plan_note : option string)
         (start : option datetime) (minutes : Z),
    let found :=
      List.filter (fun x => String.eqb (Block.mission_id x) mid) (blocks w) in
    ((exists a b,
         In a found /\ In b found
         /\ or_int (Block.sequence_index a) 0 = or_int (Block.sequence_index b) 0
         /\ dt_aware (or_datetime (Block.scheduled_start a) datetime_max)
            <> dt_aware (or_datetime (Block.scheduled_start b) datetime_max)) ->
     TimelineTools.create_block u mid title plan_note start minutes w
     = (w, Raise naive_with_aware))
    /\ ((forall a b,
            In a found -> In b found ->
            or_int (Block.sequence_index a) 0 = or_int (Block.sequence_index b) 0 ->
            dt_aware (or_datetime (Block.scheduled_start a) datetime_max)
            = dt_aware (or_datetime (Block.scheduled_start b) datetime_max)) ->
        exists w' b,
          TimelineTools.create_block u mid title plan_note start minutes w
          = (w', Ok b)
          /\ Block.sequence_index b = Some (Z.min 100 (len found))
          /\ Block.id b = strip (new_id_at w (ids_drawn w))
          /\ Block.user_id b = strip u /\ Block.mission_id b = strip mid
          /\ Block.status b = BlockStatus.PLANNED
          /\ Block.planned_duration_minutes b = Some minutes
          /\ Block.scheduled_start b = start
          /\ InMemoryBlocksRepository.get (Block.id b) w' = (w', Ok (Some b))
          /\ block_ids_kept w w').
Proof.
  intros w u mid title plan_note start minutes found.
  assert (Ef : List.filter (fun b => String.eqb (Block.mission_id b) mid && true)
                           (blocks w) = found)
    by (apply filter_ext; intros x; now rewrite andb_true_r).
  assert (Hr : forall a b,
             InMemoryBlocksRepository.mission_order_raises a b = true
             <-> or_int (Block.sequence_index a) 0 = or_int (Block.sequence_index b) 0
                 /\ dt_aware (or_datetime (Block.scheduled_start a) datetime_max)
                    <> dt_aware (or_datetime (Block.scheduled_start b) datetime_max)).
  { intros a b. unfold InMemoryBlocksRepository.mission_order_raises, comparable.
    rewrite andb_true_iff, Z.eqb_eq, negb_true_iff, eqb_false_iff. tauto. }
  unfold TimelineTools.create_block, InMemoryBlocksRepository.list_for_mission,
    InMemoryBlocksRepository.create, InMemoryBlocksRepository.get.
  cbv beta iota zeta delta [bind gets ret lift new_id modify validate_block raise].
  cbn [Block.completion_ratio]. rewrite Ef.
  split.
  - intros (a & b & Ha & Hb & Hab).
    assert (C : existsb (fun a => existsb (InMemoryBlocksRepository.mission_order_raises a)
                                          found) found = true)
      by (apply clash_spec; exists a, b; split; [| split]; try assumption; now apply Hr).
    now rewrite C.
  - intros Hok.
    assert (C : existsb (fun a => existsb (InMemoryBlocksRepository.mission_order_raises a)
                                          found) found = false).
    { apply no_clash_spec. intros a b Ha Hb.
      destruct (InMemoryBlocksRepository.mission_order_raises a b) eqn:E;
        [| reflexivity].
      apply Hr in E. destruct E as [E1 E2]. now specialize (Hok a b Ha Hb E1). }
    rewrite C. do 2 eexists. split; [reflexivity |].
    cbn [Block.sequence_index Block.id Block.user_id Block.mission_id Block.status
         Block.planned_duration_minutes Block.scheduled_start].
    world_simpl.
    split.
    { f_equal. rewrite py_slice_firstn by lia. change (Z.to_nat 100) with 100%nat.
      rewrite length_firstn_min. unfold len. now rewrite length_sort_by. }
    repeat (split; [reflexivity |]).
    split.
    + now rewrite dict_get_set_same.
    + apply (block_ids_kept_set (set_ids_drawn (S (ids_drawn w)) w)).
Qed.

(** X14: [start_block] of an id that is not stored returns [None] and
    leaves the world as it was, the clock included.  For a stored block it
    never raises, whatever the block's status: it reads the clock once,
    stores and returns the block with status [in_progress] and that
    reading as [actual_start], every other field as it was, and leaves the
    other blocks alone. *)
Theorem start_block_stamps_and_stores :
  forall (w : World) (k : string),
    match snd (InMemoryBlocksRepository.get k w) with
    | Ok (Some b) =>
        exists w',
          let started :=
            Block.copy_started b BlockStatus.IN_PROGRESS
                               (utc (clock_at w (clock_reads w))) in
          TimelineTools.start_block k w = (w', Ok (Some started))
          /\ InMemoryBlocksRepository.get k w' = (w', Ok (Some started))
          /\ (forall k', k' <> k ->
                snd (InMemoryBlocksRepository.get k' w')
                = snd (InMemoryBlocksRepository.get k' w))
          /\ List.length (blocks w') = List.length (blocks w)
          /\ clock_reads w' = S (clock_reads w)
    | _ => TimelineTools.start_block k w = (w, Ok None)
    end.
Proof.
  intros w k.
  unfold TimelineTools.start_block, InMemoryBlocksRepository.get,
    InMemoryBlocksRepository.update.
  cbv beta iota zeta delta [bind gets ret now_utc modify raise]. cbn [snd].
  destruct (dict_get Block.id k (blocks w)) as [b |] eqn:E; [| reflexivity].
  destruct (dict_get_key _ _ _ _ E) as [Hid _].
  world_simpl. cbn [Block.copy_started Block.id].
  rewrite Hid, (dict_get_mem _ _ _ _ E). cbn [negb].
  eexists. split; [reflexivity |]. world_simpl. cbn [snd].
  split.
  { rewrite dict_get_set_same; [reflexivity | exact Hid]. }
  split.
  { intros k' Hk. rewrite dict_get_set_other; [reflexivity |]. cbn. congruence. }
  split; [| reflexivity].
  rewrite length_dict_set. cbn [Block.copy_started Block.id].
  rewrite Hid, (dict_get_mem _ _ _ _ E). reflexivity.
Qed.

(** X15: [complete_block] of an id that is not stored returns [None] and
    leaves the world as it was.  For a stored block it never raises: it
    stores and returns the block with status [completed], the clock
    reading as [actual_end], and the outcome note and completion ratio it
    was given in place of the old ones, [None] included.  The ratio is
    not checked: a ratio outside [0, 1] is stored, and the stored block
    no longer passes the validation of [Block]. *)
Theorem complete_block_stores_unchecked :
  forall (w : World) (k : string) (note : option string) (ratio : option Q),
    match snd (InMemoryBlocksRepository.get k w) with
    | Ok (Some b) =>
        exists w',
          let done :=
            Block.copy_completed b BlockStatus.COMPLETED
                                 (utc (clock_at w (clock_reads w))) note ratio in
          TimelineTools.complete_block k note ratio w = (w', Ok (Some done))
          /\ InMemoryBlocksRepository.get k w' = (w', Ok (Some done))
          /\ Block.status done = BlockStatus.COMPLETED
          /\ Block.outcome_note done = note
          /\ Block.completion_ratio done = ratio
          /\ Block.actual_start done = Block.actual_start b
          /\ (forall r, ratio = Some r -> Qin_range 0 1 r = false ->
                validate_block done = Raise (ValidationError "completion_ratio"))
    | _ => TimelineTools.complete_block k note ratio w = (w, Ok None)
    end.
Proof.
  intros w k note ratio.
  unfold TimelineTools.complete_block, InMemoryBlocksRepository.get,
    InMemoryBlocksRepository.update.
  cbv beta iota zeta delta [bind gets ret now_utc modify raise]. cbn [snd].
  destruct (dict_get Block.id k (blocks w)) as [b |] eqn:E; [| reflexivity].
  destruct (dict_get_key _ _ _ _ E) as [Hid _].
  world_simpl. cbn [Block.copy_completed Block.id].
  rewrite Hid, (dict_get_mem _ _ _ _ E). cbn [negb].
  eexists. split; [reflexivity |]. world_simpl. cbn [snd].
  split.
  { rewrite dict_get_set_same; [reflexivity | exact Hid]. }
  repeat (split; [reflexivity |]).
  intros r -> Hr. unfold validate_block.
  cbn [Block.completion_ratio Block.copy_completed].
  now rewrite Hr.
Qed.

(** X16: [cancel_block] and [skip_block] return [None] for an id that is
    not stored and leave the world as it was; for a stored block they
    store and return the block with status [cancelled], respectively
    [skipped], change no other field, and do not read the clock. *)
Theorem cancel_and_skip_change_the_status_only :
  forall (w : World) (k : string),
    match snd (InMemoryBlocksRepository.get k w) with
    | Ok (Some b) =>
        (exists w',
           TimelineTools.cancel_block k w
           = (w', Ok (Some (Block.copy_status b BlockStatus.CANCELLED)))
           /\ InMemoryBlocksRepository.get k w'
              = (w', Ok (Some (Block.copy_status b BlockStatus.CANCELLED)))
           /\ clock_reads w' = clock_reads w)
        /\ (exists w',
              TimelineTools.skip_block k w
              = (w', Ok (Some (Block.copy_status b BlockStatus.SKIPPED)))
              /\ InMemoryBlocksRepository.get k w'
                 = (w', Ok (Some (Block.copy_status b BlockStatus.SKIPPED)))
              /\ clock_reads w' = clock_reads w)
    | _ =>
        TimelineTools.cancel_block k w = (w, Ok None)
        /\ TimelineTools.skip_block k w = (w, Ok None)
    end.
Proof.
  intros w k.
  unfold TimelineTools.cancel_block, TimelineTools.skip_block,
    InMemoryBlocksRepository.get, InMemoryBlocksRepository.update.
  cbv beta iota zeta delta [bind gets ret modify raise]. cbn [snd].
  destruct (dict_get Block.id k (blocks w)) as [b |] eqn:E; [| split; reflexivity].
  destruct (dict_get_key _ _ _ _ E) as [Hid _].
  cbn [Block.copy_status Block.id].
  rewrite Hid, (dict_get_mem _ _ _ _ E). cbn [negb].
  split; (eexists; split; [reflexivity |]; world_simpl; cbn [snd];
          split; [| reflexivity];
          rewrite dict_get_set_same; [reflexivity | exact Hid]).
Qed.

(** X17: [update_block_plan] returns [None] for an id that is not stored.
    For a stored block it returns the block with each of title, plan
    note and planned duration replaced when an argument is given for it
    and kept otherwise, and stores that block; an empty title or a
    duration of [0] counts as given.  With no argument given the stored
    block is returned and the world is as it was. *)
Theorem update_block_plan_replaces_what_is_given :
  forall (w : World) (k : string) (title plan_note : option string)
         (minutes : option Z),
    match snd (InMemoryBlocksRepository.get k w) with
    | Ok (Some b) =>
        exists w',
          let planned := Block.copy_plan b title plan_note minutes in
          TimelineTools.update_block_plan k title plan_note minutes w
          = (w', Ok (Some planned))
          /\ InMemoryBlocksRepository.get k w' = (w', Ok (Some planned))
          /\ (title = None -> plan_note = None -> minutes = None -> w' = w)
          /\ (forall n, minutes = Some n ->
                Block.planned_duration_minutes planned = Some n)
          /\ (forall t, title = Some t -> Block.title planned = Some t)
    | _ =>
        TimelineTools.update_block_plan k title plan_note minutes w = (w, Ok None)
    end.
Proof.
  intros w k title plan_note minutes.
  unfold TimelineTools.update_block_plan, InMemoryBlocksRepository.get,
    InMemoryBlocksRepository.update.
  cbv beta iota zeta delta [bind gets ret modify raise]. cbn [snd].
  destruct (dict_get Block.id k (blocks w)) as [b |] eqn:E; [| reflexivity].
  destruct (dict_get_key _ _ _ _ E) as [Hid _].
  assert (Hmem := dict_get_mem _ _ _ _ E).
  destruct title as [t |], plan_note as [p |], minutes as [n |];
    cbn [Block.copy_plan Block.id]; rewrite ?Hid, ?Hmem; cbn [negb];
    try (eexists; split; [reflexivity |]; world_simpl; cbn [snd];
         split; [rewrite dict_get_set_same; [reflexivity | exact Hid] |];
         split; [intros; discriminate |];
         split; [intros ? [= <-]; reflexivity || intros; discriminate
                | intros ? [= <-]; reflexivity || intros; discriminate ]).
  exists w. rewrite E. clear E Hid Hmem. destruct b.
  split; [reflexivity |]. split; [reflexivity |].
  split; [reflexivity |]. split; intros; discriminate.
Qed.

Lemma commit_loop_run (bs : list Block.t) : forall (saved : list Block.t) (w : World),
  TimelineTools.commit_loop bs saved w
  = (fold_left (fun a b => set_blocks (dict_set Block.id b (blocks a)) a) bs w,
     Ok (saved ++ bs)%list).
Proof.
  induction bs as [| b bs IH]; intros saved w; cbn [TimelineTools.commit_loop fold_left].
  - unfold ret. now rewrite app_nil_r.
  - unfold InMemoryBlocksRepository.create.
    cbv beta iota zeta delta [bind modify ret].
    rewrite IH, <- app_assoc. reflexivity.
Qed.

Lemma find_over_app {A} (p : A -> bool) (l1 l2 : list A) :
  find p (l1 ++ l2)%list
  = match find p l1 with Some x => Some x | None => find p l2 end.
Proof.
  induction l1 as [| x l1 IH]; cbn; [reflexivity |].
  destruct (p x); [reflexivity | exact IH].
Qed.

Lemma commit_fold_get (bs : list Block.t) : forall (w : World) (k : string),
  dict_get Block.id k
           (blocks (fold_left (fun a b => set_blocks (dict_set Block.id b (blocks a)) a)
                              bs w))
  = match find (fun b => String.eqb (Block.id b) k) (rev bs) with
    | Some b => Some b
    | None => dict_get Block.id k (blocks w)
    end.
Proof.
  induction bs as [| b bs IH]; intros w k; cbn [fold_left rev]; [reflexivity |].
  rewrite IH. world_simpl.
  rewrite find_over_app.
  destruct (find (fun b0 => String.eqb (Block.id b0) k) (rev bs)); [reflexivity |].
  cbn [find]. destruct (String.eqb_spec (Block.id b) k) as [<- | Hne].
  - now rewrite dict_get_set_same.
  - rewrite dict_get_set_other; [reflexivity | congruence].
Qed.

(** X18: [commit_blocks] never raises and returns the list it was given.
    Afterwards [get] of an id returns the last block of the list with that
    id, and answers as before for an id that no block of the list has; in
    particular, when the ids of the list are pairwise distinct, every
    block of the list is read back as it was committed. *)
Theorem commit_blocks_stores_every_block :
  forall (w : World) (bs : list Block.t),
    exists w',
      TimelineTools.commit_blocks bs w = (w', Ok bs)
      /\ (forall k,
            snd (InMemoryBlocksRepository.get k w')
            = match find (fun b => String.eqb (Block.id b) k) (rev bs) with
              | Some b => Ok (Some b)
              | None => snd (InMemoryBlocksRepository.get k w)
              end)
      /\ (List.NoDup (map Block.id bs) ->
          forall b, In b bs ->
            InMemoryBlocksRepository.get (Block.id b) w' = (w', Ok (Some b)))
      /\ missions w' = missions w /\ episodes w' = episodes w.
Proof.
  intros w bs. unfold TimelineTools.commit_blocks. rewrite commit_loop_run.
  eexists. split; [reflexivity |].
  unfold InMemoryBlocksRepository.get, gets. cbn [snd].
  assert (G : forall k,
             dict_get Block.id k
               (blocks (fold_left (fun a b => set_blocks (dict_set Block.id b (blocks a)) a)
                                  bs w))
             = match find (fun b => String.eqb (Block.id b) k) (rev bs) with
               | Some b => Some b
               | None => dict_get Block.id k (blocks w)
               end) by (intros k; apply commit_fold_get).
  split; [intros k; rewrite G; now destruct (find _ (rev bs)) |].
  split.
  - intros Hnd b Hb. rewrite G.
    assert (F : find (fun b0 => String.eqb (Block.id b0) (Block.id b)) (rev bs) = Some b).
    { destruct (find _ (rev bs)) as [c |] eqn:Ec.
      - apply find_some in Ec. destruct Ec as [Hc Eid].
        apply in_rev in Hc. apply String.eqb_eq in Eid.
        f_equal. clear G. induction bs as [| x bs IH]; [destruct Hb |].
        cbn in Hnd. inversion Hnd as [| ? ? Hx Hnd']; subst.
        destruct Hb as [-> | Hb], Hc as [-> | Hc]; auto.
        + exfalso. apply Hx. rewrite <- Eid. now apply in_map.
        + exfalso. apply Hx. rewrite Eid. now apply in_map.
      - exfalso. apply in_rev in Hb.
        pose proof (find_none _ _ Ec b Hb) as Hf. cbn in Hf.
        now rewrite String.eqb_refl in Hf. }
    now rewrite F.
  - clear G. revert w. induction bs as [| b bs IH]; intros w; cbn [fold_left]; [auto |].
    destruct (IH (set_blocks (dict_set Block.id b (blocks w)) w)) as [H1 H2].
    rewrite H1, H2. auto.
Qed.

Lemma filter_all {A} (p : A -> bool) (l : list A) :
  (forall x, In x l -> p x = true) -> List.filter p l = l.
Proof.
  induction l as [| x l IH]; intros H; cbn; [reflexivity |].
  rewrite (H x (or_introl eq_refl)). f_equal. apply IH. intros y Hy. apply H. now right.
Qed.

Lemma start_order_asym (a b : Block.t) :
  InMemoryBlocksRepository.start_order a b = true ->
  InMemoryBlocksRepository.start_order b a = false.
Proof. apply datetime_ltb_asym. Qed.

Lemma start_order_trans (a b c : Block.t) :
  InMemoryBlocksRepository.start_order b a = false ->
  InMemoryBlocksRepository.start_order c b = false ->
  InMemoryBlocksRepository.start_order c a = false.
Proof. apply datetime_ltb_trans. Qed.



Lemma propose_loop_returns mission mission_id start duration indices :
  (forall i, In i indices -> 1 <= toordinal start + i <= MAXORDINAL) ->
  forall blocks w,
    exists w' bs,
      TimelineTools.propose_loop mission mission_id start duration indices blocks w
      = (w', Ok bs)
      /\ len bs = len blocks + len (kept_days mission start indices).
Proof.
  induction indices as [| i rest IH]; intros Hr blocks w;
    cbn [TimelineTools.propose_loop].
  - exists w, blocks. split; [reflexivity |]. unfold kept_days, len. cbn. lia.
  - assert (Hi := Hr i (or_introl eq_refl)).
    assert (Hrest : forall j, In j rest -> 1 <= toordinal start + j <= MAXORDINAL)
      by (intros j Hj; apply Hr; now right).
    unfold bind at 1, lift, date_add_days.
    destruct (Z.leb_spec 1 (toordinal start + i)) as [_ | ?]; [| lia].
    destruct (Z.leb_spec (toordinal start + i) MAXORDINAL) as [_ | ?]; [| lia].
    cbn [andb]. rewrite skip_test.
    unfold kept_days. cbn [map List.filter]. unfold candidate_day at 1.
    destruct (is_day_off mission (mkdate (toordinal start + i))); cbn [negb].
    + destruct (IH Hrest blocks w) as (w' & bs & Hrun & Hlen).
      exists w', bs. split; [exact Hrun |]. exact Hlen.
    + cbv beta iota zeta delta [bind new_id lift validate_block].
      cbn [Block.completion_ratio].
      match goal with
      | |- context [TimelineTools.propose_loop _ _ _ _ rest ?bl ?ww] =>
          destruct (IH Hrest bl ww) as (w' & bs & Hrun & Hlen)
      end.
      exists w', bs. split; [exact Hrun |].
      rewrite Hlen. unfold kept_days, len. rewrite length_app. cbn [List.length]. lia.
Qed.

Lemma propose_loop_overflows mission mission_id start duration indices :
  (exists i, In i indices /\ MAXORDINAL < toordinal start + i) ->
  (forall i, In i indices -> 1 <= toordinal start + i) ->
  forall blocks w,
    snd (TimelineTools.propose_loop mission mission_id start duration indices blocks w)
    = Raise (OverflowError "date value out of range").
Proof.
  induction indices as [| i rest IH]; intros (j & Hj & Hover) Hlow blocks w;
    [destruct Hj |].
  cbn [TimelineTools.propose_loop].
  unfold bind at 1, lift, date_add_days.
  destruct (Z.leb_spec 1 (toordinal start + i)) as [_ | ?];
    [| specialize (Hlow i (or_introl eq_refl)); lia].
  destruct (Z.leb_spec (toordinal start + i) MAXORDINAL) as [Hle | Hgt];
    cbn [andb]; [| reflexivity].
  assert (Hex : exists i0, In i0 rest /\ MAXORDINAL < toordinal start + i0).
  { destruct Hj as [-> | Hj]; [lia | now exists j]. }
  assert (Hlow' : forall i0, In i0 rest -> 1 <= toordinal start + i0)
    by (intros i0 Hi0; apply Hlow; now right).
  destruct (match MissionConstraints.days_off (Mission.constraints mission) with
            | [] => false
            | _ :: _ => _
            end).
  - apply (IH Hex Hlow').
  - cbv beta iota zeta delta [bind new_id lift validate_block].
    cbn [Block.completion_ratio]. apply (IH Hex Hlow').
Qed.

Lemma In_range (n i : Z) : In i (range n) <-> 0 <= i < n.
Proof.
  unfold range. rewrite in_map_iff. split.
  - intros (k & <- & Hk). apply in_seq in Hk. lia.
  - intros H. exists (Z.to_nat i). split; [lia |]. apply in_seq. lia.
Qed.

(** X20: for a stored mission and a start date (the one given, or today),
    block proposal returns a list exactly when every candidate day
    [start], ..., [start + num_blocks - 1] exists in the calendar, and
    then it proposes one block for each candidate day that is not a day
    off; when a candidate day lies beyond [date.max] it raises
    [OverflowError], even if the days before it gave blocks and even if
    that day would have been a day off. *)
Theorem propose_blocks_returns_or_overflows :
  forall (w : World) (mission_id : string) (start_date : option date)
         (num_blocks default_duration : Z) (mission : Mission.t),
    let start := match start_date with Some d => d | None => today w end in
    dict_get Mission.id mission_id (missions w) = Some mission ->
    1 <= toordinal start ->
    (toordinal start + num_blocks - 1 <= MAXORDINAL \/ num_blocks <= 0 ->
     exists w' bs,
       TimelineTools.propose_blocks_for_mission
         mission_id start_date num_blocks default_duration w = (w', Ok bs)
       /\ len bs = len (kept_days mission start (range num_blocks)))
    /\ (0 < num_blocks -> MAXORDINAL < toordinal start + num_blocks - 1 ->
        snd (TimelineTools.propose_blocks_for_mission
               mission_id start_date num_blocks default_duration w)
        = Raise (OverflowError "date value out of range")).
Proof.
  intros w mission_id start_date num_blocks default_duration mission start Hget Hstart.
  unfold TimelineTools.propose_blocks_for_mission, InMemoryMissionsRepository.get.
  unfold bind at 1 3, gets. rewrite Hget.
  assert (Hs : forall k : date -> M (list Block.t),
             bind match start_date with Some d => ret d | None => gets today end k w
             = k start w)
    by (intros k; subst start; now destruct start_date).
  rewrite !Hs. split.
  - intros Hfit.
    destruct (propose_loop_returns
                mission mission_id start
                (match MissionPreferences.preferred_block_lengths
                         (Mission.preferences mission) with
                 | Some (first :: _) => first
                 | _ => default_duration
                 end)
                (range num_blocks)) with (blocks := @nil Block.t) (w := w)
      as (w' & bs & Hrun & Hlen).
    { intros i Hi. apply In_range in Hi. lia. }
    exists w', bs. split; [exact Hrun |]. rewrite Hlen. unfold len. cbn. lia.
  - intros Hn Hover. apply propose_loop_overflows.
    + exists (num_blocks - 1). split; [apply In_range; lia | lia].
    + intros i Hi. apply In_range in Hi. lia.
Qed.

Lemma propose_blocks_returns_witness :
  exists w' bs,
    TimelineTools.propose_blocks_for_mission "m1" None 3 25 Sample.mission_only
    = (w', Ok bs)
    /\ len bs = len (kept_days (Sample.mission "m1" "u1" MissionStatus.ACTIVE)
                               Sample.day0 (range 3)).
Proof.
  refine (proj1 (propose_blocks_returns_or_overflows
                   Sample.mission_only "m1" None 3 25
                   (Sample.mission "m1" "u1" MissionStatus.ACTIVE) eq_refl _) _).
  - vm_compute. discriminate.
  - left. vm_compute. discriminate.
Defined.

(** ** The mission tools *)

Lemma dict_get_NoDup {A} (key : A -> string) (l : list A) (x : A) :
  List.NoDup (map key l) -> In x l -> dict_get key (key x) l = Some x.
Proof.
  unfold dict_get. induction l as [| y l IH]; intros Hnd Hx; [destruct Hx |].
  cbn in *. inversion Hnd as [| ? ? Hy Hnd']; subst.
  destruct Hx as [-> | Hx]; [now rewrite String.eqb_refl |].
  destruct (String.eqb_spec (key y) (key x)) as [E | _]; [| now apply IH].
  exfalso. apply Hy. rewrite E. now apply in_map.
Qed.

Lemma dict_set_keys {A} (key : A -> string) (x : A) (l : list A) :
  dict_mem key (key x) l = true -> map key (dict_set key x l) = map key l.
Proof.
  unfold dict_mem. induction l as [| y l IH]; cbn; [discriminate |].
  destruct (String.eqb_spec (key y) (key x)) as [E | _]; cbn.
  - intros _. now rewrite E.
  - intros H. now rewrite IH.
Qed.

(** X21: [pause_mission] of an id that is not stored returns [None] and
    leaves the world as it was, the clock included.  For a stored mission
    it never raises: the stored mission gets the status [paused] and the
    clock reading as [updated_at], every other field staying as it was,
    and no other mission changes; with distinct ids in the repository, as
    dictionary keys are, the mission is afterwards never the answer of
    [get_active_mission]. *)
Theorem pause_mission_deactivates :
  forall (w : World) (k : string),
    match snd (MissionTools.get_mission k w) with
    | Ok (Some m) =>
        exists w',
          let paused :=
            Mission.copy_updated m (utc (clock_at w (clock_reads w))) None None
                                 (Some MissionStatus.PAUSED) None None None
                                 None None None in
          MissionTools.pause_mission k w = (w', Ok (Some paused))
          /\ MissionTools.get_mission k w' = (w', Ok (Some paused))
          /\ Mission.status paused = MissionStatus.PAUSED
          /\ Mission.title paused = Mission.title m
          /\ Mission.created_at paused = Mission.created_at m
          /\ (forall k', k' <> k ->
                snd (MissionTools.get_mission k' w')
                = snd (MissionTools.get_mission k' w))
          /\ (List.NoDup (map Mission.id (missions w)) ->
              forall u a,
                snd (MissionTools.get_active_mission u w') = Ok (Some a) ->
                Mission.id a <> k)
    | _ => MissionTools.pause_mission k w = (w, Ok None)
    end.
Proof.
  intros w k.
  unfold MissionTools.pause_mission, MissionTools.update_mission,
    MissionTools.get_mission, InMemoryMissionsRepository.get,
    InMemoryMissionsRepository.update.
  cbv beta iota zeta delta [bind gets ret now_utc modify raise option_map]. cbn [snd].
  destruct (dict_get Mission.id k (missions w)) as [m |] eqn:E; [| reflexivity].
  destruct (dict_get_key _ _ _ _ E) as [Hid Hin].
  assert (Hmem := dict_get_mem _ _ _ _ E).
  world_simpl. cbn [Mission.copy_updated Mission.id].
  rewrite Hid, Hmem. cbn [negb].
  eexists. split; [reflexivity |]. world_simpl. cbn [snd].
  split; [rewrite dict_get_set_same; [reflexivity | exact Hid] |].
  repeat (split; [reflexivity |]).
  split.
  { intros k' Hk. rewrite dict_get_set_other; [reflexivity |]. cbn. congruence. }
  intros Hnd u a Ha Hida.
  match type of Ha with
  | snd (MissionTools.get_active_mission u ?w1) = _ =>
      pose proof (active_mission_selection w1 u) as [_ Hact]
  end.
  unfold MissionTools.get_active_mission in Ha. rewrite Ha in Hact.
  destruct Hact as (Hina & _ & Hst & _). cbn [missions set_missions] in Hina.
  match type of Hina with
  | In a (dict_set Mission.id ?p _) =>
      assert (Hp : dict_get Mission.id k (dict_set Mission.id p (missions w)) = Some p)
        by (apply dict_get_set_same; exact Hid);
      assert (Hkeys : map Mission.id (dict_set Mission.id p (missions w))
                      = map Mission.id (missions w))
        by (apply dict_set_keys; cbn [Mission.id Mission.copy_updated];
            rewrite Hid; exact Hmem);
      assert (Ha' : dict_get Mission.id (Mission.id a)
                             (dict_set Mission.id p (missions w)) = Some a)
        by (apply dict_get_NoDup; [now rewrite Hkeys | exact Hina])
  end.
  rewrite Hida, Hp in Ha'. injection Ha' as <-. discriminate Hst.
Qed.

(** ** The memory tools *)

(** X22: [save_episode] checks the two scores before it stores anything.
    With both scores absent or between 1 and 5 it returns an episode with
    a fresh id and the clock reading as [created_at], which [get] then
    reads back and which is indexed in the semantic memory when there is
    one; with a score outside 1 to 5 it raises a validation error and the
    episodes and the semantic memory are as before, although an
    identifier has been drawn and the clock read. *)
Theorem save_episode_validates_before_storing :
  forall (w : World) (u : string) (kind : EpisodeKind.t) (summary : string)
         (mission_id block_id title reflection : option string)
         (mood_before mood_after : option EmotionLabel.t)
         (focus energy focused leaked : option Z)
         (leaks : option (list LeakEvent.t)) (tags : option (list string)),
    let run := MemoryTools.save_episode u kind summary mission_id block_id title
                 reflection mood_before mood_after focus energy focused leaked
                 leaks tags w in
    ids_drawn (fst run) = S (ids_drawn w)
    /\ clock_reads (fst run) = S (clock_reads w)
    /\ if score_ok focus && score_ok energy then
         exists e,
           snd run = Ok e
           /\ Episode.id e = strip (new_id_at w (ids_drawn w))
           /\ Episode.user_id e = strip u /\ Episode.kind e = kind
           /\ Episode.created_at e = utc (clock_at w (clock_reads w))
           /\ Episode.time_focused_minutes e = focused
           /\ InMemoryEpisodesRepository.get (Episode.id e) (fst run)
              = (fst run, Ok (Some e))
           /\ semantic_memory (fst run)
              = option_map (InMemorySemanticMemory.add_episode e) (semantic_memory w)
       else
         (exists field, snd run = Raise (ValidationError field))
         /\ episodes (fst run) = episodes w
         /\ semantic_memory (fst run) = semantic_memory w.
Proof.
  intros w u kind summary mission_id block_id title reflection mood_before
         mood_after focus energy focused leaked leaks tags run.
  subst run. unfold MemoryTools.save_episode, InMemoryEpisodesRepository.create,
    InMemoryEpisodesRepository.get.
  cbv beta iota zeta delta [bind gets ret new_id now_utc modify lift validate_episode].
  cbn [Episode.focus_score Episode.energy_score].
  destruct (score_ok focus); cbn [negb andb];
    [destruct (score_ok energy); cbn [negb] |].
  - world_simpl.
    destruct (semantic_memory w) as [s |] eqn:Es;
      cbn [fst snd]; world_simpl; rewrite ?Es;
      (split; [reflexivity |]); (split; [reflexivity |]);
      eexists; (split; [reflexivity |]);
      cbn [Episode.id Episode.user_id Episode.kind Episode.created_at
           Episode.time_focused_minutes option_map];
      repeat (split; [reflexivity |]);
      (split; [now rewrite dict_get_set_same | reflexivity]).
  - cbn [fst snd]. world_simpl.
    split; [reflexivity |]. split; [reflexivity |].
    split; [now eexists | split; reflexivity].
  - cbn [fst snd]. world_simpl.
    split; [reflexivity |]. split; [reflexivity |].
    split; [now eexists | split; reflexivity].
Qed.

(** X23: for a user id without surrounding white space,
    [update_user_stats] never raises: it returns the user's profile (the
    stored one, or a fresh one with zero totals) with the three totals
    increased by the three deltas and the four other statistics kept;
    the profile read afterwards is the one returned. *)
Theorem update_user_stats_adds_the_deltas :
  forall (w : World) (u : string) (blocks_delta minutes_delta missions_delta : Z),
    strip u = u ->
    let old :=
      match snd (InMemoryUserProfileRepository.get u w) with
      | Ok (Some p) => UserProfile.stats p
      | _ => UserStats.default
      end in
    exists w' p,
      MemoryTools.update_user_stats u blocks_delta minutes_delta missions_delta w
      = (w', Ok p)
      /\ UserStats.total_blocks_completed (UserProfile.stats p)
         = UserStats.total_blocks_completed old + blocks_delta
      /\ UserStats.total_focused_minutes (UserProfile.stats p)
         = UserStats.total_focused_minutes old + minutes_delta
      /\ UserStats.total_missions_created (UserProfile.stats p)
         = UserStats.total_missions_created old + missions_delta
      /\ UserStats.avg_block_length_successful (UserProfile.stats p)
         = UserStats.avg_block_length_successful old
      /\ UserStats.avg_start_hour_successful (UserProfile.stats p)
         = UserStats.avg_start_hour_successful old
      /\ UserStats.night_sessions_failure_rate (UserProfile.stats p)
         = UserStats.night_sessions_failure_rate old
      /\ UserStats.morning_sessions_success_rate (UserProfile.stats p)
         = UserStats.morning_sessions_success_rate old
      /\ ((forall q, snd (InMemoryUserProfileRepository.get u w) = Ok (Some q) ->
             UserProfile.user_id q = u) ->
          MemoryTools.get_user_profile u w' = (w', Ok p)).
Proof.
  intros w u db dm dc Hu old. subst old.
  unfold MemoryTools.update_user_stats, MemoryTools.get_user_profile,
    InMemoryUserProfileRepository.get_or_create, InMemoryUserProfileRepository.get,
    InMemoryUserProfileRepository.update.
  cbv beta iota zeta delta [bind gets ret now_utc modify]. cbn [snd].
  destruct (InMemoryUserProfileRepository.assoc_get u (profiles w)) as [q |] eqn:E.
  - world_simpl. do 2 eexists. split; [reflexivity |].
    cbn [UserProfile.stats UserProfile.copy_stats UserStats.total_blocks_completed
         UserStats.total_focused_minutes UserStats.total_missions_created
         UserStats.avg_block_length_successful
         UserStats.avg_start_hour_successful
         UserStats.night_sessions_failure_rate
         UserStats.morning_sessions_success_rate UserProfile.user_id].
    repeat (split; [reflexivity |]).
    intros Hq. rewrite (Hq q eq_refl). world_simpl.
    now rewrite assoc_get_set_same.
  - world_simpl. do 2 eexists. split; [reflexivity |].
    cbn [UserProfile.stats UserProfile.copy_stats UserStats.total_blocks_completed
         UserStats.total_focused_minutes UserStats.total_missions_created
         UserStats.avg_block_length_successful
         UserStats.avg_start_hour_successful
         UserStats.night_sessions_failure_rate
         UserStats.morning_sessions_success_rate UserProfile.user_id
         validated_profile UserStats.default].
    repeat (split; [reflexivity |]).
    intros _. rewrite Hu. world_simpl.
    now rewrite assoc_get_set_same.
Qed.

Lemma update_user_stats_witness :
  exists w' p,
    MemoryTools.update_user_stats "u1" 2 50 0 Sample.host = (w', Ok p)
    /\ UserStats.total_blocks_completed (UserProfile.stats p) = 2
    /\ UserStats.total_focused_minutes (UserProfile.stats p) = 50.
Proof.
  destruct (update_user_stats_adds_the_deltas Sample.host "u1" 2 50 0 eq_refl)
    as (w' & p & Hrun & H1 & H2 & _).
  exists w', p. split; [exact Hrun |]. split; [exact H1 | exact H2].
Defined.

Lemma dict_set_absent {A} (key : A -> string) (x : A) (l : list A) :
  dict_get key (key x) l = None -> dict_set key x l = (l ++ [x])%list.
Proof.
  unfold dict_get. induction l as [| y l IH]; cbn; [reflexivity |].
  destruct (String.eqb (key y) (key x)); [discriminate |].
  intros H. now rewrite IH.
Qed.

(** X24: the period statistics of a user do not depend on the episodes of
    other users: after an episode of another user is stored under an id
    that was not in use, [compute_period_stats] returns for the user what
    it returned before. *)
Theorem period_stats_ignore_other_users :
  forall (w : World) (u : string) (e : Episode.t) (start stop : date),
    Episode.user_id e <> u ->
    snd (InMemoryEpisodesRepository.get (Episode.id e) w) = Ok None ->
    snd (MemoryTools.compute_period_stats
           u start stop (fst (InMemoryEpisodesRepository.create e w)))
    = snd (MemoryTools.compute_period_stats u start stop w).
Proof.
  intros w u e start stop Hu Hnew.
  unfold InMemoryEpisodesRepository.get, gets in Hnew. cbn in Hnew.
  injection Hnew as Hnew.
  unfold MemoryTools.compute_period_stats, MemoryTools.get_episodes_for_period,
    InMemoryEpisodesRepository.list_for_user, InMemoryEpisodesRepository.create.
  cbv beta iota zeta delta [bind gets ret modify fst snd]. world_simpl.
  rewrite (dict_set_absent _ _ _ Hnew), List.filter_app. cbn [List.filter].
  destruct (String.eqb_spec (Episode.user_id e) u) as [E | _]; [contradiction |].
  now rewrite app_nil_r.
Qed.

Lemma period_stats_ignore_other_users_witness :
  Episode.user_id (Sample.episode "e9" "u2" EpisodeKind.SESSION
                                  (mkdatetime Sample.day0 5 true) (Some 45)) <> "u1"
  /\ snd (MemoryTools.compute_period_stats
            "u1" Sample.day0 Sample.day0
            (fst (InMemoryEpisodesRepository.create
                    (Sample.episode "e9" "u2" EpisodeKind.SESSION
                                    (mkdatetime Sample.day0 5 true) (Some 45))
                    Sample.scenario_B)))
     = snd (MemoryTools.compute_period_stats
              "u1" Sample.day0 Sample.day0 Sample.scenario_B).
Proof.
  split; [discriminate |].
  apply period_stats_ignore_other_users; [discriminate | reflexivity].
Defined.

(** ** The archivist on the kinds it can write *)

Lemma gets_bind {A B} (f : World -> A) (k : A -> M B) (w : World) :
  bind (gets f) k w = k (f w) w.
Proof. reflexivity. Qed.

Lemma ret_bind {A B} (a : A) (k : A -> M B) (w : World) :
  bind (ret a) k w = k a w.
Proof. reflexivity. Qed.

Lemma get_or_create_returns (u : string) (w : World) :
  exists w1 p,
    InMemoryUserProfileRepository.get_or_create u w = (w1, Ok p)
    /\ episodes w1 = episodes w.
Proof.
  unfold InMemoryUserProfileRepository.get_or_create, bind, gets.
  destruct (InMemoryUserProfileRepository.assoc_get u (profiles w));
    do 2 eexists; split; reflexivity.
Qed.

Lemma update_user_stats_returns (u : string) (a b c : Z) (w : World) :
  exists w1 p,
    MemoryTools.update_user_stats u a b c w = (w1, Ok p)
    /\ episodes w1 = episodes w.
Proof.
  unfold MemoryTools.update_user_stats.
  destruct (get_or_create_returns u w) as (w1 & p & E & He).
  rewrite (bind_ok _ _ _ _ _ E). do 2 eexists. split; [reflexivity |].
  cbn. exact He.
Qed.

Lemma save_episode_returns (w : World) (u : string) (kind : EpisodeKind.t)
      (summary : string) (mission_id block_id title reflection : option string)
      (mood_before mood_after : option EmotionLabel.t)
      (focus energy focused leaked : option Z)
      (leaks : option (list LeakEvent.t)) (tags : option (list string)) :
  score_ok focus = true -> score_ok energy = true ->
  exists w1 e,
    MemoryTools.save_episode u kind summary mission_id block_id title reflection
                             mood_before mood_after focus energy focused leaked
                             leaks tags w = (w1, Ok e)
    /\ Episode.kind e = kind /\ Episode.time_focused_minutes e = focused
    /\ Episode.focus_score e = focus /\ Episode.energy_score e = energy
    /\ dict_get Episode.id (Episode.id e) (episodes w1) = Some e.
Proof.
  intros Hf He.
  unfold MemoryTools.save_episode, InMemoryEpisodesRepository.create.
  cbv beta iota zeta delta [bind gets ret new_id now_utc modify lift validate_episode].
  cbn [Episode.focus_score Episode.energy_score]. rewrite Hf, He. cbn [negb].
  do 2 eexists. split; [reflexivity |].
  cbn [Episode.kind Episode.time_focused_minutes Episode.focus_score
       Episode.energy_score Episode.id].
  repeat (split; [reflexivity |]).
  world_simpl. destruct (semantic_memory w); world_simpl;
    now rewrite dict_get_set_same.
Qed.

Lemma load_period_data_returns (st : ArchivistGraph.State) (w : World) :
  ReflectPeriodRequest.kind (ArchivistGraph.request st) = ReflectPeriodKind.DAY
  \/ (ReflectPeriodRequest.kind (ArchivistGraph.request st) = ReflectPeriodKind.MISSION
      /\ 31 <= toordinal (today w) <= MAXORDINAL) ->
  exists w1 st1,
    ArchivistGraph._load_period_data st w = (w1, Ok st1)
    /\ episodes w1 = episodes w
    /\ ArchivistGraph.request st1 = ArchivistGraph.request st
    /\ ArchivistGraph.user_id st1 = ArchivistGraph.user_id st
    /\ exists p, ArchivistGraph.period st1 = Some p
                 /\ ArchivistGraph.kind p
                    = ReflectPeriodRequest.kind (ArchivistGraph.request st).
Proof.
  intros Hk. unfold ArchivistGraph._load_period_data. cbv zeta.
  rewrite gets_bind.
  assert (Hd : exists d,
             match ReflectPeriodRequest.kind (ArchivistGraph.request st) with
             | ReflectPeriodKind.BLOCK | ReflectPeriodKind.DAY => ret (today w)
             | ReflectPeriodKind.WEEK => lift (date_add_days (today w) (-7))
             | ReflectPeriodKind.MISSION => lift (date_add_days (today w) (-30))
             end w = (w, Ok d)).
  { destruct Hk as [-> | [-> Hr]]; [now eexists |].
    unfold lift, date_add_days.
    destruct (Z.leb_spec 1 (toordinal (today w) + -30)) as [_ | ?]; [| lia].
    destruct (Z.leb_spec (toordinal (today w) + -30) MAXORDINAL) as [_ | ?]; [| lia].
    now eexists. }
  destruct Hd as (d & Hd). rewrite (bind_ok _ _ _ _ _ Hd).
  assert (Hb : exists b,
             match ReflectPeriodRequest.block_id (ArchivistGraph.request st) with
             | Some bid => if truthy_str bid then TimelineTools.get_block bid else ret None
             | None => ret None
             end w = (w, Ok b)).
  { destruct (ReflectPeriodRequest.block_id _) as [bid |]; [| now eexists].
    destruct (truthy_str bid); now eexists. }
  destruct Hb as (b & Hb). rewrite (bind_ok _ _ _ _ _ Hb).
  assert (Hm : exists m,
             match ReflectPeriodRequest.mission_id (ArchivistGraph.request st) with
             | Some mid => if truthy_str mid then MissionTools.get_mission mid else ret None
             | None => ret None
             end w = (w, Ok m)).
  { destruct (ReflectPeriodRequest.mission_id _) as [mid |]; [| now eexists].
    destruct (truthy_str mid); now eexists. }
  destruct Hm as (m & Hm). rewrite (bind_ok _ _ _ _ _ Hm).
  rewrite (bind_ok _ _ _ _ _ (get_episodes_for_period_run _ _ _ _)).
  unfold MemoryTools.get_user_profile.
  destruct (get_or_create_returns (ArchivistGraph.user_id st) w) as (w1 & p & Hp & He).
  rewrite (bind_ok _ _ _ _ _ Hp).
  do 2 eexists. split; [reflexivity |].
  split; [exact He |].
  cbn [ArchivistGraph.request ArchivistGraph.user_id ArchivistGraph.period
       ArchivistGraph.kind].
  split; [reflexivity |]. split; [reflexivity |].
  eexists. split; reflexivity.
Qed.

Lemma compute_stats_returns (st : ArchivistGraph.State) (p : ArchivistGraph.Period)
      (w : World) :
  ArchivistGraph.period st = Some p ->
  exists st2 s,
    ArchivistGraph._compute_stats st w = (w, Ok st2)
    /\ ArchivistGraph.request st2 = ArchivistGraph.request st
    /\ ArchivistGraph.user_id st2 = ArchivistGraph.user_id st
    /\ ArchivistGraph.period st2 = Some p
    /\ ArchivistGraph.stats st2 = Some s
    /\ PeriodStats.total_focused_minutes s
       = focused_sum (firstn 50 (newest_first
                        (in_range_episodes (ArchivistGraph.user_id st)
                           (ArchivistGraph.start_date p) (ArchivistGraph.end_date p)
                           (episodes w)))).
Proof.
  intros Hp. unfold ArchivistGraph._compute_stats. rewrite Hp.
  rewrite (bind_ok _ _ _ _ _ (compute_period_stats_run _ _ _ _)).
  unfold ret. do 2 eexists. split; [reflexivity |].
  cbn [ArchivistGraph.request ArchivistGraph.user_id ArchivistGraph.period
       ArchivistGraph.stats].
  repeat (split; [first [reflexivity | exact Hp] |]).
  destruct (0 <? _);
    cbn [PeriodStats.with_completion_rate PeriodStats.total_focused_minutes
         MemoryTools.stats_of];
    rewrite fold_visit_focused; reflexivity.
Qed.

Lemma identify_patterns_returns (st : ArchivistGraph.State) (w : World) :
  exists st3 ps,
    ArchivistGraph._identify_patterns st w = (w, Ok st3)
    /\ ArchivistGraph.request st3 = ArchivistGraph.request st
    /\ ArchivistGraph.user_id st3 = ArchivistGraph.user_id st
    /\ ArchivistGraph.period st3 = ArchivistGraph.period st
    /\ ArchivistGraph.stats st3 = ArchivistGraph.stats st
    /\ Base.all_ok (map validate_insight
                        (ArchivistGraph.or_nil (ArchivistGraph.patterns st3)))
       = Ok ps.
Proof.
  unfold ArchivistGraph._identify_patterns. rewrite gets_bind. cbv zeta. unfold ret.
  cbn [ArchivistGraph.request ArchivistGraph.user_id ArchivistGraph.period
       ArchivistGraph.stats ArchivistGraph.patterns ArchivistGraph.or_nil].
  destruct (Qle_bool 4 (ArchivistGraph.stat_avg_focus st));
    [| destruct (ArchivistGraph.Qlt_bool 0 (ArchivistGraph.stat_avg_focus st)
                 && ArchivistGraph.Qlt_bool (ArchivistGraph.stat_avg_focus st) 3)];
    destruct (ArchivistGraph.Qlt_bool 0 (ArchivistGraph.stat_avg_energy st)
              && ArchivistGraph.Qlt_bool (ArchivistGraph.stat_avg_energy st) 3);
    do 2 eexists; (split; [reflexivity |]);
    repeat (split; [reflexivity |]); reflexivity.
Qed.

Lemma write_episode_returns (st : ArchivistGraph.State) (p : ArchivistGraph.Period)
      (w : World) :
  ArchivistGraph.period st = Some p ->
  ArchivistGraph.kind p = ReflectPeriodKind.DAY
  \/ ArchivistGraph.kind p = ReflectPeriodKind.MISSION ->
  score_ok (ReflectPeriodRequest.focus_score (ArchivistGraph.request st)) = true ->
  score_ok (ReflectPeriodRequest.energy_score (ArchivistGraph.request st)) = true ->
  exists w1 st4 e,
    ArchivistGraph._write_episode st w = (w1, Ok st4)
    /\ ArchivistGraph.user_id st4 = ArchivistGraph.user_id st
    /\ ArchivistGraph.stats st4 = ArchivistGraph.stats st
    /\ ArchivistGraph.patterns st4 = ArchivistGraph.patterns st
    /\ ArchivistGraph.episode st4 = Some e
    /\ Episode.kind e
       = match ArchivistGraph.kind p with
         | ReflectPeriodKind.MISSION => EpisodeKind.MISSION
         | _ => EpisodeKind.DAY
         end
    /\ Episode.time_focused_minutes e
       = option_map PeriodStats.total_focused_minutes (ArchivistGraph.stats st)
    /\ score_ok (Episode.focus_score e) = true
    /\ score_ok (Episode.energy_score e) = true
    /\ dict_get Episode.id (Episode.id e) (episodes w1) = Some e.
Proof.
  intros Hp Hk Hf He. unfold ArchivistGraph._write_episode. cbv zeta. rewrite Hp.
  assert (Hkind : lift (EpisodeKind.of_value (ReflectPeriodKind.value (ArchivistGraph.kind p))) w
                  = (w, Ok match ArchivistGraph.kind p with
                           | ReflectPeriodKind.MISSION => EpisodeKind.MISSION
                           | _ => EpisodeKind.DAY
                           end))
    by (destruct Hk as [-> | ->]; reflexivity).
  rewrite (bind_ok _ _ _ _ _ Hkind).
  match goal with
  | |- context [bind (MemoryTools.save_episode ?a1 ?a2 ?a3 ?a4 ?a5 ?a6 ?a7 ?a8 ?a9
                                               ?a10 ?a11 ?a12 ?a13 ?a14 ?a15) _ w] =>
      destruct (save_episode_returns w a1 a2 a3 a4 a5 a6 a7 a8 a9 a10 a11 a12 a13
                                     a14 a15 Hf He)
        as (w1 & e & Hs & E1 & E2 & E3 & E4 & E5)
  end.
  rewrite (bind_ok _ _ _ _ _ Hs). unfold ret.
  exists w1. eexists. exists e. split; [reflexivity |].
  cbn [ArchivistGraph.user_id ArchivistGraph.stats ArchivistGraph.patterns
       ArchivistGraph.episode].
  repeat (split; [reflexivity |]).
  split; [exact E1 |]. split; [exact E2 |].
  rewrite E3, E4. auto.
Qed.

Lemma update_profile_returns (st : ArchivistGraph.State) (w : World) :
  exists w1 st5,
    ArchivistGraph._update_profile st w = (w1, Ok st5)
    /\ ArchivistGraph.stats st5 = ArchivistGraph.stats st
    /\ ArchivistGraph.patterns st5 = ArchivistGraph.patterns st
    /\ ArchivistGraph.episode st5 = ArchivistGraph.episode st
    /\ episodes w1 = episodes w.
Proof.
  unfold ArchivistGraph._update_profile.
  destruct (update_user_stats_returns
              (ArchivistGraph.user_id st) (ArchivistGraph.stat_blocks st)
              (ArchivistGraph.stat_focused st) 0 w) as (w1 & p & Hp & He).
  rewrite (bind_ok _ _ _ _ _ Hp). unfold ret.
  do 2 eexists. split; [reflexivity |].
  cbn [ArchivistGraph.stats ArchivistGraph.patterns ArchivistGraph.episode].
  repeat (split; [reflexivity |]). exact He.
Qed.

(** X25: for a request of kind [day], and for one of kind [mission] on a
    day from which thirty days back exist, whose two scores are absent or
    between 1 and 5, [run_archivist] returns a response: the run stores
    one episode, of kind [day] or [mission], which the response carries,
    and whose focused minutes are the total the response reports. *)
Theorem archivist_returns_for_day_and_mission :
  forall (w : World) (u : string) (req : ReflectPeriodRequest.t),
    ReflectPeriodRequest.kind req = ReflectPeriodKind.DAY
    \/ (ReflectPeriodRequest.kind req = ReflectPeriodKind.MISSION
        /\ 31 <= toordinal (today w) <= MAXORDINAL) ->
    score_ok (ReflectPeriodRequest.focus_score req) = true ->
    score_ok (ReflectPeriodRequest.energy_score req) = true ->
    exists w' resp stored,
      returns (ArchivistGraph.run_archivist u req) w w' resp
      /\ InMemoryEpisodesRepository.get (Episode.id stored) w'
         = (w', Ok (Some stored))
      /\ validate_episode stored = Ok (ReflectPeriodResponse.episode resp)
      /\ Episode.kind (ReflectPeriodResponse.episode resp)
         = match ReflectPeriodRequest.kind req with
           | ReflectPeriodKind.MISSION => EpisodeKind.MISSION
           | _ => EpisodeKind.DAY
           end
      /\ Episode.time_focused_minutes (ReflectPeriodResponse.episode resp)
         = Some (ReflectPeriodResponse.total_focused_minutes resp).
Proof.
  intros w u req Hk Hf He.
  unfold returns, ArchivistGraph.run_archivist, ArchivistGraph.invoke.
  destruct (load_period_data_returns (ArchivistGraph.initial_state u req) w Hk)
    as (w1 & s1 & H1 & _ & R1 & U1 & p & P1 & K1).
  cbn [ArchivistGraph.initial_state ArchivistGraph.request] in R1, K1.
  destruct (compute_stats_returns s1 p w1 P1)
    as (s2 & st & H2 & R2 & U2 & P2 & S2 & _).
  destruct (identify_patterns_returns s2 w1)
    as (s3 & ps & H3 & R3 & U3 & P3 & S3 & V3).
  assert (Hk3 : ArchivistGraph.kind p = ReflectPeriodKind.DAY
                \/ ArchivistGraph.kind p = ReflectPeriodKind.MISSION)
    by (rewrite K1; tauto).
  destruct (write_episode_returns s3 p w1) as
    (w4 & s4 & e & H4 & U4 & S4 & T4 & E4 & Ek & Et & Ef & Ee & Eg);
    [congruence | exact Hk3 | rewrite R3, R2, R1; exact Hf
     | rewrite R3, R2, R1; exact He |].
  destruct (update_profile_returns s4 w4) as (w5 & s5 & H5 & S5 & T5 & E5 & W5).
  assert (Hinv : ArchivistGraph.invoke (ArchivistGraph.initial_state u req) w
                 = (w5, Ok (ArchivistGraph._build_summary s5))).
  { unfold ArchivistGraph.invoke.
    rewrite (bind_ok _ _ _ _ _ H1), (bind_ok _ _ _ _ _ H2), (bind_ok _ _ _ _ _ H3),
      (bind_ok _ _ _ _ _ H4), (bind_ok _ _ _ _ _ H5).
    reflexivity. }
  fold (ArchivistGraph.invoke (ArchivistGraph.initial_state u req)).
  rewrite (bind_ok _ _ _ _ _ Hinv).
  unfold ArchivistGraph.stat_focused, ArchivistGraph.stat_leaked,
    ArchivistGraph.stat_blocks.
  cbn [ArchivistGraph._build_summary ArchivistGraph.episode ArchivistGraph.patterns
       ArchivistGraph.stats].
  rewrite E5, E4, T5, T4, S5, S4, S3, S2.
  assert (Hval : exists e', validate_episode e = Ok e'
                            /\ Episode.kind e' = Episode.kind e
                            /\ Episode.time_focused_minutes e'
                               = Episode.time_focused_minutes e).
  { unfold validate_episode. rewrite Ef, Ee. cbn [negb].
    eexists. split; [reflexivity |]. split; reflexivity. }
  destruct Hval as (e' & Hval & Ek' & Et').
  unfold lift at 1. unfold bind at 1. rewrite Hval.
  unfold lift at 1. unfold bind at 1. rewrite V3.
  unfold ret. do 2 eexists. exists e.
  split; [reflexivity |].
  cbn [ReflectPeriodResponse.episode ReflectPeriodResponse.total_focused_minutes].
  unfold InMemoryEpisodesRepository.get, gets.
  rewrite W5, Eg.
  split; [reflexivity |]. split; [exact Hval |].
  split; [rewrite Ek', Ek, K1; reflexivity |].
  rewrite Et', Et, S3, S2. reflexivity.
Qed.

Lemma archivist_returns_witness :
  exists w' resp,
    returns (ArchivistGraph.run_archivist "u1" (Sample.reflect_request ReflectPeriodKind.DAY))
            Sample.scenario_B w' resp
    /\ Episode.kind (ReflectPeriodResponse.episode resp) = EpisodeKind.DAY
    /\ Episode.time_focused_minutes (ReflectPeriodResponse.episode resp)
       = Some (ReflectPeriodResponse.total_focused_minutes resp).
Proof.
  destruct (archivist_returns_for_day_and_mission
              Sample.scenario_B "u1" (Sample.reflect_request ReflectPeriodKind.DAY))
    as (w' & resp & stored & Hrun & _ & _ & Hk & Ht);
    [left; reflexivity | reflexivity | reflexivity |].
  exists w', resp. split; [exact Hrun |]. split; [exact Hk | exact Ht].
Defined.

(** ** The coach on a block in progress *)

Lemma current_block_in_progress (w : World) (u : string) (b : Block.t) :
  snd (InMemoryBlocksRepository.get_current_block u w) = Ok (Some b) ->
  Block.status b = BlockStatus.IN_PROGRESS.
Proof.
  intros H.
  pose proof (get_current_block_selection w u) as [_ G].
  rewrite H in G. tauto.
Qed.



(** ** ISO 8601 text of commons *)

Section Iso8601.
Import Base TimeUtils.

Lemma ends_with_Z_app (s t : string) :
  ends_with_Z (s ++ t)
  = match t with EmptyString => ends_with_Z s | _ => ends_with_Z t end.
Proof.
  induction s as [| c s IH].
  - destruct t; reflexivity.
  - rewrite append_cons. destruct t as [| c' t'].
    + cbn [ends_with_Z] in *. destruct s as [| c2 s']; [reflexivity |].
      rewrite append_cons in *. exact IH.
    + cbn [ends_with_Z]. destruct s as [| c2 s'].
      * reflexivity.
      * rewrite append_cons in *. exact IH.
Qed.

Lemma drop_last_app_char (s : string) (c : ascii) :
  drop_last (s ++ String c "") = s.
Proof.
  induction s as [| x s IH]; [reflexivity |].
  rewrite append_cons. cbn [drop_last].
  destruct s as [| y s']; [reflexivity |].
  rewrite append_cons in *. now rewrite IH.
Qed.

Lemma digit_char_not_Z (z : Z) : Ascii.eqb (digit_char (z mod 10)) "Z" = false.
Proof.
  pose proof (Z.mod_pos_bound z 10 ltac:(lia)) as H.
  assert (E : z mod 10 = 0 \/ z mod 10 = 1 \/ z mod 10 = 2 \/ z mod 10 = 3
              \/ z mod 10 = 4 \/ z mod 10 = 5 \/ z mod 10 = 6
              \/ z mod 10 = 7 \/ z mod 10 = 8 \/ z mod 10 = 9) by lia.
  repeat (destruct E as [-> | E]; [reflexivity |]).
  rewrite E; reflexivity.
Qed.

Lemma ends_with_Z_cons (c : ascii) (s : string) :
  s <> "" -> ends_with_Z (String c s) = ends_with_Z s.
Proof. destruct s; [contradiction | reflexivity]. Qed.

Lemma fmt_digits_nonempty (n : nat) (z : Z) : fmt_digits (S n) z <> "".
Proof. rewrite fmt_digits_S. discriminate. Qed.

(** Text that ends with decimal digits does not end with the letter. *)
Lemma ends_with_Z_digits (n : nat) (z : Z) :
  ends_with_Z (fmt_digits (S n) z) = false.
Proof.
  induction n as [| n IH].
  - cbn [fmt_digits ends_with_Z]. change (10 ^ Z.of_nat 0) with 1.
    rewrite Z.div_1_r. apply digit_char_not_Z.
  - rewrite fmt_digits_S, ends_with_Z_cons by apply fmt_digits_nonempty.
    exact IH.
Qed.

Lemma digits_end (n : nat) (z : Z) :
  fmt_digits (S n) z <> "" /\ ends_with_Z (fmt_digits (S n) z) = false.
Proof. split; [apply fmt_digits_nonempty | apply ends_with_Z_digits]. Qed.

Lemma app_end (s t : string) :
  t <> "" /\ ends_with_Z t = false ->
  s ++ t <> "" /\ ends_with_Z (s ++ t) = false.
Proof.
  intros [Hne H]. split.
  - intros E. apply (f_equal String.length) in E.
    rewrite length_append in E. destruct t; [contradiction | cbn in E; lia].
  - rewrite ends_with_Z_app. destruct t; [contradiction | exact H].
Qed.

Lemma append_empty_r (s : string) : s ++ "" = s.
Proof. induction s as [| c s IH]; [reflexivity |]. rewrite append_cons. now rewrite IH. Qed.

Lemma app_empty_end (s : string) :
  s <> "" /\ ends_with_Z s = false ->
  s ++ "" <> "" /\ ends_with_Z (s ++ "") = false.
Proof. now rewrite append_empty_r. Qed.

(** The text of [isoformat] ends with a digit. *)
Lemma isoformat_not_Z (d : datetime) : ends_with_Z (isoformat d) = false.
Proof.
  enough (H : isoformat d <> "" /\ ends_with_Z (isoformat d) = false) by apply H.
  unfold isoformat, format_offset. cbv zeta.
  destruct (utcoffset d) as [off |];
    repeat match goal with
           | |- context [if ?c then "" else _] => destruct c
           end;
    repeat first [apply digits_end | apply app_empty_end | apply app_end].
Qed.

Lemma valid_without_microsecond (d : datetime) :
  valid_datetime d = true -> valid_datetime (without_microsecond d) = true.
Proof.
  unfold valid_datetime, without_microsecond.
  cbn [year month day hour minute second microsecond utcoffset].
  rewrite !andb_true_iff. intros [[[[[[[? ?] ?] ?] ?] ?] _] ?].
  repeat split; assumption.
Qed.

Lemma strftime_is_isoformat (d : datetime) :
  utcoffset d = Some 0 ->
  strftime_seconds d ++ "+00:00" = isoformat (without_microsecond d).
Proof.
  intros H. unfold strftime_seconds, isoformat, without_microsecond.
  cbn [year month day hour minute second microsecond utcoffset].
  rewrite H. change (0 =? 0) with true. cbv iota.
  change (format_offset (Some 0)) with "+00:00".
  rewrite !append_assoc. reflexivity.
Qed.



End Iso8601.

(** ** The state dictionary and its schema *)

Section StateSchema.
Import Base.

(** X28: the dictionary [state_to_dict] builds has, for every state, the
    keys of [get_state_schema] and no other, and under each key a value
    of the Python type the schema names for it. *)
Theorem state_to_dict_follows_the_schema :
  forall (s : GlyphState),
    map (fun kt => option_map type_of (state_to_dict s !! fst kt)) get_state_schema
    = map (fun kt => Some (snd kt)) get_state_schema
    /\ forall k, state_to_dict s !! k = None <-> ~ In k (map fst get_state_schema).
Proof.
  intros s. split.
  - unfold state_to_dict.
    match goal with
    | |- context [@list_to_map _ _ (gmap string PyVal) _ _ ?l] =>
        set (top := list_to_map l : gmap string PyVal)
    end.
    destruct (top_lookups _ _ _ _ _ _ _ _ top eq_refl)
      as (T1 & T2 & T3 & T4 & T5 & T6 & T7 & T8).
    cbn [map get_state_schema fst snd].
    rewrite T1, T2, T3, T4, T5, T6, T7, T8. reflexivity.
  - intros k. unfold state_to_dict.
    rewrite <- not_elem_of_list_to_map.
    cbn [map fmap list_fmap fst get_state_schema].
    rewrite <- list_elem_of_In. reflexivity.
Qed.

End StateSchema.
